(** * Excel refresher robot: a shallow embedding of [robot_framework/process.py]

    The robot downloads a workbook from SharePoint, has Excel refresh it in a
    subprocess bounded by a timeout, and uploads the result again.  The Python
    code is glue around three external systems, so the embedding is a state
    and exception monad over a world (local file system, remote store, log,
    trace of external calls) together with an environment that fixes how the
    external systems answer. *)

From Stdlib Require Import ZArith Lia Ascii.
From stdpp Require Import base option list strings gmap pretty.

Local Open Scope Z_scope.

(** ** Python strings *)

Module PyStr.

(** [s.split(sep)] for a separator of one character. *)
Fixpoint split (sep : ascii) (s : string) : list string :=
  match s with
  | EmptyString => [""]
  | String c s' =>
      if decide (c = sep) then "" :: split sep s'
      else match split sep s' with
           | seg :: rest => String c seg :: rest
           | [] => [String c ""]
           end
  end.

(** [sep.join(l)]. *)
Fixpoint join (sep : string) (l : list string) : string :=
  match l with
  | [] => ""
  | [x] => x
  | x :: rest => x +:+ sep +:+ join sep rest
  end.

(** Index normalisation of [l[i]]: a negative index counts from the end;
    [None] stands for IndexError. *)
Definition index {A} (l : list A) (i : Z) : option A :=
  let n := Z.of_nat (length l) in
  let j := if i <? 0 then i + n else i in
  if (0 <=? j) && (j <? n) then l !! Z.to_nat j else None.

(** The bounds of a slice [l[a:b]] are clamped, never out of range. *)
Definition clamp (n i : Z) : Z :=
  let j := if i <? 0 then i + n else i in
  Z.max 0 (Z.min n j).

Definition slice {A} (l : list A) (a b : Z) : list A :=
  let n := Z.of_nat (length l) in
  let lo := Z.to_nat (clamp n a) in
  let hi := Z.to_nat (clamp n b) in
  take (hi - lo)%nat (drop lo l).

Definition lower_char (c : ascii) : ascii :=
  let n := nat_of_ascii c in
  if ((65 <=? n) && (n <=? 90))%nat then ascii_of_nat (n + 32) else c.

Definition upper_char (c : ascii) : ascii :=
  let n := nat_of_ascii c in
  if ((97 <=? n) && (n <=? 122))%nat then ascii_of_nat (n - 32) else c.

(** [s.lower()] on the ASCII range. *)
Fixpoint lower (s : string) : string :=
  match s with
  | EmptyString => ""
  | String c s' => String (lower_char c) (lower s')
  end.

(** [s.capitalize()]: first character upper case, the rest lower case. *)
Definition capitalize (s : string) : string :=
  match s with
  | EmptyString => ""
  | String c s' => String (upper_char c) (lower s')
  end.

Fixpoint startswith (p s : string) : bool :=
  match p, s with
  | EmptyString, _ => true
  | String a p', String b s' => bool_decide (a = b) && startswith p' s'
  | String _ _, EmptyString => false
  end.

(** [p in s] for strings. *)
Fixpoint contains (p s : string) : bool :=
  startswith p s ||
  match s with
  | EmptyString => false
  | String _ s' => contains p s'
  end.

(** Truth value of a string in a condition. *)
Definition truthy (s : string) : bool :=
  match s with EmptyString => false | _ => true end.

End PyStr.

(** ** The path split shared by download and upload (lines 80-83 and 160-163) *)

Record PathParts := mkPathParts {
  DOCUMENT_LIBRARY : string;
  FOLDER_PATH : string;
  file_name : string
}.

Definition slash : ascii := "/"%char.

(** [None] would be an IndexError on [path_parts[0]] or [path_parts[-1]]. *)
Definition split_path (sharepoint_file_url : string) : option PathParts :=
  let path_parts := PyStr.split slash sharepoint_file_url in
  lib ← PyStr.index path_parts 0;
  let folder :=
    if (2 <? Z.of_nat (length path_parts))
    then PyStr.join "/" (PyStr.slice path_parts 1 (-1))
    else "" in
  name ← PyStr.index path_parts (-1);
  Some (mkPathParts lib folder name).

(** What the specification's words say, written directly on the string. *)
Module PathSpec.

(** The segment before the first separator (the whole string without one). *)
Fixpoint before_first (sep : ascii) (s : string) : string :=
  match s with
  | EmptyString => ""
  | String c s' => if decide (c = sep) then "" else String c (before_first sep s')
  end.

Fixpoint has_sep (sep : ascii) (s : string) : bool :=
  match s with
  | EmptyString => false
  | String c s' => bool_decide (c = sep) || has_sep sep s'
  end.

(** The segment after the last separator (the whole string without one). *)
Fixpoint after_last (sep : ascii) (s : string) : string :=
  match s with
  | EmptyString => ""
  | String c s' =>
      if has_sep sep s' then after_last sep s'
      else if decide (c = sep) then s' else String c s'
  end.

(** What follows the first separator. *)
Fixpoint after_first (sep : ascii) (s : string) : string :=
  match s with
  | EmptyString => ""
  | String c s' => if decide (c = sep) then s' else after_first sep s'
  end.

(** What precedes the last separator. *)
Fixpoint before_last (sep : ascii) (s : string) : string :=
  match s with
  | EmptyString => ""
  | String c s' => if has_sep sep s' then String c (before_last sep s') else ""
  end.

(** What lies between the first and the last separator: the middle
    segments with their separators. *)
Definition middle (sep : ascii) (s : string) : string :=
  before_last sep (after_first sep s).

(** Number of segments: one more than the number of separators. *)
Fixpoint segments (sep : ascii) (s : string) : nat :=
  match s with
  | EmptyString => 1
  | String c s' => if decide (c = sep) then S (segments sep s') else segments sep s'
  end.

End PathSpec.

(** ** Values, exceptions and the external calls *)

(** A JSON value as [data.get] hands it out; [PNone] is also what a missing
    key gives. *)
Inductive PyVal :=
| PNone
| PStr (s : string)
| PInt (n : Z).

Global Instance PyVal_eq_dec : EqDecision PyVal.
Proof. solve_decision. Defined.

Inductive ExcKind :=
| FileNotFoundError
| FileExistsError
| NotADirectoryError
| PermissionError
| UnboundLocalError
| AttributeError
| IndexError
| JSONDecodeError
| RuntimeError
| TimeoutError
| LibraryError.   (* raised inside office365, pywin32 or the orchestrator *)

(** An exception object: its class and [str(e)]. *)
Record PyExc := mkExc { exc_kind : ExcKind; exc_str : string }.

Inductive JsonData :=
| JsonMalformed
| JsonNonObject
| JsonObject (d : gmap string PyVal).

Record QueueElement := mkQueueElement { data : JsonData }.

(** Requests sent to SharePoint by [execute_query]. *)
Inductive SpCall :=
| SpLoadWeb (site : PyVal) (username password : string)
| SpDownload (url : string)
| SpGetFolder (folder_path : string)
| SpUploadFile (folder name contents : string)
| SpGetList (title : string)
| SpGetSubfolder (parent url : string)
| SpAddFolder (parent name : string).

(** Calls made on the Excel application through COM. *)
Inductive ComCall :=
| DispatchEx (progid : string)
| SetVisible (visible : bool)
| WorkbooksOpen (path : string)
| RefreshAll
| CalculateUntilAsyncQueriesDone
| WorkbookSave
| WorkbookClose (save_changes : bool)
| Quit.

(** How a COM call ends: it returns or raises after some seconds, or it
    never comes back. *)
Inductive ComOutcome :=
| ComReturns (secs : nat)
| ComRaises (secs : nat) (e : PyExc)
| ComHangs.

Inductive Event :=
| EvSp (c : SpCall)
| EvCom (c : ComCall)
| EvOpen (path mode : string)
| EvMakedirs (path : string)
| EvRemove (path : string)
| EvSleep (secs : nat)
| EvSpawn (timeout : nat)
| EvTerminate.

Inductive LogLevel := LTrace | LInfo | LError.

(** The environment: how everything outside the program answers. *)
Record Env := mkEnv {
  getcwd : string;
  home : string;                                  (* os.path.expanduser("~") *)
  os_path_join : string → string → string;
  dirname : string → string;
    (* the head [os.makedirs] goes on with: [os.path.split(path)[0]], taken
       once more when the tail is empty *)
  credential : string → PyExc + string * string;  (* get_credential *)
  sp : SpCall → option PyExc;                     (* [Some e]: the request raises [e] *)
  web_title : string;                             (* web.properties['Title'] *)
  server_relative_url : string → string → string; (* url reported for folder, name *)
  list_root : string → string;                    (* root folder of the list with a title *)
  com : ComCall → ComOutcome;
  engine : string → string;                       (* workbook contents once all queries are done *)
  setlocale : string → option PyExc;
  now_month : nat;                                (* datetime.now() on line 193, 1..12 *)
  now_year : Z;                                   (* datetime.now() on line 194 *)
  outside : nat → gmap string string → gmap string string
    (* what other programs do to the local files while the download request
       is in flight (index 0) and during the k-th sleep of the poll loop *)
}.

(** The state the program runs on. *)
Record State := mkState {
  files : gmap string string;          (* local files: path to contents *)
  dirs : gset string;                  (* local directories *)
  remote_files : gmap string string;   (* files on the SharePoint site *)
  remote_folders : gset string;        (* folders created on the site *)
  log : list (LogLevel * string);      (* orchestrator log, oldest first *)
  trace : list Event;                  (* external calls, oldest first *)
  workbook : option (string * string); (* workbook open in Excel: path, contents in memory *)
  elapsed : nat;                       (* seconds spent in the current subprocess *)
  deadline : option nat;               (* seconds after which the subprocess is killed *)
  local_file_path : option string      (* the variable of [process]; [None] is unbound *)
}.

Definition set_files (f : gmap string string → gmap string string) (s : State) : State :=
  mkState (f (files s)) (dirs s) (remote_files s) (remote_folders s) (log s)
          (trace s) (workbook s) (elapsed s) (deadline s) (local_file_path s).
Definition set_dirs (f : gset string → gset string) (s : State) : State :=
  mkState (files s) (f (dirs s)) (remote_files s) (remote_folders s) (log s)
          (trace s) (workbook s) (elapsed s) (deadline s) (local_file_path s).
Definition set_remote_files (f : gmap string string → gmap string string) (s : State) : State :=
  mkState (files s) (dirs s) (f (remote_files s)) (remote_folders s) (log s)
          (trace s) (workbook s) (elapsed s) (deadline s) (local_file_path s).
Definition set_remote_folders (f : gset string → gset string) (s : State) : State :=
  mkState (files s) (dirs s) (remote_files s) (f (remote_folders s)) (log s)
          (trace s) (workbook s) (elapsed s) (deadline s) (local_file_path s).
Definition add_log (l : LogLevel * string) (s : State) : State :=
  mkState (files s) (dirs s) (remote_files s) (remote_folders s) (log s ++ [l])
          (trace s) (workbook s) (elapsed s) (deadline s) (local_file_path s).
Definition add_event (e : Event) (s : State) : State :=
  mkState (files s) (dirs s) (remote_files s) (remote_folders s) (log s)
          (trace s ++ [e]) (workbook s) (elapsed s) (deadline s) (local_file_path s).
Definition set_workbook (b : option (string * string)) (s : State) : State :=
  mkState (files s) (dirs s) (remote_files s) (remote_folders s) (log s)
          (trace s) b (elapsed s) (deadline s) (local_file_path s).
Definition set_clock (t : nat) (d : option nat) (s : State) : State :=
  mkState (files s) (dirs s) (remote_files s) (remote_folders s) (log s)
          (trace s) (workbook s) t d (local_file_path s).
Definition set_local_file_path (v : option string) (s : State) : State :=
  mkState (files s) (dirs s) (remote_files s) (remote_folders s) (log s)
          (trace s) (workbook s) (elapsed s) (deadline s) v.

(** ** The monad: state, exceptions, and calls that never return *)

Inductive Res (A : Type) :=
| Ok (a : A)
| Raise (e : PyExc)
| Stuck.          (* the computation never returns: it hangs or is killed *)
Arguments Ok {A} a.
Arguments Raise {A} e.
Arguments Stuck {A}.

Definition M (A : Type) : Type := State → Res A * State.

Definition ret {A} (a : A) : M A := fun s => (Ok a, s).
Definition raise {A} (e : PyExc) : M A := fun s => (Raise e, s).
Definition bind {A B} (m : M A) (k : A → M B) : M B :=
  fun s => match m s with
           | (Ok a, s') => k a s'
           | (Raise e, s') => (Raise e, s')
           | (Stuck, s') => (Stuck, s')
           end.

(** [try: body except Exception as e: handler e]. *)
Definition try_except {A} (body : M A) (handler : PyExc → M A) : M A :=
  fun s => match body s with
           | (Raise e, s') => handler e s'
           | r => r
           end.

Definition gets {A} (f : State → A) : M A := fun s => (Ok (f s), s).
Definition modify (f : State → State) : M unit := fun s => (Ok tt, f s).

Declare Scope py_scope.
Delimit Scope py_scope with py.
Notation "x ← y ; z" := (bind y (fun x => z))
  (at level 20, y at level 100, z at level 200, only parsing) : py_scope.
Notation "x ;; z" := (bind x (fun _ => z))
  (at level 100, z at level 200, only parsing, right associativity) : py_scope.
Local Open Scope py_scope.

(** ** Library calls the program makes *)

Definition exc_file_not_found (path : string) : PyExc :=
  mkExc FileNotFoundError ("[Errno 2] No such file or directory: '" +:+ path +:+ "'").
Definition exc_permission (path : string) : PyExc :=
  mkExc PermissionError ("[Errno 13] Permission denied: '" +:+ path +:+ "'").
Definition exc_file_exists (path : string) : PyExc :=
  mkExc FileExistsError ("[Errno 17] File exists: '" +:+ path +:+ "'").
Definition exc_not_a_directory (path : string) : PyExc :=
  mkExc NotADirectoryError ("[Errno 20] Not a directory: '" +:+ path +:+ "'").

(** [strftime("%B")] under the locale da_DK. *)
Definition da_DK_month (m : nat) : string :=
  match m with
  | 1 => "januar" | 2 => "februar" | 3 => "marts" | 4 => "april"
  | 5 => "maj" | 6 => "juni" | 7 => "juli" | 8 => "august"
  | 9 => "september" | 10 => "oktober" | 11 => "november" | 12 => "december"
  | _ => ""
  end%nat.

(** The exception pebble sets on the future of a task that has not finished
    when its timeout is over: [TimeoutError('Task Timeout', timeout)].  Its
    text is the one of an exception with two arguments; where the class is the
    built-in one the text reads [[Errno Task Timeout] 60] instead.  Line 45
    only asks whether the text in lower case contains [timeout], which holds
    of both. *)
Definition pebble_timeout_error (timeout : nat) : PyExc :=
  mkExc TimeoutError ("('Task Timeout', " +:+ pretty timeout +:+ ")").

Inductive Future :=
| FutureDone
| FutureFailed (e : PyExc).

Section Robot.

Context (env : Env).

(** *** The orchestrator connection *)

Definition log_trace (msg : string) : M unit := modify (add_log (LTrace, msg)).
Definition log_info (msg : string) : M unit := modify (add_log (LInfo, msg)).
Definition log_error (msg : string) : M unit := modify (add_log (LError, msg)).

Definition get_credential (name : string) : M (string * string) :=
  match credential env name with
  | inl e => raise e
  | inr c => ret c
  end.

(** *** [os] and [open] *)

Definition exists_in (s : State) (path : string) : bool :=
  bool_decide (is_Some (files s !! path)) || bool_decide (path ∈ dirs s).

Definition os_path_exists (path : string) : M bool :=
  gets (fun s => exists_in s path).

(** [os.mkdir(path)], where [parent] is the directory the path lies in
    ([None] for a root or a bare name): it fails when something is at the
    path already, and when the parent is missing or is a file. *)
Definition os_mkdir (parent : option string) (path : string) : M unit :=
  fun s =>
    if exists_in s path then (Raise (exc_file_exists path), s)
    else
      match parent with
      | None => (Ok tt, set_dirs (union {[path]}) s)
      | Some head =>
          if bool_decide (head ∈ dirs s) then (Ok tt, set_dirs (union {[path]}) s)
          else if bool_decide (is_Some (files s !! head))
               then (Raise (exc_not_a_directory path), s)
               else (Raise (exc_file_not_found path), s)
      end.

(** The directories above [path] that [os.makedirs] goes through, nearest
    first.  It goes on to a head only when head and tail are not empty, and
    such a head is shorter than the path: the walk is over after at most as
    many steps as the path has characters. *)
Fixpoint parents (fuel : nat) (path : string) : list string :=
  match fuel with
  | O => []
  | S fuel' =>
      let head := dirname env path in
      if PyStr.truthy head && (String.length head <? String.length path)%nat
      then head :: parents fuel' head
      else []
  end.

Definition ancestors (path : string) : list string :=
  parents (String.length path) path.

(** The recursion of [os.makedirs(name)] over the directories above
    [name]: a head that does not exist is made first, with its own missing
    heads, a FileExistsError from there is passed over, and then [name]
    itself is made.  Any other error is raised. *)
Fixpoint makedirs (chain : list string) (name : string) : M unit :=
  match chain with
  | [] => os_mkdir None name
  | head :: rest =>
      found ← os_path_exists head;
      (if negb found
       then try_except (makedirs rest head)
              (fun e => match exc_kind e with
                        | FileExistsError => ret tt
                        | _ => raise e
                        end)
       else ret tt) ;;
      os_mkdir (Some head) name
  end.

(** [os.makedirs(path)]: the missing directories above [path] are made as
    well, and the call can fail. *)
Definition os_makedirs (path : string) : M unit :=
  modify (add_event (EvMakedirs path)) ;;
  makedirs (ancestors path) path.

Definition os_remove (path : string) : M unit :=
  fun s =>
    let s' := add_event (EvRemove path) s in
    match files s !! path with
    | Some _ => (Ok tt, set_files (delete path) s')
    | None =>
        if bool_decide (path ∈ dirs s) then (Raise (exc_permission path), s')
        else (Raise (exc_file_not_found path), s')
    end.

(** [open(path, "wb")] creates the file or empties it. *)
Definition open_wb (path : string) : M unit :=
  fun s =>
    let s' := add_event (EvOpen path "wb") s in
    if bool_decide (path ∈ dirs s) then (Raise (exc_permission path), s')
    else (Ok tt, set_files (insert path "") s').

(** [open(path, "rb")] and reading the contents. *)
Definition open_rb (path : string) : M string :=
  fun s =>
    let s' := add_event (EvOpen path "rb") s in
    match files s !! path with
    | Some c => (Ok c, s')
    | None =>
        if bool_decide (path ∈ dirs s) then (Raise (exc_permission path), s')
        else (Raise (exc_file_not_found path), s')
    end.

(** The k-th [time.sleep] of the poll loop; other programs act meanwhile. *)
Definition time_sleep (k secs : nat) : M unit :=
  modify (fun s => set_files (outside env k) (add_event (EvSleep secs) s)).

Definition os_path_join3 (a b c : string) : string :=
  os_path_join env (os_path_join env a b) c.

(** *** SharePoint *)

Definition locale_setlocale (name : string) : M unit :=
  match setlocale env name with
  | Some e => raise e
  | None => ret tt
  end.

Definition execute_query (c : SpCall) : M unit :=
  fun s =>
    let s' := add_event (EvSp c) s in
    match sp env c with
    | Some e => (Raise e, s')
    | None => (Ok tt, s')
    end.

Definition exc_not_on_server (url : string) : PyExc :=
  mkExc LibraryError ("404 Client Error: Not Found for url: " +:+ url).

(** [get_file_by_server_relative_path(url).download(local_file).execute_query()]
    inside the [with] block that holds [download_path] open. *)
Definition download_into (url download_path : string) : M unit :=
  fun s =>
    let s' := add_event (EvSp (SpDownload url)) s in
    match sp env (SpDownload url) with
    | Some e => (Raise e, set_files (outside env 0) s')
    | None =>
        match remote_files s !! url with
        | None => (Raise (exc_not_on_server url), set_files (outside env 0) s')
        | Some c =>
            (Ok tt, set_files (outside env 0) (set_files (insert download_path c) s'))
        end
    end.

Definition upload_file (folder name contents : string) : M string :=
  execute_query (SpUploadFile folder name contents) ;;
  modify (set_remote_files (insert (folder +:+ "/" +:+ name) contents)) ;;
  ret (server_relative_url env folder name).

Definition folders_add (parent name : string) : M string :=
  execute_query (SpAddFolder parent name) ;;
  modify (set_remote_folders (union {[parent +:+ "/" +:+ name]})) ;;
  ret (parent +:+ "/" +:+ name).

(** *** Excel through COM, inside a process that may be killed *)

Definition in_time (secs : nat) (s : State) : bool :=
  match deadline s with
  | None => true
  | Some t => (elapsed s + secs <=? t)%nat
  end.

Definition tick (secs : nat) (s : State) : State :=
  set_clock (elapsed s + secs) (deadline s) s.

(** What a COM call that returns does to Excel and to the disk;
    [inl e] when Excel refuses. *)
Definition com_effect (c : ComCall) (s : State) : PyExc + State :=
  match c with
  | DispatchEx _ => inr (set_workbook None s)    (* a new instance, nothing open *)
  | WorkbooksOpen path =>
      match files s !! path with
      | Some contents => inr (set_workbook (Some (path, contents)) s)
      | None => inl (mkExc LibraryError ("Excel could not find the file " +:+ path))
      end
  | CalculateUntilAsyncQueriesDone =>
      match workbook s with
      | Some (path, contents) => inr (set_workbook (Some (path, engine env contents)) s)
      | None => inr s
      end
  | WorkbookSave =>
      match workbook s with
      | Some (path, contents) => inr (set_files (insert path contents) s)
      | None => inr s
      end
  | WorkbookClose save_changes =>
      match workbook s with
      | Some (path, contents) =>
          inr (set_workbook None
                 (if save_changes then set_files (insert path contents) s else s))
      | None => inr s
      end
  | _ => inr s
  end.

Definition com_call (c : ComCall) : M unit :=
  fun s =>
    let s' := add_event (EvCom c) s in
    match com env c with
    | ComHangs => (Stuck, s')
    | ComReturns secs =>
        if in_time secs s then
          match com_effect c s' with
          | inr s'' => (Ok tt, tick secs s'')
          | inl e => (Raise e, tick secs s')
          end
        else (Stuck, s')
    | ComRaises secs e =>
        if in_time secs s then (Raise e, tick secs s') else (Stuck, s')
    end.

(** pebble's [@concurrent.process(timeout=...)]: the task runs in a process
    of its own; when the timeout is over before the task has finished, the
    process is stopped and the future fails with the timeout error. *)
Definition concurrent_process (timeout : nat) (task : M unit) : M Future :=
  fun s =>
    let back := set_clock (elapsed s) (deadline s) in
    match task (set_clock 0 (Some timeout) (add_event (EvSpawn timeout) s)) with
    | (Ok _, s1) => (Ok FutureDone, back s1)
    | (Raise e, s1) => (Ok (FutureFailed e), back s1)
    | (Stuck, s1) =>
        (Ok (FutureFailed (pebble_timeout_error timeout)), back (add_event EvTerminate s1))
    end.

Definition future_result (f : Future) : M unit :=
  match f with
  | FutureDone => ret tt
  | FutureFailed e => raise e
  end.

(** *** The robot *)

Definition refresh_timeout : nat := 60.

(** Lines 58-71. The client context is represented by its site. *)
Definition sharepoint_client (username password : string) (sharepoint_site_url : PyVal)
  : M PyVal :=
  execute_query (SpLoadWeb sharepoint_site_url username password) ;;
  log_info ("Authenticated successfully. Site Title: " +:+ web_title env) ;;
  ret sharepoint_site_url.

(** A method of [str] called on a value of the work item. *)
Definition as_str (v : PyVal) (method : string) : M string :=
  match v with
  | PStr s => ret s
  | PNone =>
      raise (mkExc AttributeError
               ("'NoneType' object has no attribute '" +:+ method +:+ "'"))
  | PInt _ =>
      raise (mkExc AttributeError ("'int' object has no attribute '" +:+ method +:+ "'"))
  end.

Definition of_option {A} (e : PyExc) (o : option A) : M A :=
  match o with
  | Some a => ret a
  | None => raise e
  end.

Definition exc_index : PyExc := mkExc IndexError "list index out of range".

(** Lines 85-86. *)
Definition documents_folder_of (parts : PathParts) : string :=
  if PyStr.truthy (FOLDER_PATH parts)
  then os_path_join3 (home env) "Documents" (FOLDER_PATH parts)
  else os_path_join3 (home env) "Documents" (DOCUMENT_LIBRARY parts).

(** Line 93. *)
Definition download_path_of (parts : PathParts) : string :=
  os_path_join env (getcwd env) (file_name parts).

(** The [with] statement of lines 96-101. *)
Definition download_statement (url download_path : string) : M unit :=
  open_wb download_path ;;
  download_into url download_path.

(** The loop of lines 109-111; it returns [elapsed_time].  The loop runs at
    most [wait_time / check_interval] times, which [fuel] bounds. *)
Fixpoint poll (fuel : nat) (download_path : string)
    (wait_time check_interval elapsed_time : nat) : M nat :=
  found ← os_path_exists download_path;
  if negb found && (elapsed_time <? wait_time)%nat then
    match fuel with
    | O => fun s => (Stuck, s)
    | S fuel' =>
        time_sleep (S elapsed_time) check_interval ;;
        poll fuel' download_path wait_time check_interval (elapsed_time + check_interval)
    end
  else ret elapsed_time.

(** Lines 74-118. *)
Definition download_file_from_sharepoint (client : PyVal) (sharepoint_file_url : PyVal)
  : M string :=
  url ← as_str sharepoint_file_url "split";
  parts ← of_option exc_index (split_path url);
  let documents_folder := documents_folder_of parts in
  found ← os_path_exists documents_folder;
  (if negb found then os_makedirs documents_folder else ret tt) ;;
  let download_path := download_path_of parts in
  download_statement url download_path ;;
  let wait_time := 60%nat in
  let elapsed_time := 0%nat in
  let check_interval := 1%nat in
  poll wait_time download_path wait_time check_interval elapsed_time ;;
  found ← os_path_exists download_path;
  if negb found then
    raise (mkExc FileNotFoundError
             ("File not found at " +:+ download_path +:+ " after waiting for "
                +:+ pretty wait_time +:+ " seconds."))
  else
    log_info ("[Ok] file has been downloaded into: " +:+ download_path) ;;
    ret download_path.

(** Lines 121-152. *)
Definition refresh_excel_file (file_path : string) : M unit :=
  com_call (DispatchEx "Excel.Application") ;;
  com_call (SetVisible false) ;;
  com_call (WorkbooksOpen file_path) ;;
  com_call RefreshAll ;;
  com_call CalculateUntilAsyncQueriesDone ;;
  com_call WorkbookSave ;;
  com_call (WorkbookClose true) ;;
  com_call Quit ;;
  log_info ("[Ok] Excel file at " +:+ file_path +:+ " has been refreshed and saved.").

(** Lines 15-17. *)
Definition refresh_excel_file_with_timeout (file_path : string) : M Future :=
  concurrent_process refresh_timeout (refresh_excel_file file_path).

(** Lines 166-169. *)
Definition upload_folder_of (parts : PathParts) : string :=
  if PyStr.truthy (FOLDER_PATH parts)
  then DOCUMENT_LIBRARY parts +:+ "/" +:+ FOLDER_PATH parts
  else DOCUMENT_LIBRARY parts.

(** Lines 183-200, the body of the [if]. *)
Definition monthly_folder (local_file_path : string) (custom_function : string) : M unit :=
  log_info ("Custom function: " +:+ custom_function) ;;
  execute_query (SpGetList "Dokumenter") ;;
  let library_root := list_root env "Dokumenter" in
  execute_query (SpGetSubfolder library_root "Historik") ;;
  let parent_folder := library_root +:+ "/" +:+ "Historik" in
  locale_setlocale "da_DK" ;;
  let current_month := PyStr.capitalize (da_DK_month (now_month env)) in
  let current_year := pretty (now_year env) in
  year_folder ← folders_add parent_folder current_year;
  month_folder ← folders_add year_folder current_month;
  file_content ← open_rb local_file_path;
  uploaded_file_2 ← upload_file month_folder
    ("DKPlan_" +:+ current_month +:+ "_" +:+ current_year +:+ ".xlsx") file_content;
  log_info ("[Ok] file has been uploaded to: " +:+ uploaded_file_2 +:+ " on SharePoint").

(** Lines 154-202. *)
Definition upload_file_to_sharepoint (client : PyVal) (sharepoint_file_url : PyVal)
    (local_file_path : string) (custom_function : PyVal) : M unit :=
  url ← as_str sharepoint_file_url "split";
  parts ← of_option exc_index (split_path url);
  let folder_path := upload_folder_of parts in
  execute_query (SpGetFolder folder_path) ;;
  file_content ← open_rb local_file_path;
  uploaded_file ← upload_file folder_path (file_name parts) file_content;
  log_info ("[Ok] file has been uploaded to: " +:+ uploaded_file +:+ " on SharePoint") ;;
  (if bool_decide (custom_function = PStr "MonthlyFolder")
   then monthly_folder local_file_path "MonthlyFolder"
   else ret tt) ;;
  os_remove local_file_path.

(** [json.loads(queue_element.data)]. *)
Definition json_loads (queue_element : option QueueElement) : M (gmap string PyVal) :=
  match queue_element with
  | None => raise (mkExc AttributeError "'NoneType' object has no attribute 'data'")
  | Some q =>
      match data q with
      | JsonMalformed => raise (mkExc JSONDecodeError "Expecting value: line 1 column 1 (char 0)")
      | JsonNonObject => raise (mkExc AttributeError "'list' object has no attribute 'get'")
      | JsonObject d => ret d
      end
  end.

Definition dict_get (d : gmap string PyVal) (key : string) : PyVal :=
  default PNone (d !! key).

(** Reading the variable [local_file_path] of [process]. *)
Definition load_local_file_path : M string :=
  fun s =>
    match local_file_path s with
    | Some p => (Ok p, s)
    | None =>
        (Raise (mkExc UnboundLocalError
                  "cannot access local variable 'local_file_path' where it is not associated with a value"),
         s)
    end.

(** The handler of lines 44-50. *)
Definition refresh_handler (e : PyExc) : M unit :=
  if PyStr.contains "timeout" (PyStr.lower (exc_str e)) then
    log_error "refresh_excel_file exceeded the timeout of 30 minutes." ;;
    raise (mkExc RuntimeError "refresh_excel_file did not complete within the allowed time.")
  else
    log_error ("An error occurred during refresh_excel_file execution: " +:+ exc_str e) ;;
    raise (mkExc RuntimeError ("Error in refresh_excel_file: " +:+ exc_str e)).

(** The handler of lines 53-56. *)
Definition process_handler (e : PyExc) : M unit :=
  path ← load_local_file_path;
  os_remove path ;;
  log_error (exc_str e) ;;
  raise e.

(** The body of the [try] of lines 35-52. *)
Definition process_body (client folder_path custom_function : PyVal) : M unit :=
  path ← download_file_from_sharepoint client folder_path;
  modify (set_local_file_path (Some path)) ;;
  future ← refresh_excel_file_with_timeout path;
  try_except (future_result future) refresh_handler ;;
  upload_file_to_sharepoint client folder_path path custom_function.

(** Lines 19-56. *)
Definition process (queue_element : option QueueElement) : M unit :=
  modify (set_local_file_path None) ;;
  log_trace "Running process." ;;
  d ← json_loads queue_element;
  let sharepoint_site := dict_get d "SharePointSite" in
  let folder_path := dict_get d "FolderPath" in
  let custom_function := dict_get d "CustomFunction" in
  RobotCredentials ← get_credential "Robot365User";
  let username := RobotCredentials.1 in
  let password := RobotCredentials.2 in
  client ← sharepoint_client username password sharepoint_site;
  try_except (process_body client folder_path custom_function) process_handler.

End Robot.

(** ** Vocabulary of the statements *)

(** What a run added to the trace and to the log. *)
Definition new_events (s s' : State) : list Event := drop (length (trace s)) (trace s').
Definition new_log (s s' : State) : list (LogLevel * string) := drop (length (log s)) (log s').

(** The refresh operation as the specification words it: start the
    application (invisible), open the workbook, refresh all connections, wait
    until the asynchronous refreshes are done, save, close, quit. *)
Definition refresh_steps (file_path : string) : list ComCall :=
  [ DispatchEx "Excel.Application"; SetVisible false; WorkbooksOpen file_path;
    RefreshAll; CalculateUntilAsyncQueriesDone; WorkbookSave; WorkbookClose true; Quit ].

(** A list of COM calls made one after the other, then [k]. *)
Fixpoint com_seq (env : Env) (cs : list ComCall) (k : M unit) : M unit :=
  match cs with
  | [] => k
  | c :: cs' => bind (com_call env c) (fun _ => com_seq env cs' k)
  end.

(** The uploads among some events: folder, name and contents of each. *)
Definition upload_of (e : Event) : option (string * string * string) :=
  match e with
  | EvSp (SpUploadFile folder name contents) => Some (folder, name, contents)
  | _ => None
  end.
Definition uploads_of (evs : list Event) : list (string * string * string) :=
  omap upload_of evs.

Definition is_sleep (e : Event) : bool :=
  match e with EvSleep _ => true | _ => false end.
Definition is_spawn (e : Event) : bool :=
  match e with EvSpawn _ => true | _ => false end.
Definition is_remove (e : Event) : bool :=
  match e with EvRemove _ => true | _ => false end.

(** The local files once the download request is over and [k] sleeps of the
    poll loop have gone by, from the files [f0] the request left. *)
Fixpoint files_at (env : Env) (k : nat) (f0 : gmap string string) : gmap string string :=
  match k with
  | O => f0
  | S k' => outside env k (files_at env k' f0)
  end.

(** The state after [k] sleeps of the poll loop. *)
Fixpoint after_sleeps (env : Env) (k : nat) (s : State) : State :=
  match k with
  | O => s
  | S k' => set_files (outside env k) (add_event (EvSleep 1) (after_sleeps env k' s))
  end.

(** No other program removes [path] while the download request is in
    flight: the scratch file is owned by the run. *)
Definition owned (env : Env) (path : string) : Prop :=
  ∀ fs : gmap string string, is_Some (fs !! path) → is_Some (outside env 0 fs !! path).

(** Nothing outside touches the local files at all. *)
Definition undisturbed (env : Env) : Prop :=
  ∀ k (fs : gmap string string), outside env k fs = fs.

(** The state once the documents folder has been seen to (lines 89-90):
    [os.makedirs] has been called when nothing was there. *)
Definition after_makedirs (env : Env) (parts : PathParts) (s : State) : State :=
  if exists_in s (documents_folder_of env parts) then s
  else (os_makedirs env (documents_folder_of env parts) s).2.

(** What lines 89-90 raise, if anything. *)
Definition makedirs_raises (env : Env) (parts : PathParts) (s : State) : option PyExc :=
  if exists_in s (documents_folder_of env parts) then None
  else match (os_makedirs env (documents_folder_of env parts) s).1 with
       | Raise e => Some e
       | _ => None
       end.

(** Lines 85-101 of the download: the documents folder is seen to, then the
    [with] statement is run. *)
Definition download_request (env : Env) (url : string) (parts : PathParts) : M unit :=
  bind (os_path_exists (documents_folder_of env parts)) (fun found =>
  bind (if negb found then os_makedirs env (documents_folder_of env parts) else ret tt)
    (fun _ => download_statement env url (download_path_of env parts))).

(** A chain of directories in which each is shorter than the one before, as
    the heads of [os.path.split] are. *)
Fixpoint descending (name : string) (chain : list string) : Prop :=
  match chain with
  | [] => True
  | head :: rest => (String.length head < String.length name)%nat ∧ descending head rest
  end.

(** The error of line 115. *)
Definition exc_not_downloaded (download_path : string) : PyExc :=
  mkExc FileNotFoundError
    ("File not found at " +:+ download_path +:+ " after waiting for 60 seconds.").

(** The seconds a list of COM calls needs to come to an end, by returning or
    by raising; [None] when one of the calls hangs. *)
Fixpoint time_to_finish (env : Env) (cs : list ComCall) : option nat :=
  match cs with
  | [] => Some 0%nat
  | c :: cs' =>
      match com env c with
      | ComHangs => None
      | ComRaises secs _ => Some secs
      | ComReturns secs =>
          match time_to_finish env cs' with
          | Some t => Some (secs + t)%nat
          | None => None
          end
      end
  end.

(** The refresh of [file_path] does not come to an end within [timeout]. *)
Definition overruns (env : Env) (file_path : string) (timeout : nat) : bool :=
  match time_to_finish env (refresh_steps file_path) with
  | None => true
  | Some t => (timeout <? t)%nat
  end.

(** The invariant of a refresh of [path] that started in [s0], once the
    application has been started. *)
Definition refreshing (path : string) (s0 s : State) : Prop :=
  (∀ p, p ≠ path → files s !! p = files s0 !! p)
  ∧ is_Some (files s !! path)
  ∧ (workbook s = None ∨ ∃ c, workbook s = Some (path, c))
  ∧ dirs s = dirs s0 ∧ remote_files s = remote_files s0
  ∧ remote_folders s = remote_folders s0
  ∧ local_file_path s = local_file_path s0
  ∧ log s = log s0.

(** What a handler that finds [local_file_path] unbound raises. *)
Definition exc_unbound : PyExc :=
  mkExc UnboundLocalError
    "cannot access local variable 'local_file_path' where it is not associated with a value".

(** The [try] statement of [process], lines 35-56. *)
Definition process_try (env : Env) (client folder_path custom_function : PyVal) : M unit :=
  try_except (process_body env client folder_path custom_function) process_handler.

(** Events of a download: directories made, files opened, requests, sleeps. *)
Definition download_event (e : Event) : bool :=
  match e with
  | EvMakedirs _ | EvOpen _ "wb" | EvSp (SpDownload _) | EvSleep _ => true
  | _ => false
  end.

(** The remote files after uploads of the same contents to some keys. *)
Definition insert_all (keys : list string) (v : string) (m : gmap string string)
  : gmap string string :=
  foldr (λ k acc, <[k := v]> acc) m keys.

(** The name and the folder of the monthly copy, as the specification words
    them: DKPlan_<Month>_<Year>.xlsx in <Year>/<Month> under Historik of the
    library Dokumenter, with the Danish name of the month. *)
Definition danish_month (m : nat) : string :=
  match m with
  | 1 => "Januar" | 2 => "Februar" | 3 => "Marts" | 4 => "April"
  | 5 => "Maj" | 6 => "Juni" | 7 => "Juli" | 8 => "August"
  | 9 => "September" | 10 => "Oktober" | 11 => "November" | 12 => "December"
  | _ => ""
  end%nat.
Definition archive_folder (env : Env) : string :=
  list_root env "Dokumenter" +:+ "/" +:+ "Historik" +:+ "/" +:+ pretty (now_year env)
    +:+ "/" +:+ danish_month (now_month env).
Definition archive_name (env : Env) : string :=
  "DKPlan_" +:+ danish_month (now_month env) +:+ "_" +:+ pretty (now_year env) +:+ ".xlsx".

(** The rest of the [try] body once the download has returned [path]. *)
Definition process_rest (env : Env) (client folder_path custom_function : PyVal)
    (path : string) : M unit :=
  bind (modify (set_local_file_path (Some path))) (fun _ =>
  bind (refresh_excel_file_with_timeout env path) (fun future =>
  bind (try_except (future_result future) refresh_handler) (fun _ =>
  upload_file_to_sharepoint env client folder_path path custom_function))).

(** What the handler of lines 44-50 raises and logs for a failure [e] of the
    refresh. *)
Definition refresh_error (e : PyExc) : PyExc :=
  if PyStr.contains "timeout" (PyStr.lower (exc_str e))
  then mkExc RuntimeError "refresh_excel_file did not complete within the allowed time."
  else mkExc RuntimeError ("Error in refresh_excel_file: " +:+ exc_str e).
Definition refresh_error_log (e : PyExc) : string :=
  if PyStr.contains "timeout" (PyStr.lower (exc_str e))
  then "refresh_excel_file exceeded the timeout of 30 minutes."
  else "An error occurred during refresh_excel_file execution: " +:+ exc_str e.

(** The state the handler of lines 53-56 leaves when the file is there. *)
Definition cleaned_up (path : string) (e : PyExc) (s : State) : State :=
  add_log (LError, exc_str e) (set_files (delete path) (add_event (EvRemove path) s)).

(** The state when [process] has logged its first line, and the state when
    the client has authenticated. *)
Definition started (s : State) : State :=
  add_log (LTrace, "Running process.") (set_local_file_path None s).
Definition authenticated (env : Env) (site : PyVal) (username password : string)
    (s : State) : State :=
  add_log (LInfo, "Authenticated successfully. Site Title: " +:+ web_title env)
    (add_event (EvSp (SpLoadWeb site username password)) (started s)).

(** Events of the upload step: its requests and its reads of the file. *)
Definition upload_step_event (e : Event) : bool :=
  match e with
  | EvSp (SpGetFolder _) | EvSp (SpUploadFile _ _ _) | EvSp (SpGetList _)
  | EvSp (SpGetSubfolder _ _) | EvSp (SpAddFolder _ _) | EvOpen _ "rb" => true
  | _ => false
  end.

(** The events of the monthly copy of [path] with contents [v]. *)
Definition archive_events (env : Env) (path v : string) : list Event :=
  [ EvSp (SpGetList "Dokumenter");
    EvSp (SpGetSubfolder (list_root env "Dokumenter") "Historik");
    EvSp (SpAddFolder (list_root env "Dokumenter" +:+ "/" +:+ "Historik") (pretty (now_year env)));
    EvSp (SpAddFolder (list_root env "Dokumenter" +:+ "/" +:+ "Historik" +:+ "/"
                         +:+ pretty (now_year env))
            (danish_month (now_month env)));
    EvOpen path "rb";
    EvSp (SpUploadFile (archive_folder env) (archive_name env) v) ].

(** A state that holds a file at [path], to ask how the refresh of that path
    ends: the answer is the same in every such state. *)
Definition holding (path : string) : State :=
  mkState {[ path := "" ]} ∅ ∅ ∅ [] [] None 0 None None.

(** ** A concrete installation to run the program on *)

Module Scenario.

(** [os.path.join] of two parts on a file system with slashes. *)
Definition join (a b : string) : string :=
  if PyStr.startswith "/" b then b
  else if bool_decide (a = "") then b
  else a +:+ "/" +:+ b.

(** [s.rstrip('/')]. *)
Fixpoint rstrip (s : string) : string :=
  match s with
  | EmptyString => ""
  | String c s' =>
      match rstrip s' with
      | EmptyString => if bool_decide (c = slash) then "" else String c ""
      | r => String c r
      end
  end.

(** The head of [posixpath.split]: what comes before the last slash, without
    the slashes it ends in unless it is made up of slashes. *)
Definition split_head (p : string) : string :=
  if PathSpec.has_sep slash p then
    let head := PathSpec.before_last slash p +:+ "/" in
    match rstrip head with
    | EmptyString => head
    | r => r
    end
  else "".

(** The head [os.makedirs] goes on with: the path is split once more when
    it ends in a slash. *)
Definition makedirs_head (p : string) : string :=
  match PathSpec.after_last slash p with
  | EmptyString => split_head (split_head p)
  | _ => split_head p
  end.

(** The directories that are there before any run. *)
Definition disk : gset string := {[ "/"; "/home"; "/home/robot"; "/work" ]}.

Definition installation (working_directory : string) (requests : SpCall → option PyExc)
    (excel : ComCall → ComOutcome) (refreshed : string → string)
    (others : nat → gmap string string → gmap string string) : Env :=
  mkEnv working_directory "/home/robot" join makedirs_head
    (fun _ => inr ("robot", "secret")) requests
    "Planning" (fun folder name => "/sites/A/" +:+ folder +:+ "/" +:+ name) (fun title => title)
    excel refreshed (fun _ => None) 11 2026 others.

Definition all_fine : SpCall → option PyExc := fun _ => None.
Definition one_second : ComCall → ComOutcome := fun _ => ComReturns 1.
Definition nobody : nat → gmap string string → gmap string string := fun _ fs => fs.

(** Everything answers, the refreshed workbook is always the same. *)
Definition calm : Env :=
  installation "/work" all_fine one_second (fun _ => "refreshed") nobody.

(** Excel needs a hundred seconds to refresh the connections. *)
Definition slow : Env :=
  installation "/work" all_fine
    (fun c => match c with RefreshAll => ComReturns 100 | _ => ComReturns 1 end)
    (fun _ => "refreshed") nobody.

(** Another program removes the scratch file as soon as it is written. *)
Definition thief : Env :=
  installation "/work" all_fine one_second (fun _ => "refreshed")
    (fun _ fs => delete "/work/plan.xlsx" fs).

(** The site refuses the credentials. *)
Definition refused : PyExc := mkExc LibraryError "401 Client Error: Unauthorized".
Definition locked_out : Env :=
  installation "/work"
    (fun c => match c with SpLoadWeb _ _ _ => Some refused | _ => None end)
    one_second (fun _ => "refreshed") nobody.

(** The library of the path cannot be resolved when uploading. *)
Definition no_folder : PyExc := mkExc LibraryError "404 Client Error: Not Found".
Definition upload_fails : Env :=
  installation "/work"
    (fun c => match c with SpGetFolder _ => Some no_folder | _ => None end)
    one_second (fun _ => "refreshed") nobody.

(** Every refresh adds a row to the workbook. *)
Definition appending : Env :=
  installation "/work" all_fine one_second (fun c => c +:+ "+") nobody.

(** The robot runs in the Documents folder of its home directory. *)
Definition in_documents : Env :=
  installation "/home/robot/Documents" all_fine one_second (fun _ => "refreshed") nobody.

Definition work_item (folder_path : string) (custom_function : PyVal) : option QueueElement :=
  Some (mkQueueElement (JsonObject
    (<["SharePointSite" := PStr "https://x/sites/A"]>
       (<["FolderPath" := PStr folder_path]>
          (<["CustomFunction" := custom_function]> ∅))))).

Definition fields (folder_path : string) (custom_function : PyVal) : gmap string PyVal :=
  <["SharePointSite" := PStr "https://x/sites/A"]>
    (<["FolderPath" := PStr folder_path]>
       (<["CustomFunction" := custom_function]> ∅)).

(** The site holds one workbook; the local disk holds no file, and the
    Documents folder of the robot has not been made yet. *)
Definition site : State :=
  mkState ∅ disk {[ "Docs/Reports/plan.xlsx" := "v0" ]} ∅ [] [] None 0 None None.

(** A file named Reports lies in the Documents folder, and the site holds a
    workbook Reports in the library Reports. *)
Definition leftover : State :=
  mkState {[ "/home/robot/Documents/Reports" := "" ]}
    ({[ "/home/robot/Documents" ]} ∪ disk)
    {[ "Reports/Reports" := "v0" ]} ∅ [] [] None 0 None None.

Definition plan : PathParts := mkPathParts "Docs" "Reports" "plan.xlsx".

(** The workbook has been downloaded. *)
Definition downloaded : State :=
  mkState {[ "/work/plan.xlsx" := "v0" ]} disk {[ "Docs/Reports/plan.xlsx" := "v0" ]} ∅
    [] [] None 0 None None.

(** Another program holds the scratch file back until the third second of
    the wait. *)
Definition late : Env :=
  installation "/work" all_fine one_second (fun _ => "refreshed")
    (fun k fs => match k with
                 | 0 => delete "/work/plan.xlsx" fs
                 | 3 => <["/work/plan.xlsx" := "v0"]> fs
                 | _ => fs
                 end%nat).

(** Excel cannot log in to the data source of a connection. *)
Definition login_timeout : PyExc := mkExc LibraryError "ODBC: Login timeout expired".
Definition unreachable : Env :=
  installation "/work" all_fine
    (fun c => match c with RefreshAll => ComRaises 5 login_timeout | _ => ComReturns 1 end)
    (fun _ => "refreshed") nobody.

(** The folder Historik is missing in the library Dokumenter. *)
Definition no_archive : Env :=
  installation "/work"
    (fun c => match c with SpGetSubfolder _ _ => Some no_folder | _ => None end)
    one_second (fun _ => "refreshed") nobody.

(** A work item that names the site only. *)
Definition site_only : gmap string PyVal :=
  {[ "SharePointSite" := PStr "https://x/sites/A" ]}.


End Scenario.

(** ** Vocabulary for the uploads *)

(** The line logged for an upload of [name] into [folder]. *)
Definition uploaded_line (env : Env) (folder name : string) : LogLevel * string :=
  (LInfo, "[Ok] file has been uploaded to: " +:+ server_relative_url env folder name
            +:+ " on SharePoint").

(** Where the site keeps the file [name] of [folder]. *)
Definition remote_key (folder name : string) : string := folder +:+ "/" +:+ name.

(** The site after the uploads of a run: the file of the path, and the
    monthly copy when it was asked for. *)
Definition after_uploads (env : Env) (parts : PathParts) (custom_function : PyVal)
    (v : string) (remote : gmap string string) : gmap string string :=
  if bool_decide (custom_function = PStr "MonthlyFolder")
  then <[remote_key (archive_folder env) (archive_name env) := v]>
         (<[remote_key (upload_folder_of parts) (file_name parts) := v]> remote)
  else <[remote_key (upload_folder_of parts) (file_name parts) := v]> remote.

(** The lines an upload that returns logs. *)
Definition upload_lines (env : Env) (parts : PathParts) (custom_function : PyVal)
  : list (LogLevel * string) :=
  uploaded_line env (upload_folder_of parts) (file_name parts)
  :: (if bool_decide (custom_function = PStr "MonthlyFolder")
      then [ (LInfo, "Custom function: MonthlyFolder");
             uploaded_line env (archive_folder env) (archive_name env) ]
      else []).

(** ** The path split *)

Section PathSplit.

Import PathSpec.

Variable sep : ascii.

Lemma split_nonempty s : PyStr.split sep s ≠ [].
Proof.
  destruct s as [|c s]; simpl; [done|].
  destruct (decide (c = sep)); [done|].
  by destruct (PyStr.split sep s).
Qed.

Lemma split_no_sep s : has_sep sep s = false → PyStr.split sep s = [s].
Proof.
  induction s as [|c s IH]; simpl; [done|].
  intros H. apply orb_false_iff in H as [Hc Hs].
  apply bool_decide_eq_false in Hc.
  destruct (decide (c = sep)); [done|]. by rewrite IH.
Qed.

Lemma split_first s :
  has_sep sep s = true →
  PyStr.split sep s = before_first sep s :: PyStr.split sep (after_first sep s).
Proof.
  induction s as [|c s IH]; simpl; [done|].
  destruct (decide (c = sep)) as [->|Hne]; [done|].
  rewrite bool_decide_eq_false_2 by done. simpl.
  intros H. by rewrite IH.
Qed.

Lemma split_last s :
  has_sep sep s = true →
  PyStr.split sep s = PyStr.split sep (before_last sep s) ++ [after_last sep s].
Proof.
  induction s as [|c s IH]; simpl; [done|].
  destruct (has_sep sep s) eqn:Hs.
  - intros _. specialize (IH eq_refl). simpl.
    destruct (decide (c = sep)); [by rewrite IH|].
    rewrite IH.
    pose proof (split_nonempty (before_last sep s)).
    by destruct (PyStr.split sep (before_last sep s)).
  - rewrite orb_false_r. intros Hc. apply bool_decide_eq_true in Hc.
    destruct (decide (c = sep)); [|done].
    by rewrite split_no_sep.
Qed.

Lemma before_first_no_sep s : has_sep sep s = false → before_first sep s = s.
Proof.
  induction s as [|c s IH]; simpl; [done|].
  intros H. apply orb_false_iff in H as [Hc Hs].
  apply bool_decide_eq_false in Hc.
  destruct (decide (c = sep)); [done|]. by rewrite IH.
Qed.

Lemma after_last_no_sep s : has_sep sep s = false → after_last sep s = s.
Proof.
  destruct s as [|c s]; simpl; [done|].
  intros H. apply orb_false_iff in H as [Hc Hs].
  apply bool_decide_eq_false in Hc. rewrite Hs.
  by destruct (decide (c = sep)).
Qed.

Lemma after_last_after_first s :
  has_sep sep s = true → after_last sep s = after_last sep (after_first sep s).
Proof.
  induction s as [|c s IH]; simpl; [done|].
  destruct (decide (c = sep)) as [->|Hne].
  - intros _. destruct (has_sep sep s) eqn:Hs; [done|].
    by rewrite after_last_no_sep.
  - rewrite bool_decide_eq_false_2 by done. simpl.
    intros Hs. rewrite Hs. by apply IH.
Qed.

Lemma segments_no_sep s : has_sep sep s = false → segments sep s = 1%nat.
Proof.
  induction s as [|c s IH]; simpl; [done|].
  intros H. apply orb_false_iff in H as [Hc Hs].
  apply bool_decide_eq_false in Hc.
  destruct (decide (c = sep)); [done|]. by apply IH.
Qed.

Lemma segments_after_first s :
  has_sep sep s = true → segments sep s = S (segments sep (after_first sep s)).
Proof.
  induction s as [|c s IH]; simpl; [done|].
  destruct (decide (c = sep)) as [->|Hne]; [done|].
  rewrite bool_decide_eq_false_2 by done. simpl. apply IH.
Qed.

Lemma segments_pos s : (1 ≤ segments sep s)%nat.
Proof.
  induction s as [|c s IH]; simpl; [lia|].
  destruct (decide (c = sep)); lia.
Qed.

Lemma segments_has_sep s : has_sep sep s = true → (2 ≤ segments sep s)%nat.
Proof.
  intros H. rewrite (segments_after_first _ H).
  pose proof (segments_pos (after_first sep s)). lia.
Qed.

(** Joining the pieces of a split with the separator gives the string back. *)
Lemma join_split s : PyStr.join (String sep "") (PyStr.split sep s) = s.
Proof.
  induction s as [|c s IH]; simpl; [done|].
  pose proof (split_nonempty s).
  destruct (PyStr.split sep s) as [|x l] eqn:E; [done|].
  destruct (decide (c = sep)) as [->|Hne].
  - change (PyStr.join (String sep "") ("" :: x :: l))
      with (String sep (PyStr.join (String sep "") (x :: l))).
    by rewrite IH.
  - rewrite <- IH. by destruct l.
Qed.

Lemma split_length s : length (PyStr.split sep s) = segments sep s.
Proof.
  induction s as [|c s IH]; simpl; [done|].
  destruct (decide (c = sep)); simpl; [by rewrite IH|].
  pose proof (split_nonempty s).
  destruct (PyStr.split sep s); [done|]. by rewrite <- IH.
Qed.

End PathSplit.

Lemma index_first {A} (x : A) l : PyStr.index (x :: l) 0 = Some x.
Proof.
  unfold PyStr.index. simpl length.
  replace (0 <? 0) with false by done.
  rewrite (proj2 (Z.leb_le 0 0)) by lia.
  rewrite (proj2 (Z.ltb_lt 0 _)) by lia. done.
Qed.

Lemma index_last {A} (l : list A) (y : A) : PyStr.index (l ++ [y]) (-1) = Some y.
Proof.
  unfold PyStr.index. rewrite length_app. simpl length.
  replace (-1 <? 0) with true by done.
  rewrite (proj2 (Z.leb_le 0 _)) by lia.
  rewrite (proj2 (Z.ltb_lt _ _)) by lia. simpl.
  replace (Z.to_nat (-1 + Z.of_nat (length l + 1))) with (length l + 0)%nat by lia.
  by rewrite lookup_app_r, Nat.add_0_r, Nat.sub_diag by lia.
Qed.

Lemma index_last_cons {A} (x y : A) (m : list A) :
  PyStr.index (x :: m ++ [y]) (-1) = Some y.
Proof. rewrite app_comm_cons. apply index_last. Qed.

Lemma slice_middle {A} (x y : A) (m : list A) : PyStr.slice (x :: m ++ [y]) 1 (-1) = m.
Proof.
  unfold PyStr.slice, PyStr.clamp. simpl length. rewrite length_app. simpl length.
  replace (1 <? 0) with false by done. replace (-1 <? 0) with true by done.
  replace (Z.to_nat (Z.max 0 (Z.min (Z.of_nat (S (length m + 1))) 1))) with 1%nat by lia.
  replace (Z.to_nat (Z.max 0 (Z.min (Z.of_nat (S (length m + 1)))
             (-1 + Z.of_nat (S (length m + 1)))))) with (S (length m)) by lia.
  simpl. rewrite Nat.sub_0_r, drop_0. by rewrite take_app_length.
Qed.

Lemma split_path_parts (s : string) :
  ∃ parts, split_path s = Some parts
    ∧ DOCUMENT_LIBRARY parts = PathSpec.before_first slash s
    ∧ file_name parts = PathSpec.after_last slash s
    ∧ FOLDER_PATH parts =
        (if (3 <=? PathSpec.segments slash s)%nat then PathSpec.middle slash s else "").
Proof.
  unfold split_path.
  destruct (PathSpec.has_sep slash s) eqn:Hs.
  - rewrite (split_first _ _ Hs), index_first. simpl mbind.
    rewrite (segments_after_first _ _ Hs), (after_last_after_first _ _ Hs).
    unfold PathSpec.middle.
    set (t := PathSpec.after_first slash s).
    destruct (PathSpec.has_sep slash t) eqn:Ht.
    + rewrite (split_last _ _ Ht).
      pose proof (segments_has_sep _ _ Ht) as Hn.
      rewrite index_last_cons. eexists; split; [reflexivity|]. simpl.
      repeat split.
      rewrite slice_middle, length_app. simpl length.
      pose proof (split_nonempty slash (PathSpec.before_last slash t)) as Hne.
      destruct (PathSpec.segments slash t) as [|[|n]]; [lia..|].
      rewrite (proj2 (Z.ltb_lt 2 _)).
      2:{ destruct (PyStr.split slash (PathSpec.before_last slash t)); [done|].
          simpl length. lia. }
      apply (join_split slash).
    + rewrite (split_no_sep _ _ Ht), (segments_no_sep _ _ Ht), (after_last_no_sep _ _ Ht).
      eexists; split; [reflexivity|]. simpl. repeat split.
  - rewrite (split_no_sep _ _ Hs), (segments_no_sep _ _ Hs).
    eexists; split; [reflexivity|]. simpl.
    rewrite (before_first_no_sep _ _ Hs), (after_last_no_sep _ _ Hs).
    repeat split; done.
Qed.

(** C6. For every FolderPath string the split succeeds; the library is the
    segment before the first slash, the file name the segment after the last
    slash, and the subfolder chain is what lies between the first and the last
    slash (the middle segments joined by slashes) when the path has three or
    more segments, and the empty string when it has one or two.  The segments
    are those of the string: joined by slashes they give it back. *)
Theorem split_path_segments (s : string) :
  ∃ parts, split_path s = Some parts
    ∧ DOCUMENT_LIBRARY parts = PathSpec.before_first slash s
    ∧ file_name parts = PathSpec.after_last slash s
    ∧ FOLDER_PATH parts =
        (if (3 <=? PathSpec.segments slash s)%nat then PathSpec.middle slash s else "")
    ∧ length (PyStr.split slash s) = PathSpec.segments slash s
    ∧ PyStr.join "/" (PyStr.split slash s) = s.
Proof.
  destruct (split_path_parts s) as (parts & H1 & H2 & H3 & H4).
  exists parts. repeat split; try done.
  - apply split_length.
  - apply (join_split slash).
Qed.

(** ** The refresh operation *)

Section Refresh.

Context (env : Env).

Lemma com_effect_frame c s s' :
  com_effect env c s = inr s' → trace s' = trace s ∧ log s' = log s.
Proof.
  unfold com_effect. intros H.
  destruct c; simplify_eq; try done.
  - destruct (files s !! path); by simplify_eq.
  - destruct (workbook s) as [[]|]; by simplify_eq.
  - destruct (workbook s) as [[]|]; by simplify_eq.
  - destruct (workbook s) as [[]|], save_changes; by simplify_eq.
Qed.

Lemma com_call_frame c s :
  trace (com_call env c s).2 = trace s ++ [EvCom c] ∧ log (com_call env c s).2 = log s.
Proof.
  unfold com_call.
  destruct (com env c) as [secs|secs e|]; [| |done].
  - destruct (in_time secs s); [|done].
    destruct (com_effect env c (add_event (EvCom c) s)) as [e|s'] eqn:E; [done|].
    simpl. by apply com_effect_frame in E as [-> ->].
  - by destruct (in_time secs s).
Qed.

Lemma refresh_excel_file_unfold file_path :
  refresh_excel_file env file_path =
  com_seq env (refresh_steps file_path)
    (log_info ("[Ok] Excel file at " +:+ file_path +:+ " has been refreshed and saved.")).
Proof. reflexivity. Qed.

(** Either every call returns and the continuation runs after them, or the
    run ends at the first call that does not return, with that call's
    outcome and state. *)
Lemma com_seq_cases cs k s :
  (∃ s1, trace s1 = trace s ++ map EvCom cs ∧ log s1 = log s
         ∧ com_seq env cs k s = k s1)
  ∨ (∃ n c sk, cs !! n = Some c
         ∧ com_seq env cs k s = com_call env c sk
         ∧ (com_call env c sk).1 ≠ Ok tt
         ∧ trace (com_call env c sk).2 = trace s ++ map EvCom (take (S n) cs)
         ∧ log (com_call env c sk).2 = log s).
Proof.
  revert s. induction cs as [|c cs IH]; intros s.
  - left. exists s. simpl. by rewrite app_nil_r.
  - simpl. unfold bind.
    pose proof (com_call_frame c s) as [Ht Hl].
    destruct (com_call env c s) as [[[]|e|] s1] eqn:E; simpl in Ht, Hl.
    + destruct (IH s1) as [(s2 & Ht2 & Hl2 & Hk) | (n & c' & sk & Hc & Hk & Hr & Ht2 & Hl2)].
      * left. exists s2. rewrite Ht2, Hl2, Ht, Hl, <- app_assoc. by split_and!.
      * right. exists (S n), c', sk. rewrite Ht2, Hl2, Ht, Hl, <- app_assoc. by split_and!.
    + right. exists 0%nat, c, s. rewrite E. simpl. rewrite ?take_0. by split_and!.
    + right. exists 0%nat, c, s. rewrite E. simpl. rewrite ?take_0. by split_and!.
Qed.

End Refresh.

(** C9. Every call of the refresh operation makes its COM calls in the fixed
    order start (invisible), open, refresh all, wait for the asynchronous
    refreshes, save, close, quit: the calls made are always an initial part of
    that sequence.  When the operation returns, all of them were made and the
    milestone is logged; when it does not, it ended at the first call that
    failed, with that call's outcome and state and nothing done afterwards. *)
Theorem refresh_excel_file_sequence (env : Env) (file_path : string) (s : State) :
  let r := (refresh_excel_file env file_path s).1 in
  let s' := (refresh_excel_file env file_path s).2 in
  ∃ n, (1 ≤ n ≤ 8)%nat
    ∧ trace s' = trace s ++ map EvCom (take n (refresh_steps file_path))
    ∧ (r = Ok tt →
         n = 8%nat
         ∧ log s' = log s ++
             [(LInfo, "[Ok] Excel file at " +:+ file_path +:+ " has been refreshed and saved.")])
    ∧ (r ≠ Ok tt →
         log s' = log s
         ∧ ∃ c sk, refresh_steps file_path !! (n - 1)%nat = Some c
                   ∧ com_call env c sk = (r, s')).
Proof.
  intros r s'. subst r s'. rewrite refresh_excel_file_unfold.
  destruct (com_seq_cases env (refresh_steps file_path)
              (log_info ("[Ok] Excel file at " +:+ file_path +:+ " has been refreshed and saved.")) s)
    as [(s1 & Ht & Hl & Hk) | (n & c & sk & Hc & Hk & Hr & Ht & Hl)]; rewrite Hk.
  - exists 8%nat. simpl. rewrite Ht, Hl. split_and!; try done; lia.
  - exists (S n). rewrite Ht, Hl.
    assert (n < 8)%nat by (apply lookup_lt_Some in Hc; simpl in Hc; lia).
    split_and!; try done; try lia.
    intros _. split; [done|]. exists c, sk. replace (S n - 1)%nat with n by lia.
    split; [done|]. by destruct (com_call env c sk).
Qed.

(** ** Making directories *)

Section Makedirs.

Context (env : Env).

Lemma descending_shorter name chain x :
  descending name chain → x ∈ chain → (String.length x < String.length name)%nat.
Proof.
  revert name. induction chain as [|h rest IH]; intros name Hd Hx.
  - by apply elem_of_nil in Hx.
  - destruct Hd as [Hh Hrest]. apply elem_of_cons in Hx as [->|Hx]; [done|].
    specialize (IH h Hrest Hx). lia.
Qed.

Lemma parents_descending fuel path : descending path (parents env fuel path).
Proof.
  revert path. induction fuel as [|fuel IH]; intros path; simpl; [done|].
  destruct (PyStr.truthy (dirname env path)
            && (String.length (dirname env path) <? String.length path)%nat) eqn:E;
    [|done].
  apply andb_true_iff in E as [_ E]. apply Nat.ltb_lt in E. simpl. by split.
Qed.

Lemma exists_in_set_dirs D s path :
  exists_in (set_dirs (λ _, D) s) path
  = bool_decide (is_Some (files s !! path)) || bool_decide (path ∈ D).
Proof. done. Qed.

Lemma set_dirs_same s : set_dirs (λ _, dirs s) s = s.
Proof. by destruct s. Qed.

(** What [os.makedirs] does at a name where nothing is: it makes the name
    and heads of its chain, or it raises and leaves everything as it was. *)
Lemma makedirs_spec chain :
  ∀ name s,
    descending name chain → exists_in s name = false →
    ∃ r D,
      makedirs chain name s = (r, set_dirs (λ _, D) s)
      ∧ dirs s ⊆ D
      ∧ (∀ x, x ∈ D → x ∈ dirs s ∨ x = name ∨ x ∈ chain)
      ∧ ((r = Ok tt ∧ name ∈ D) ∨ (∃ e, r = Raise e ∧ D = dirs s)).
Proof.
  induction chain as [|h rest IH]; intros name s Hd Hex.
  - exists (Ok tt), ({[name]} ∪ dirs s). simpl. unfold os_mkdir. rewrite Hex.
    split_and!; [done|set_solver| |left; split; [done|set_solver]].
    intros x Hx. apply elem_of_union in Hx as [Hx|Hx]; [|by left].
    apply elem_of_singleton in Hx. by right; left.
  - destruct Hd as [Hlt Hrest]. simpl. unfold bind at 1. unfold os_path_exists, gets.
    assert (name ∉ dirs s) as Hnd.
    { intros Hin. unfold exists_in in Hex. apply orb_false_iff in Hex as [_ Hex].
      by apply bool_decide_eq_false in Hex. }
    assert (files s !! name = None) as Hnf.
    { unfold exists_in in Hex. apply orb_false_iff in Hex as [Hex _].
      apply bool_decide_eq_false in Hex. destruct (files s !! name); [|done].
      destruct Hex. by eexists. }
    destruct (exists_in s h) eqn:Hh; simpl.
    + unfold bind, ret, os_mkdir. rewrite Hex.
      destruct (bool_decide (h ∈ dirs s)) eqn:Hhd.
      * exists (Ok tt), ({[name]} ∪ dirs s).
        split_and!; [done|set_solver| |left; split; [done|set_solver]].
        intros x Hx. apply elem_of_union in Hx as [Hx|Hx]; [|by left].
        apply elem_of_singleton in Hx. by right; left.
      * destruct (bool_decide (is_Some (files s !! h)));
          (eexists (Raise _), (dirs s); rewrite set_dirs_same;
           split_and!; [done|done|by left|right; by eexists]).
    + destruct (IH h s Hrest Hh) as (r1 & D1 & Hrun & Hsub & Hnew & Hres).
      unfold bind, try_except. rewrite Hrun.
      assert (name ∉ D1) as Hn1.
      { intros Hin. apply Hnew in Hin as [Hin|[->|Hin]]; [done|lia|].
        pose proof (descending_shorter h rest name Hrest Hin). lia. }
      destruct Hres as [[-> Hh1] | (e & -> & ->)].
      * unfold os_mkdir. rewrite exists_in_set_dirs, Hnf.
        rewrite (bool_decide_eq_false_2 (is_Some None)) by (by intros [? ?]).
        rewrite (bool_decide_eq_false_2 (name ∈ D1)) by done. simpl.
        rewrite (bool_decide_eq_true_2 (h ∈ D1)) by done.
        exists (Ok tt), ({[name]} ∪ D1).
        split_and!; [done|set_solver| |left; split; [done|set_solver]].
        intros x Hx. apply elem_of_union in Hx as [Hx|Hx].
        -- apply elem_of_singleton in Hx. by right; left.
        -- apply Hnew in Hx as [Hx|[->|Hx]]; [by left| |].
           ++ right. right. apply list_elem_of_here.
           ++ right. right. by apply list_elem_of_further.
      * assert (h ∉ dirs s) as Hhd.
        { intros Hin. unfold exists_in in Hh. apply orb_false_iff in Hh as [_ Hh].
          by apply bool_decide_eq_false in Hh. }
        assert (files s !! h = None) as Hhf.
        { unfold exists_in in Hh. apply orb_false_iff in Hh as [Hh _].
          apply bool_decide_eq_false in Hh. destruct (files s !! h); [|done].
          destruct Hh. by eexists. }
        rewrite set_dirs_same.
        destruct (exc_kind e) eqn:Hk; unfold ret, raise;
          try (exists (Raise e), (dirs s); rewrite set_dirs_same;
               split_and!; [done|done|by left|right; by eexists]).
        unfold os_mkdir. rewrite Hex, Hhf.
        rewrite (bool_decide_eq_false_2 (h ∈ dirs s)) by done.
        rewrite (bool_decide_eq_false_2 (is_Some None)) by (by intros [? ?]).
        eexists (Raise _), (dirs s). rewrite set_dirs_same.
        split_and!; [done|done|by left|right; by eexists].
Qed.

Lemma os_makedirs_spec path s :
  exists_in s path = false →
  ∃ r D,
    os_makedirs env path s = (r, set_dirs (λ _, D) (add_event (EvMakedirs path) s))
    ∧ dirs s ⊆ D
    ∧ (∀ x, x ∈ D → x ∈ dirs s ∨ x = path ∨ x ∈ ancestors env path)
    ∧ ((r = Ok tt ∧ path ∈ D) ∨ (∃ e, r = Raise e ∧ D = dirs s)).
Proof.
  intros Hex. unfold os_makedirs, bind, modify.
  apply (makedirs_spec (ancestors env path) path (add_event (EvMakedirs path) s));
    [apply parents_descending|done].
Qed.

(** Whether a directory can be made depends on the files and directories
    alone. *)
Lemma os_mkdir_uniform parent path s t :
  files s = files t → dirs s = dirs t →
  (os_mkdir parent path s).1 = (os_mkdir parent path t).1
  ∧ dirs (os_mkdir parent path s).2 = dirs (os_mkdir parent path t).2
  ∧ files (os_mkdir parent path s).2 = files s
  ∧ files (os_mkdir parent path t).2 = files t.
Proof.
  intros Hf Hd. unfold os_mkdir, exists_in. rewrite Hf, Hd.
  destruct (bool_decide (is_Some (files t !! path)) || bool_decide (path ∈ dirs t));
    [by simpl|].
  destruct parent as [h|]; [|by simpl; rewrite Hd].
  destruct (bool_decide (h ∈ dirs t)); [by simpl; rewrite Hd|].
  by destruct (bool_decide (is_Some (files t !! h))).
Qed.

Lemma makedirs_uniform chain :
  ∀ name s t,
    files s = files t → dirs s = dirs t →
    (makedirs chain name s).1 = (makedirs chain name t).1
    ∧ dirs (makedirs chain name s).2 = dirs (makedirs chain name t).2
    ∧ files (makedirs chain name s).2 = files s
    ∧ files (makedirs chain name t).2 = files t.
Proof.
  induction chain as [|h rest IH]; intros name s t Hf Hd; simpl.
  - by apply os_mkdir_uniform.
  - unfold bind at 1 3 5 7 9 11. unfold os_path_exists, gets.
    assert (exists_in s h = exists_in t h) as -> by (unfold exists_in; by rewrite Hf, Hd).
    destruct (exists_in t h); simpl.
    + unfold bind, ret. by apply os_mkdir_uniform.
    + destruct (IH h s t Hf Hd) as (Hr & Hd1 & Hf1 & Hf2).
      unfold bind, try_except.
      destruct (makedirs rest h s) as [r1 s1].
      destruct (makedirs rest h t) as [r2 t1].
      simpl in Hr, Hd1, Hf1, Hf2. subst r2.
      assert (files s1 = files t1) as Hf' by congruence.
      destruct r1 as [[]|e|]; [| |done].
      * destruct (os_mkdir_uniform (Some h) name s1 t1 Hf' Hd1) as (? & ? & ? & ?).
        split_and!; congruence.
      * destruct (exc_kind e); unfold ret, raise; try (by split_and!).
        destruct (os_mkdir_uniform (Some h) name s1 t1 Hf' Hd1) as (? & ? & ? & ?).
        split_and!; congruence.
Qed.

End Makedirs.

(** ** The download *)

Arguments poll : simpl never.

Section Download.

Context (env : Env).

Lemma files_after_sleeps k s : files (after_sleeps env k s) = files_at env k (files s).
Proof. induction k as [|k IH]; simpl; [done|]. by rewrite IH. Qed.

Lemma dirs_after_sleeps k s : dirs (after_sleeps env k s) = dirs s.
Proof. induction k as [|k IH]; simpl; done. Qed.

Lemma log_after_sleeps k s : log (after_sleeps env k s) = log s.
Proof. induction k as [|k IH]; simpl; done. Qed.

Lemma after_sleeps_frame k s :
  dirs (after_sleeps env k s) = dirs s
  ∧ log (after_sleeps env k s) = log s
  ∧ remote_files (after_sleeps env k s) = remote_files s
  ∧ local_file_path (after_sleeps env k s) = local_file_path s.
Proof. induction k as [|k IH]; simpl; done. Qed.

Lemma exists_in_after_sleeps k s path :
  exists_in (after_sleeps env k s) path
  = bool_decide (is_Some (files_at env k (files s) !! path)) || bool_decide (path ∈ dirs s).
Proof. unfold exists_in. by rewrite files_after_sleeps, dirs_after_sleeps. Qed.

Lemma trace_after_sleeps k s :
  trace (after_sleeps env k s) = trace s ++ replicate k (EvSleep 1).
Proof.
  induction k as [|k IH]; simpl; [by rewrite app_nil_r|].
  rewrite IH, <- app_assoc. f_equal.
  change [EvSleep 1] with (replicate 1 (EvSleep 1)).
  by rewrite <- replicate_add, Nat.add_1_r.
Qed.

(** The loop returns at once when the file is there. *)
Lemma poll_found fuel path w c e s :
  exists_in s path = true → poll env fuel path w c e s = (Ok e, s).
Proof.
  intros H. destruct fuel; unfold poll; unfold bind, os_path_exists, gets; by rewrite H.
Qed.

(** The loop sleeps until the waiting time is over when the file stays away. *)
Lemma poll_absent path w s m :
  ∀ k, (k + m = w)%nat →
       (∀ j, (k ≤ j ≤ w)%nat → exists_in (after_sleeps env j s) path = false) →
       poll env m path w 1 k (after_sleeps env k s) = (Ok w, after_sleeps env w s).
Proof.
  induction m as [|m IH]; intros k Hk Habs.
  - assert (k = w) as -> by lia.
    unfold poll. unfold bind, os_path_exists, gets. rewrite Habs by lia. simpl.
    by rewrite Nat.ltb_irrefl.
  - unfold poll; fold poll. unfold bind at 1. unfold os_path_exists, gets.
    rewrite Habs by lia. simpl.
    rewrite (proj2 (Nat.ltb_lt k w)) by lia.
    unfold bind, time_sleep, modify.
    replace (k + 1)%nat with (S k) by lia.
    apply (IH (S k)); [lia|]. intros j Hj. apply Habs. lia.
Qed.

End Download.

Section DownloadStages.

Context (env : Env).

(** The state lines 89-90 leave, and whether they raise. *)
Lemma after_makedirs_cases parts s :
  (exists_in s (documents_folder_of env parts) = true
   ∧ after_makedirs env parts s = s ∧ makedirs_raises env parts s = None)
  ∨ (exists_in s (documents_folder_of env parts) = false
     ∧ ∃ D,
         after_makedirs env parts s
         = set_dirs (λ _, D) (add_event (EvMakedirs (documents_folder_of env parts)) s)
         ∧ dirs s ⊆ D
         ∧ (∀ x, x ∈ D → x ∈ dirs s ∨ x = documents_folder_of env parts
                         ∨ x ∈ ancestors env (documents_folder_of env parts))
         ∧ ((makedirs_raises env parts s = None
             ∧ (os_makedirs env (documents_folder_of env parts) s).1 = Ok tt
             ∧ documents_folder_of env parts ∈ D)
            ∨ (∃ e, makedirs_raises env parts s = Some e
                    ∧ (os_makedirs env (documents_folder_of env parts) s).1 = Raise e
                    ∧ D = dirs s))).
Proof.
  unfold after_makedirs, makedirs_raises.
  destruct (exists_in s (documents_folder_of env parts)) eqn:E; [by left|].
  right. split; [done|].
  destruct (os_makedirs_spec env _ s E) as (r & D & Hrun & Hsub & Hnew & Hres).
  exists D. rewrite Hrun. simpl. split_and!; try done.
  destruct Hres as [[-> Hin] | (e & -> & ->)]; [by left|right; by exists e].
Qed.

(** Lines 89-90 as one step. *)
Lemma ensure_step parts s :
  (if negb (exists_in s (documents_folder_of env parts))
   then os_makedirs env (documents_folder_of env parts) else ret ()) s
  = (match makedirs_raises env parts s with Some e => Raise e | None => Ok tt end,
     after_makedirs env parts s).
Proof.
  destruct (after_makedirs_cases parts s)
    as [(E & -> & ->) | (E & D & Hs & _ & _ & [(-> & Hr & _) | (e & -> & Hr & _)])];
    rewrite E; simpl; [done| |].
  - unfold after_makedirs in *. rewrite E in *.
    destruct (os_makedirs env _ s) as [r s']. simpl in *. by subst.
  - unfold after_makedirs in *. rewrite E in *.
    destruct (os_makedirs env _ s) as [r s']. simpl in *. by subst.
Qed.

Lemma dirs_after_makedirs parts s : dirs s ⊆ dirs (after_makedirs env parts s).
Proof.
  destruct (after_makedirs_cases parts s) as [(_ & -> & _) | (_ & D & -> & Hsub & _)];
    done.
Qed.

Lemma dirs_after_makedirs_new parts s x :
  x ∈ dirs (after_makedirs env parts s) →
  x ∈ dirs s
  ∨ (exists_in s (documents_folder_of env parts) = false
     ∧ (x = documents_folder_of env parts
        ∨ x ∈ ancestors env (documents_folder_of env parts))).
Proof.
  destruct (after_makedirs_cases parts s)
    as [(_ & -> & _) | (E & D & -> & _ & Hnew & _)]; [by left|].
  simpl. intros Hx. apply Hnew in Hx as [?|?]; [by left|by right].
Qed.

Lemma makedirs_made parts s :
  makedirs_raises env parts s = None →
  exists_in (after_makedirs env parts s) (documents_folder_of env parts) = true.
Proof.
  destruct (after_makedirs_cases parts s)
    as [(E & -> & _) | (E & D & -> & _ & _ & [(_ & _ & Hin) | (e & -> & _)])];
    [done| |done].
  intros _. unfold exists_in. simpl. apply orb_true_iff. right.
  by apply bool_decide_eq_true.
Qed.

Lemma makedirs_failed parts s e :
  makedirs_raises env parts s = Some e →
  exists_in s (documents_folder_of env parts) = false
  ∧ dirs (after_makedirs env parts s) = dirs s
  ∧ trace (after_makedirs env parts s)
    = trace s ++ [EvMakedirs (documents_folder_of env parts)].
Proof.
  destruct (after_makedirs_cases parts s)
    as [(E & -> & ->) | (E & D & -> & _ & _ & [(-> & _) | (e' & -> & _ & ->)])];
    done.
Qed.

Lemma after_makedirs_frame parts s :
  files (after_makedirs env parts s) = files s
  ∧ remote_files (after_makedirs env parts s) = remote_files s
  ∧ log (after_makedirs env parts s) = log s
  ∧ local_file_path (after_makedirs env parts s) = local_file_path s
  ∧ ∃ evs, trace (after_makedirs env parts s) = trace s ++ evs
           ∧ (evs = [] ∨ evs = [EvMakedirs (documents_folder_of env parts)]).
Proof.
  destruct (after_makedirs_cases parts s) as [(_ & -> & _) | (_ & D & -> & _)];
    simpl; split_and!; try done.
  - exists []. rewrite app_nil_r. auto.
  - eexists. split; [done|]. auto.
Qed.

(** Lines 89-90 depend on the files and directories alone. *)
Lemma after_makedirs_uniform parts s t :
  files s = files t → dirs s = dirs t →
  makedirs_raises env parts s = makedirs_raises env parts t
  ∧ dirs (after_makedirs env parts s) = dirs (after_makedirs env parts t).
Proof.
  intros Hf Hd. unfold makedirs_raises, after_makedirs.
  assert (exists_in s (documents_folder_of env parts)
          = exists_in t (documents_folder_of env parts)) as ->
    by (unfold exists_in; by rewrite Hf, Hd).
  destruct (exists_in t (documents_folder_of env parts)); [done|].
  unfold os_makedirs, bind, modify.
  destruct (makedirs_uniform (ancestors env (documents_folder_of env parts))
              (documents_folder_of env parts)
              (add_event (EvMakedirs (documents_folder_of env parts)) s)
              (add_event (EvMakedirs (documents_folder_of env parts)) t) Hf Hd)
    as (-> & -> & _). done.
Qed.

(** What it takes for the [with] statement to end without an exception,
    and the state it leaves. *)
Lemma download_statement_ok url path s s2 :
  (download_statement env url path s = (Ok tt, s2)) ↔
  ((path ∉ dirs s) ∧ sp env (SpDownload url) = None
   ∧ ∃ c, remote_files s !! url = Some c
          ∧ s2 = set_files (outside env 0)
                   (set_files (insert path c)
                      (add_event (EvSp (SpDownload url))
                         (set_files (insert path "") (add_event (EvOpen path "wb") s))))).
Proof.
  unfold download_statement, bind, open_wb, download_into.
  destruct (decide (path ∈ dirs s)) as [Hin|Hout].
  - rewrite bool_decide_eq_true_2 by done. split; [done|]. by intros [? _].
  - rewrite bool_decide_eq_false_2 by done. simpl remote_files.
    destruct (sp env (SpDownload url)); [split; [done|by intros (_ & ? & _)]|].
    destruct (remote_files s !! url) as [c|].
    + split.
      * intros [= <-]. split_and!; try done. by exists c.
      * intros (_ & _ & c' & [= <-] & ->). done.
    + split; [done|]. by intros (_ & _ & c' & ? & _).
Qed.

(** The download once the [with] statement has ended without an exception. *)
Lemma download_after_statement client url parts s s2 :
  split_path url = Some parts →
  makedirs_raises env parts s = None →
  download_statement env url (download_path_of env parts) (after_makedirs env parts s)
    = (Ok tt, s2) →
  download_file_from_sharepoint env client (PStr url) s =
  match poll env 60 (download_path_of env parts) 60 1 0 s2 with
  | (Ok _, s3) =>
      if exists_in s3 (download_path_of env parts)
      then (Ok (download_path_of env parts),
            add_log (LInfo, "[Ok] file has been downloaded into: "
                              +:+ download_path_of env parts) s3)
      else (Raise (exc_not_downloaded (download_path_of env parts)), s3)
  | (Raise e, s3) => (Raise e, s3)
  | (Stuck, s3) => (Stuck, s3)
  end.
Proof.
  intros Hsplit Hmk Hst.
  unfold download_file_from_sharepoint, as_str.
  unfold bind at 1. unfold ret at 1. rewrite Hsplit.
  unfold bind at 1. unfold of_option, ret at 1.
  unfold bind at 1. unfold os_path_exists at 1. unfold gets at 1.
  unfold bind at 1.
  rewrite ensure_step, Hmk.
  unfold bind at 1. rewrite Hst.
  unfold bind at 1.
  destruct (poll env 60 _ 60 1 0 _) as [[n| |] s3]; try done.
  unfold bind, os_path_exists, gets.
  by destruct (exists_in s3 (download_path_of env parts)).
Qed.

(** Lines 85-101 end without an exception when the documents folder is
    there or can be made, and the [with] statement ends without one. *)
Lemma download_request_ok url parts s s2 :
  download_request env url parts s = (Ok tt, s2)
  ↔ makedirs_raises env parts s = None
    ∧ download_statement env url (download_path_of env parts)
        (after_makedirs env parts s) = (Ok tt, s2).
Proof.
  unfold download_request. unfold bind at 1. unfold os_path_exists, gets.
  unfold bind at 1. rewrite ensure_step.
  destruct (makedirs_raises env parts s) as [e|]; [|by split; [|intros [_ ?]]].
  split; [done|]. by intros [? _].
Qed.

End DownloadStages.

Section DownloadOutcomes.

Context (env : Env).

Lemma new_events_app s s' evs : trace s' = trace s ++ evs → new_events s s' = evs.
Proof. unfold new_events. intros ->. by rewrite drop_app_length. Qed.

Lemma new_log_app s s' l : log s' = log s ++ l → new_log s s' = l.
Proof. unfold new_log. intros ->. by rewrite drop_app_length. Qed.

Lemma statement_left url parts s s2 :
  download_statement env url (download_path_of env parts) (after_makedirs env parts s)
    = (Ok tt, s2) →
  (download_path_of env parts ∉ dirs s2)
  ∧ log s2 = log s
  ∧ local_file_path s2 = local_file_path s
  ∧ (∃ c, remote_files s !! url = Some c ∧ remote_files s2 = remote_files s
          ∧ files s2 = outside env 0 (<[download_path_of env parts := c]> (files s)))
  ∧ ∃ evs, trace s2 = trace s ++ evs
           ++ [EvOpen (download_path_of env parts) "wb"; EvSp (SpDownload url)]
           ∧ (evs = [] ∨ evs = [EvMakedirs (documents_folder_of env parts)]).
Proof.
  intros H. apply download_statement_ok in H as (Hd & Hsp & c & Hc & ->).
  destruct (after_makedirs_frame env parts s) as (Hf & Hr & Hl & Hv & evs & Ht & Hevs).
  simpl. rewrite Hf, Hl, Hv, Ht. rewrite Hr in Hc. split_and!; try done.
  - exists c. rewrite Hr, insert_insert_eq. done.
  - exists evs. rewrite <- !app_assoc. done.
Qed.

End DownloadOutcomes.

(** C5, as the code has it. Whenever lines 85-101 of the download end
    without an exception and no other program takes the file away while the
    request is in flight, the file is at the write path, which the [open] in
    write mode created; the poll loop then returns on its first check without
    a sleep and the not-found error of line 115 is not raised: the download
    returns the write path. *)
Theorem download_poll_never_waits (env : Env) (client : PyVal) (url : string)
    (parts : PathParts) (s s2 : State) :
  split_path url = Some parts →
  download_request env url parts s = (Ok tt, s2) →
  owned env (download_path_of env parts) →
  exists_in s2 (download_path_of env parts) = true
  ∧ poll env 60 (download_path_of env parts) 60 1 0 s2 = (Ok 0%nat, s2)
  ∧ download_file_from_sharepoint env client (PStr url) s
    = (Ok (download_path_of env parts),
       add_log (LInfo, "[Ok] file has been downloaded into: " +:+ download_path_of env parts) s2)
  ∧ filter is_sleep
      (new_events s (download_file_from_sharepoint env client (PStr url) s).2) = [].
Proof.
  intros Hsplit Hreq Hown.
  apply download_request_ok in Hreq as [Hmk Hst].
  assert (exists_in s2 (download_path_of env parts) = true) as Hex.
  { apply statement_left in Hst as (_ & _ & _ & (c & _ & _ & Hf) & _).
    unfold exists_in. rewrite Hf. apply orb_true_iff. left.
    apply bool_decide_eq_true. apply Hown. rewrite lookup_insert_eq. by eexists. }
  assert (download_file_from_sharepoint env client (PStr url) s
    = (Ok (download_path_of env parts),
       add_log (LInfo, "[Ok] file has been downloaded into: " +:+ download_path_of env parts) s2))
    as Hdl.
  { rewrite (download_after_statement env client url parts s s2 Hsplit Hmk Hst).
    rewrite poll_found by done. by rewrite Hex. }
  split_and!; try done.
  - by apply poll_found.
  - rewrite Hdl. simpl.
    apply statement_left in Hst as (_ & _ & _ & _ & evs & Ht & Hevs).
    erewrite new_events_app by exact Ht.
    by destruct Hevs as [-> | ->].
Qed.

(** C4. When lines 85-101 of the download, up to the end of the [with]
    statement, have ended without an exception and the file is at the write
    path at none of the checks, the download sleeps sixty times
    for one second and then raises the not-found error of line 115.  The
    [try] statement of [process] around it ends there as well, raising from
    its handler (which finds [local_file_path] unbound), and no upload is
    made: the events are the directory creation (if any), the open, the
    request and the sixty sleeps. *)
Theorem download_gives_up_after_wait (env : Env) (client custom_function : PyVal)
    (url : string) (parts : PathParts) (s s2 : State) :
  split_path url = Some parts →
  local_file_path s = None →
  download_request env url parts s = (Ok tt, s2) →
  (∀ k, (k ≤ 60)%nat → files_at env k (files s2) !! download_path_of env parts = None) →
  download_file_from_sharepoint env client (PStr url) s
    = (Raise (exc_not_downloaded (download_path_of env parts)), after_sleeps env 60 s2)
  ∧ new_events s2 (after_sleeps env 60 s2) = replicate 60 (EvSleep 1)
  ∧ try_except (process_body env client (PStr url) custom_function) process_handler s
    = (Raise exc_unbound, after_sleeps env 60 s2)
  ∧ uploads_of (new_events s (after_sleeps env 60 s2)) = [].
Proof.
  intros Hsplit Hvar Hreq Habs.
  apply download_request_ok in Hreq as [Hmk Hst].
  pose proof (statement_left env url parts s s2 Hst) as (Hd & Hl & Hv & _ & evs & Ht & Hevs).
  assert (∀ j, (0 ≤ j ≤ 60)%nat →
               exists_in (after_sleeps env j s2) (download_path_of env parts) = false) as Hno.
  { intros j Hj. rewrite exists_in_after_sleeps. apply orb_false_iff. split.
    - apply bool_decide_eq_false. rewrite Habs by lia. by intros [? ?].
    - by apply bool_decide_eq_false. }
  assert (download_file_from_sharepoint env client (PStr url) s
    = (Raise (exc_not_downloaded (download_path_of env parts)), after_sleeps env 60 s2)) as Hdl.
  { rewrite (download_after_statement env client url parts s s2 Hsplit Hmk Hst).
    pose proof (poll_absent env _ 60 s2 60 0 eq_refl Hno) as Hp.
    change (after_sleeps env 0 s2) with s2 in Hp. rewrite Hp.
    rewrite Hno by lia. done. }
  split_and!.
  - done.
  - apply new_events_app. apply trace_after_sleeps.
  - unfold try_except, process_body. unfold bind at 1. rewrite Hdl.
    unfold process_handler, bind, load_local_file_path.
    rewrite (proj2 (proj2 (proj2 (after_sleeps_frame env 60 s2)))), Hv, Hvar.
    reflexivity.
  - erewrite new_events_app; last first.
    { rewrite trace_after_sleeps, Ht. rewrite <- !app_assoc. reflexivity. }
    unfold uploads_of. rewrite !omap_app.
    replace (omap upload_of (replicate 60 (EvSleep 1))) with (@nil (string * string * string))
      by reflexivity.
    by destruct Hevs as [-> | ->].
Qed.

Section DownloadCases.

Context (env : Env).

(** What the poll loop leaves alone. *)
Lemma poll_frame path w fuel :
  ∀ e s r s',
    poll env fuel path w 1 e s = (r, s') →
    dirs s' = dirs s ∧ log s' = log s ∧ remote_files s' = remote_files s
    ∧ remote_folders s' = remote_folders s
    ∧ local_file_path s' = local_file_path s
    ∧ (∃ n, trace s' = trace s ++ replicate n (EvSleep 1))
    ∧ (undisturbed env → files s' = files s).
Proof.
  induction fuel as [|fuel IH]; intros e s r s'; unfold poll; fold poll;
    unfold bind at 1; unfold os_path_exists, gets;
    destruct (negb (exists_in s path) && (e <? w)%nat) eqn:E.
  - intros [= <- <-]. split_and!; try done. exists 0%nat. by rewrite app_nil_r.
  - intros [= <- <-]. split_and!; try done. exists 0%nat. by rewrite app_nil_r.
  - unfold bind at 1. unfold time_sleep, modify. intros H.
    apply IH in H as (H1 & H2 & H3 & H4 & H5 & (n & H6) & H7).
    simpl in *. rewrite H1, H2, H3, H4, H5, H6. split_and!; try done.
    + exists (S n). by rewrite <- app_assoc.
    + intros Hq. rewrite (H7 Hq). exact (Hq (S e) (files s)).
  - intros [= <- <-]. split_and!; try done. exists 0%nat. by rewrite app_nil_r.
Qed.

(** The ways a download can go. *)
Lemma download_cases client url parts s :
  split_path url = Some parts →
  let path := download_path_of env parts in
  let s1 := after_makedirs env parts s in
  let r := download_file_from_sharepoint env client (PStr url) s in
  (∃ e, makedirs_raises env parts s = Some e ∧ r = (Raise e, s1))
  ∨ (makedirs_raises env parts s = None
     ∧ ((path ∈ dirs s1
         ∧ r = (Raise (exc_permission path), add_event (EvOpen path "wb") s1))
        ∨ ((path ∉ dirs s1) ∧ ∃ e,
             r = (Raise e, set_files (outside env 0)
                             (add_event (EvSp (SpDownload url))
                                (set_files (insert path "")
                                   (add_event (EvOpen path "wb") s1)))))
        ∨ (∃ s2, download_statement env url path s1 = (Ok tt, s2)))).
Proof.
  intros Hsplit path s1 r.
  destruct (makedirs_raises env parts s) as [e0|] eqn:Hmk.
  { left. exists e0. split; [done|]. subst r.
    unfold download_file_from_sharepoint, as_str.
    unfold bind at 1. unfold ret at 1. rewrite Hsplit.
    unfold bind at 1. unfold of_option, ret at 1.
    unfold bind at 1. unfold os_path_exists at 1. unfold gets at 1.
    unfold bind at 1. by rewrite ensure_step, Hmk. }
  right. split; [done|].
  destruct (decide (path ∈ dirs s1)) as [Hin|Hout].
  - left. split; [done|]. subst r.
    unfold download_file_from_sharepoint, as_str.
    unfold bind at 1. unfold ret at 1. rewrite Hsplit.
    unfold bind at 1. unfold of_option, ret at 1.
    unfold bind at 1. unfold os_path_exists at 1. unfold gets at 1.
    unfold bind at 1.
    rewrite ensure_step, Hmk.
    unfold bind at 1. unfold download_statement, bind, open_wb.
    fold path s1. by rewrite bool_decide_eq_true_2.
  - destruct (download_statement env url path s1) as [[[]|e|] s2] eqn:Hst.
    + right. right. by exists s2.
    + right. left. split; [done|]. exists e. subst r.
      unfold download_file_from_sharepoint, as_str.
      unfold bind at 1. unfold ret at 1. rewrite Hsplit.
      unfold bind at 1. unfold of_option, ret at 1.
      unfold bind at 1. unfold os_path_exists at 1. unfold gets at 1.
      unfold bind at 1.
      rewrite ensure_step, Hmk.
      unfold bind at 1. fold path s1. rewrite Hst.
      f_equal. revert Hst.
      unfold download_statement, bind, open_wb, download_into.
      rewrite bool_decide_eq_false_2 by done. simpl remote_files.
      destruct (sp env (SpDownload url)); [by intros [= _ <-]|].
      destruct (remote_files s1 !! url); [done|]. by intros [= _ <-].
    + exfalso. revert Hst.
      unfold download_statement, bind, open_wb, download_into.
      rewrite bool_decide_eq_false_2 by done. simpl remote_files.
      destruct (sp env (SpDownload url)); [done|].
      by destruct (remote_files s1 !! url).
Qed.

End DownloadCases.


(** ** The refresh in its subprocess *)

Section Subprocess.

Context (env : Env).

Lemma com_call_ok c s s' :
  com_call env c s = (Ok tt, s') →
  ∃ secs s1, com env c = ComReturns secs ∧ in_time secs s = true
             ∧ com_effect env c (add_event (EvCom c) s) = inr s1
             ∧ s' = tick secs s1.
Proof.
  unfold com_call. destruct (com env c) as [secs|secs e|]; [| |done].
  - destruct (in_time secs s) eqn:Hin; [|done].
    destruct (com_effect env c _) as [e|s1] eqn:E; [done|].
    intros [= <-]. by exists secs, s1.
  - by destruct (in_time secs s).
Qed.

(** A call that does not return leaves everything but the trace and the
    clock as it was. *)
Lemma com_call_fail c s r s' :
  com_call env c s = (r, s') → r ≠ Ok tt →
  ∃ t, s' = set_clock t (deadline s) (add_event (EvCom c) s).
Proof.
  unfold com_call. destruct (com env c) as [secs|secs e|].
  - destruct (in_time secs s) eqn:Hin.
    + destruct (com_effect env c _) as [e|s1] eqn:E; intros [= <- <-]; [|done].
      intros _. by exists (elapsed s + secs)%nat.
    + intros [= <- <-] _. exists (elapsed s). by destruct s.
  - destruct (in_time secs s) eqn:Hin; intros [= <- <-] _.
    + by exists (elapsed s + secs)%nat.
    + exists (elapsed s). by destruct s.
  - intros [= <- <-] _. exists (elapsed s). by destruct s.
Qed.

Lemma refreshing_call path s0 c s r s' :
  (∀ p, c = WorkbooksOpen p → p = path) →
  (∀ id, c ≠ DispatchEx id) →
  refreshing path s0 s →
  com_call env c s = (r, s') →
  refreshing path s0 s'.
Proof.
  intros Hopen Hnew (Hf & Hp & Hw & Hd & Hr & Hrf & Hv & Hl) Hcall.
  destruct r as [[]|e|]; [|by apply com_call_fail in Hcall as [t ->]..].
  - apply com_call_ok in Hcall as (secs & s1 & _ & _ & Heff & ->).
    unfold refreshing. simpl.
    unfold com_effect in Heff. destruct c; simpl in Heff; simplify_eq; simpl; try done.
    + exfalso. by eapply Hnew.
    + rewrite (Hopen path0 eq_refl) in *.
      destruct (files s !! path) as [c|] eqn:Hc; simplify_eq. simpl.
      split_and!; try done. right. by exists c.
    + destruct Hw as [Hw | [c Hw]]; rewrite Hw in Heff; simplify_eq; simpl.
      * split_and!; try done. by left.
      * split_and!; try done. right. by eexists.
    + destruct Hw as [Hw | [c Hw]]; rewrite Hw in Heff; simplify_eq; simpl.
      * split_and!; try done. by left.
      * split_and!; try done.
        -- intros p Hne. by rewrite lookup_insert_ne, Hf.
        -- rewrite lookup_insert_eq. by eexists.
        -- right. by eexists.
    + destruct Hw as [Hw | [c Hw]]; rewrite Hw in Heff; simplify_eq; simpl.
      * split_and!; try done. by left.
      * destruct save_changes; simpl; split_and!; try done; try by left.
        -- intros p Hne. by rewrite lookup_insert_ne, Hf.
        -- rewrite lookup_insert_eq. by eexists.
Qed.

(** A list of calls keeps an invariant that each of its calls keeps. *)
Lemma com_seq_invariant (I : State → Prop) cs k :
  (∀ c s r s', c ∈ cs → I s → com_call env c s = (r, s') → I s') →
  ∀ s r s', I s → com_seq env cs k s = (r, s') →
    (∃ s1, I s1 ∧ k s1 = (r, s')) ∨ (I s' ∧ r ≠ Ok tt).
Proof.
  induction cs as [|c cs IH]; intros Hstep s r s' Hs Hrun.
  - left. by exists s.
  - simpl in Hrun. unfold bind in Hrun.
    destruct (com_call env c s) as [[[]|e|] s1] eqn:E.
    + apply (IH (λ c' s2 r2 s2' Hc, Hstep c' s2 r2 s2' (list_elem_of_further _ _ _ Hc))
               s1 r s'); [|done].
      eapply Hstep; [|done|done]. apply list_elem_of_here.
    + injection Hrun as <- <-. right. split; [|done].
      eapply Hstep; [|done|done]. apply list_elem_of_here.
    + injection Hrun as <- <-. right. split; [|done].
      eapply Hstep; [|done|done]. apply list_elem_of_here.
Qed.

End Subprocess.

Section RefreshStage.

Context (env : Env).

(** A refresh that returns has put the refreshed contents on disk. *)
Lemma refresh_done_contents path c s s' :
  files s !! path = Some c →
  refresh_excel_file env path s = (Ok tt, s') →
  files s' !! path = Some (engine env c).
Proof.
  intros Hc H. unfold refresh_excel_file in H.
  repeat (unfold bind at 1 in H;
          match type of H with
          | context [com_call env ?c ?s] =>
              let E := fresh "E" in
              destruct (com_call env c s) as [[[]|?|] ?] eqn:E; [|done..];
              apply com_call_ok in E as (? & ? & _ & _ & E & ->)
          end).
  unfold log_info, modify in H. injection H as <-.
  unfold com_effect in *.
  repeat (progress (simpl in *; rewrite ?Hc in *; simplify_eq)).
  by rewrite lookup_insert_eq.
Qed.

Lemma refresh_steps_calls path c :
  c ∈ refresh_steps path →
  (∀ p, c = WorkbooksOpen p → p = path)
  ∧ (c = DispatchEx "Excel.Application" ∨ ∀ id, c ≠ DispatchEx id).
Proof.
  unfold refresh_steps. rewrite !elem_of_cons, elem_of_nil.
  intros [->|[->|[->|[->|[->|[->|[->|[->|[]]]]]]]]]; split; auto; try done.
  by intros p [= ->].
Qed.

(** What a refresh under its timeout leaves alone, and what it hands back. *)
Lemma refresh_with_timeout_frame path c s r s' :
  files s !! path = Some c →
  refresh_excel_file_with_timeout env path s = (r, s') →
  ∃ fut, r = Ok fut
    ∧ (∀ p, p ≠ path → files s' !! p = files s !! p)
    ∧ is_Some (files s' !! path)
    ∧ dirs s' = dirs s ∧ remote_files s' = remote_files s
    ∧ remote_folders s' = remote_folders s
    ∧ local_file_path s' = local_file_path s
    ∧ elapsed s' = elapsed s ∧ deadline s' = deadline s
    ∧ (fut = FutureDone →
         log s' = log s ++
           [(LInfo, "[Ok] Excel file at " +:+ path +:+ " has been refreshed and saved.")]
         ∧ files s' !! path = Some (engine env c))
    ∧ (∀ e, fut = FutureFailed e → log s' = log s).
Proof.
  intros Hc. unfold refresh_excel_file_with_timeout, concurrent_process.
  set (s0 := set_clock 0 (Some refresh_timeout) (add_event (EvSpawn refresh_timeout) s)).
  assert (files s0 !! path = Some c) as Hc0 by done.
  destruct (refresh_excel_file env path s0) as [rt st] eqn:Hrun.
  pose (F := λ x : State,
          (∀ p, p ≠ path → files x !! p = files s !! p) ∧ is_Some (files x !! path)
          ∧ dirs x = dirs s ∧ remote_files x = remote_files s
          ∧ remote_folders x = remote_folders s
          ∧ local_file_path x = local_file_path s ∧ log x = log s).
  assert (∀ x, refreshing path s x → F x) as HF.
  { intros x (? & ? & ? & ? & ? & ? & ? & ?). unfold F. by split_and!. }
  assert ((rt = Ok tt ∧ ∃ s1, st = add_log (LInfo, "[Ok] Excel file at " +:+ path +:+ " has been refreshed and saved.") s1 ∧ F s1)
          ∨ (rt ≠ Ok tt ∧ F st)) as Hres.
  { pose proof Hrun as Hrun'.
    rewrite refresh_excel_file_unfold in Hrun'. unfold refresh_steps in Hrun'.
    simpl in Hrun'. unfold bind at 1 in Hrun'.
    destruct (com_call env (DispatchEx "Excel.Application") s0) as [[[]|e|] s1] eqn:E1.
    - apply com_call_ok in E1 as (secs & s1' & _ & _ & Heff & ->).
      simpl in Heff. injection Heff as <-.
      match type of Hrun' with
      | ?m ?st0 = _ =>
          change (com_seq env (tail (refresh_steps path))
                    (log_info ("[Ok] Excel file at " +:+ path +:+ " has been refreshed and saved."))
                    st0 = (rt, st)) in Hrun'
      end.
      apply (com_seq_invariant env (refreshing path s)) in Hrun'.
      + destruct Hrun' as [(s2 & Hs2 & Hk) | [Hst Hne]].
        * left. unfold log_info, modify in Hk. injection Hk as <- <-.
          split; [done|]. exists s2. split; [done|]. by apply HF.
        * right. split; [done|]. by apply HF.
      + intros c' sa ra sb Hin Hsa Hcall.
        assert (c' ∈ refresh_steps path) as Hin' by (by apply list_elem_of_further).
        apply refresh_steps_calls in Hin' as [Ho [->|Hn]].
        { exfalso. simpl in Hin. rewrite !elem_of_cons, elem_of_nil in Hin.
          by destruct Hin as [?|[?|[?|[?|[?|[?|[?|[]]]]]]]]. }
        by eapply refreshing_call.
      + unfold refreshing. simpl. split_and!; try done; try (by rewrite Hc); try (by left).
    - injection Hrun' as <- <-. apply com_call_fail in E1 as [t ->]; [|done].
      right. split; [done|].
      unfold F. simpl. split_and!; try done; by rewrite Hc.
    - injection Hrun' as <- <-. apply com_call_fail in E1 as [t ->]; [|done].
      right. split; [done|].
      unfold refreshing. simpl. split_and!; try done; try (by rewrite Hc); try (by left). }
  destruct Hres as [[-> (s1 & -> & Hinv)] | [Hne Hinv]];
    destruct Hinv as (Hf & Hp & Hd & Hr & Hrf & Hv & Hl).
  - intros [= <- <-]. eexists. split; [reflexivity|]. simpl. split_and!; try done.
    intros _. rewrite Hl. split; [done|].
    exact (refresh_done_contents path c s0 _ Hc0 Hrun).
  - destruct rt as [[]|e|]; [done| |]; intros [= <- <-];
      (eexists; split; [reflexivity|]); simpl; by split_and!.
Qed.

Lemma com_effect_clock c s s1 :
  com_effect env c s = inr s1 →
  elapsed s1 = elapsed s ∧ deadline s1 = deadline s
  ∧ ∀ p, is_Some (files s !! p) → is_Some (files s1 !! p).
Proof.
  unfold com_effect. intros H.
  destruct c; simplify_eq; try done.
  - destruct (files s !! path); by simplify_eq.
  - destruct (workbook s) as [[]|]; by simplify_eq.
  - destruct (workbook s) as [[p0 c0]|]; simplify_eq; [|done]. simpl.
    split_and!; try done. intros p Hp.
    destruct (decide (p = p0)) as [->|]; [rewrite lookup_insert_eq; by eexists|].
    by rewrite lookup_insert_ne.
  - destruct (workbook s) as [[p0 c0]|], save_changes; simplify_eq; try done. simpl.
    split_and!; try done. intros p Hp.
    destruct (decide (p = p0)) as [->|]; [rewrite lookup_insert_eq; by eexists|].
    by rewrite lookup_insert_ne.
Qed.

Lemma com_effect_opens c s :
  (∀ p, c = WorkbooksOpen p → is_Some (files s !! p)) → ∃ s1, com_effect env c s = inr s1.
Proof.
  intros H. unfold com_effect. destruct c; try by eexists.
  - destruct (H path eq_refl) as [x ->]. by eexists.
  - destruct (workbook s) as [[]|]; by eexists.
  - destruct (workbook s) as [[]|]; by eexists.
  - destruct (workbook s) as [[]|]; by eexists.
Qed.

(** The outcome of a call depends on the state only through the clock
    and, for the opening of the workbook, the presence of the file. *)
Lemma com_call_uniform c s t :
  elapsed s = elapsed t → deadline s = deadline t →
  (∀ p, c = WorkbooksOpen p → is_Some (files s !! p) ∧ is_Some (files t !! p)) →
  (com_call env c s).1 = (com_call env c t).1
  ∧ elapsed (com_call env c s).2 = elapsed (com_call env c t).2
  ∧ deadline (com_call env c s).2 = deadline (com_call env c t).2
  ∧ (∀ p, is_Some (files s !! p) → is_Some (files (com_call env c s).2 !! p))
  ∧ (∀ p, is_Some (files t !! p) → is_Some (files (com_call env c t).2 !! p)).
Proof.
  intros He Hd Hopen. unfold com_call, in_time. rewrite He, Hd.
  destruct (com_effect_opens c (add_event (EvCom c) s)) as [s1 Hs1];
    [intros p ->; apply Hopen; done|].
  destruct (com_effect_opens c (add_event (EvCom c) t)) as [t1 Ht1];
    [intros p ->; apply Hopen; done|].
  rewrite Hs1, Ht1.
  apply com_effect_clock in Hs1 as (Hs1e & Hs1d & Hs1f).
  apply com_effect_clock in Ht1 as (Ht1e & Ht1d & Ht1f).
  destruct (com env c) as [secs|secs e|]; [| |done].
  - destruct (match deadline t with Some t0 => _ | None => _ end); simpl; [|done].
    rewrite Hs1e, Ht1e, Hs1d, Ht1d. simpl. rewrite He, Hd. done.
  - destruct (match deadline t with Some t0 => _ | None => _ end); simpl; [|done].
    rewrite He, Hd. done.
Qed.

Lemma com_seq_uniform cs k :
  (∀ s t, (k s).1 = (k t).1) →
  ∀ s t,
    elapsed s = elapsed t → deadline s = deadline t →
    (∀ p, WorkbooksOpen p ∈ cs → is_Some (files s !! p) ∧ is_Some (files t !! p)) →
    (com_seq env cs k s).1 = (com_seq env cs k t).1.
Proof.
  intros Hk. induction cs as [|c cs IH]; intros s t He Hd Hopen; simpl; [done|].
  unfold bind.
  destruct (com_call_uniform c s t He Hd) as (Hr & He' & Hd' & Hfs & Hft).
  { intros p ->. apply Hopen. apply list_elem_of_here. }
  destruct (com_call env c s) as [rs s1], (com_call env c t) as [rt t1].
  simpl in *. subst rt. destruct rs as [[]|e|]; try done.
  apply IH; try done.
  intros p Hp. destruct (Hopen p (list_elem_of_further _ _ _ Hp)). auto.
Qed.

Lemma refresh_with_timeout_uniform path s t :
  is_Some (files s !! path) → is_Some (files t !! path) →
  (refresh_excel_file_with_timeout env path s).1
  = (refresh_excel_file_with_timeout env path t).1.
Proof.
  intros Hs Ht. unfold refresh_excel_file_with_timeout, concurrent_process.
  rewrite refresh_excel_file_unfold.
  set (k := log_info ("[Ok] Excel file at " +:+ path +:+ " has been refreshed and saved.")).
  set (s0 := set_clock 0 (Some refresh_timeout) (add_event (EvSpawn refresh_timeout) s)).
  set (t0 := set_clock 0 (Some refresh_timeout) (add_event (EvSpawn refresh_timeout) t)).
  assert ((com_seq env (refresh_steps path) k s0).1
          = (com_seq env (refresh_steps path) k t0).1) as H.
  { apply com_seq_uniform; try done.
    intros p Hp. apply refresh_steps_calls in Hp as [Hp _].
    by rewrite (Hp p eq_refl). }
  destruct (com_seq env _ k s0) as [rs s1], (com_seq env _ k t0) as [rt t1].
  simpl in H. subst rt. by destruct rs as [[]|e|].
Qed.

End RefreshStage.

Section Timeout.

Context (env : Env).

(** Calls that cannot all end before the deadline do not all end. *)
Lemma com_seq_overrun cs k :
  ∀ s limit,
    deadline s = Some limit → (elapsed s ≤ limit)%nat →
    (∀ p, WorkbooksOpen p ∈ cs → is_Some (files s !! p)) →
    match time_to_finish env cs with
    | None => True
    | Some t => (limit < elapsed s + t)%nat
    end →
    (com_seq env cs k s).1 = Stuck.
Proof.
  induction cs as [|c cs IH]; intros s limit Hd Hle Hopen Hover; simpl in *; [lia|].
  unfold bind.
  destruct (com_call env c s) as [[[]|e|] s1] eqn:E; [| |done].
  - pose proof E as E'.
    apply com_call_ok in E' as (secs & s1' & Hc & Hin & Heff & ->).
    rewrite Hc in Hover.
    apply com_effect_clock in Heff as (He1 & Hd1 & Hf1).
    apply (IH _ limit).
    + simpl. by rewrite Hd1.
    + simpl. rewrite He1. simpl. unfold in_time in Hin. rewrite Hd in Hin.
      by apply Nat.leb_le in Hin.
    + intros p Hp. simpl. apply Hf1. simpl. apply Hopen. by apply list_elem_of_further.
    + simpl. rewrite He1. simpl.
      destruct (time_to_finish env cs) as [t|]; [lia|done].
  - exfalso. revert E. unfold com_call, in_time. rewrite Hd.
    destruct (com env c) as [secs|secs e'|]; [| |done].
    + destruct (elapsed s + secs <=? limit)%nat; [|done].
      destruct (com_effect_opens env c (add_event (EvCom c) s)) as [s2 ->]; [|done].
      intros p ->. apply Hopen. apply list_elem_of_here.
    + destruct (elapsed s + secs <=? limit)%nat eqn:Hle'; [|done].
      apply Nat.leb_le in Hle'. lia.
Qed.

(** The events of a refresh under its timeout: the start of the process,
    an initial part of the calls, and the stop of the process when the
    timeout ran out. *)
Lemma refresh_with_timeout_trace path s :
  ∃ n (killed : bool),
    trace (refresh_excel_file_with_timeout env path s).2
    = trace s ++ EvSpawn refresh_timeout :: map EvCom (take n (refresh_steps path))
        ++ (if killed then [EvTerminate] else [])
    ∧ (killed = true →
         (refresh_excel_file_with_timeout env path s).1
         = Ok (FutureFailed (pebble_timeout_error refresh_timeout)))
    ∧ ((refresh_excel_file env path
          (set_clock 0 (Some refresh_timeout) (add_event (EvSpawn refresh_timeout) s))).1
       = Stuck → killed = true).
Proof.
  unfold refresh_excel_file_with_timeout, concurrent_process.
  rewrite refresh_excel_file_unfold.
  set (k := log_info ("[Ok] Excel file at " +:+ path +:+ " has been refreshed and saved.")).
  set (s0 := set_clock 0 (Some refresh_timeout) (add_event (EvSpawn refresh_timeout) s)).
  destruct (com_seq_cases env (refresh_steps path) k s0)
    as [(s1 & Ht & Hl & Hk) | (n & c & sk & Hc & Hk & Hr & Ht & Hl)]; rewrite Hk.
  - exists 8%nat, false. unfold k, log_info, modify. simpl.
    rewrite Ht. simpl. rewrite <- app_assoc. by split_and!.
  - destruct (com_call env c sk) as [[[]|e|] s1]; [done| |]; simpl in *.
    + exists (S n), false. rewrite Ht. rewrite <- app_assoc. simpl.
      rewrite app_nil_r. by split_and!.
    + exists (S n), true. rewrite Ht. rewrite <- !app_assoc. by split_and!.
Qed.

End Timeout.

(** ** The stages of a run *)

Section Stages.

Context (env : Env).

Lemma poll_returns path w fuel :
  ∀ e s, (w ≤ e + fuel)%nat → ∃ n, (poll env fuel path w 1 e s).1 = Ok n.
Proof.
  induction fuel as [|fuel IH]; intros e s Hw; unfold poll; fold poll;
    unfold bind at 1; unfold os_path_exists, gets.
  - replace (e <? w)%nat with false by (symmetry; apply Nat.ltb_ge; lia).
    rewrite andb_false_r. by eexists.
  - destruct (negb (exists_in s path) && (e <? w)%nat); [|by eexists].
    unfold bind at 1. unfold time_sleep, modify. apply IH. lia.
Qed.

(** What any download leaves alone and what it can hand back. *)
Lemma download_frame client folder_path s r s' :
  download_file_from_sharepoint env client folder_path s = (r, s') →
  local_file_path s' = local_file_path s
  ∧ remote_files s' = remote_files s
  ∧ remote_folders s' = remote_folders s
  ∧ (∃ evs, trace s' = trace s ++ evs ∧ Forall (λ e, download_event e = true) evs)
  ∧ r ≠ Stuck
  ∧ (∀ e, r = Raise e → log s' = log s)
  ∧ (∀ p, r = Ok p →
       ∃ url parts c,
         folder_path = PStr url ∧ split_path url = Some parts
         ∧ p = download_path_of env parts
         ∧ remote_files s !! url = Some c
         ∧ is_Some (files s' !! p) ∧ (p ∉ dirs s')
         ∧ dirs s' = dirs (after_makedirs env parts s)
         ∧ (undisturbed env → files s' = <[p := c]> (files s))
         ∧ log s' = log s ++ [(LInfo, "[Ok] file has been downloaded into: " +:+ p)]).
Proof.
  intros Hrun.
  destruct folder_path as [|url|n].
  1,3: (unfold download_file_from_sharepoint, as_str, bind, raise in Hrun;
        injection Hrun as <- <-; split_and!; try done;
        exists []; by rewrite app_nil_r).
  destruct (split_path_parts url) as (parts & Hsplit & _).
  destruct (after_makedirs_frame env parts s) as (Hf1 & Hr1 & Hl1 & Hv1 & evs1 & Ht1 & Hevs1).
  assert (remote_folders (after_makedirs env parts s) = remote_folders s) as Hrf1.
  { by destruct (after_makedirs_cases env parts s) as [(_ & -> & _) | (_ & D & -> & _)]. }
  assert (Forall (λ e, download_event e = true) evs1) as Hev1.
  { destruct Hevs1 as [-> | ->]; repeat constructor. }
  destruct (download_cases env client url parts s Hsplit)
    as [(e0 & Hmk & Hr) | (Hmk & [[Hin Hr] | [[Hout [e Hr]] | [s2 Hst]]])].
  - rewrite Hrun in Hr. injection Hr as -> ->. split_and!; try done.
    by exists evs1.
  - rewrite Hrun in Hr. injection Hr as -> ->. simpl. split_and!; try done.
    exists (evs1 ++ [EvOpen (download_path_of env parts) "wb"]).
    rewrite Ht1, <- app_assoc. split; [done|].
    apply Forall_app. split; [done|]. repeat constructor.
  - rewrite Hrun in Hr. injection Hr as -> ->. simpl. split_and!; try done.
    exists (evs1 ++ [EvOpen (download_path_of env parts) "wb"; EvSp (SpDownload url)]).
    rewrite Ht1, <- !app_assoc. split; [done|].
    apply Forall_app. split; [done|]. repeat constructor.
  - rewrite (download_after_statement env client url parts s s2 Hsplit Hmk Hst) in Hrun.
    pose proof (statement_left env url parts s s2 Hst)
      as (Hd2 & Hl2 & Hv2 & (c & Hc & Hr2 & Hf2) & evs2 & Ht2 & Hevs2).
    pose proof Hst as Hst'.
    apply download_statement_ok in Hst' as (_ & _ & c' & _ & Hs2).
    assert (dirs s2 = dirs (after_makedirs env parts s)) as Hds2 by (by rewrite Hs2).
    assert (remote_folders s2 = remote_folders s) as Hrf2 by (by rewrite Hs2).
    destruct (poll_returns (download_path_of env parts) 60 60 0 s2) as [n Hn]; [lia|].
    destruct (poll env 60 (download_path_of env parts) 60 1 0 s2) as [rp s3] eqn:Hpoll.
    simpl in Hn. subst rp.
    apply poll_frame in Hpoll as (Hd3 & Hl3 & Hr3 & Hrf3 & Hv3 & (m & Ht3) & Hq3).
    assert (∃ evs, trace s3 = trace s ++ evs ∧ Forall (λ e, download_event e = true) evs)
      as Htr.
    { exists (evs2 ++ [EvOpen (download_path_of env parts) "wb"; EvSp (SpDownload url)]
              ++ replicate m (EvSleep 1)).
      rewrite Ht3, Ht2, <- !app_assoc. split; [done|].
      apply Forall_app. split.
      { destruct Hevs2 as [-> | ->]; repeat constructor. }
      repeat constructor. apply Forall_replicate. done. }
    destruct (exists_in s3 (download_path_of env parts)) eqn:Hex;
      injection Hrun as <- <-; simpl.
    + split_and!; try done; try congruence.
      intros p [= <-]. exists url, parts, c.
      assert (download_path_of env parts ∉ dirs s3) as Hnd by (by rewrite Hd3).
      split_and!; try done; try congruence.
      * unfold exists_in in Hex. apply orb_true_iff in Hex as [Hex|Hex].
        -- by apply bool_decide_eq_true in Hex.
        -- by apply bool_decide_eq_true in Hex.
      * intros Hq. by rewrite (Hq3 Hq), Hf2, Hq.
    + split_and!; try done; congruence.
Qed.

End Stages.

Section Upload.

Context (env : Env).

Lemma lookup_insert_all keys v (m : gmap string string) k :
  insert_all keys v m !! k = if decide (k ∈ keys) then Some v else m !! k.
Proof.
  induction keys as [|k0 keys IH]; simpl.
  - destruct (decide (k ∈ [])) as [H|H]; [by apply elem_of_nil in H|done].
  - destruct (decide (k = k0)) as [->|Hne].
    + rewrite lookup_insert_eq.
      destruct (decide (k0 ∈ k0 :: keys)) as [H|H]; [done|].
      exfalso. apply H, list_elem_of_here.
    + rewrite lookup_insert_ne, IH by done.
      destruct (decide (k ∈ keys)) as [Hin|Hout];
        destruct (decide (k ∈ k0 :: keys)) as [H|H]; try done.
      * exfalso. by apply H, list_elem_of_further.
      * exfalso. apply elem_of_cons in H as [?|?]; done.
Qed.

Lemma insert_all_twice keys v (m : gmap string string) :
  insert_all keys v (insert_all keys v m) = insert_all keys v m.
Proof.
  apply map_eq. intros k. rewrite !lookup_insert_all. by destruct (decide (k ∈ keys)).
Qed.

Lemma capitalize_month m : PyStr.capitalize (da_DK_month m) = danish_month m.
Proof. do 13 (destruct m as [|m]; [reflexivity|]). reflexivity. Qed.

(** The monthly copy behaves the same in every state that holds the file. *)
Lemma monthly_folder_summary path v :
  ∃ (r : Res unit) lg keys,
    r ≠ Stuck ∧
    ∀ s, files s !! path = Some v →
      ∃ s', monthly_folder env path "MonthlyFolder" s = (r, s')
        ∧ log s' = log s ++ lg
        ∧ remote_files s' = insert_all keys v (remote_files s)
        ∧ dirs s' = dirs s ∧ local_file_path s' = local_file_path s
        ∧ files s' = files s.
Proof.
  unfold monthly_folder, bind, log_info, modify, execute_query, locale_setlocale,
    folders_add, upload_file, open_rb, bind, execute_query, modify, ret, raise.
  simpl.
  destruct (sp env (SpGetList "Dokumenter")) as [e|] eqn:E1.
  { exists (Raise e), [(LInfo, "Custom function: MonthlyFolder")], [].
    split; [done|]. intros s Hv. eexists. split; [reflexivity|]. done. }
  destruct (sp env (SpGetSubfolder (list_root env "Dokumenter") "Historik")) as [e|] eqn:E2.
  { exists (Raise e), [(LInfo, "Custom function: MonthlyFolder")], [].
    split; [done|]. intros s Hv. eexists. split; [reflexivity|]. done. }
  destruct (setlocale env "da_DK") as [e|] eqn:E3.
  { exists (Raise e), [(LInfo, "Custom function: MonthlyFolder")], [].
    split; [done|]. intros s Hv. eexists. split; [reflexivity|]. done. }
  destruct (sp env (SpAddFolder _ _)) as [e|] eqn:E4.
  { exists (Raise e), [(LInfo, "Custom function: MonthlyFolder")], [].
    split; [done|]. intros s Hv. eexists. split; [reflexivity|]. done. }
  destruct (sp env (SpAddFolder _ (PyStr.capitalize _))) as [e|] eqn:E5.
  { exists (Raise e), [(LInfo, "Custom function: MonthlyFolder")], [].
    split; [done|]. intros s Hv. eexists. split; [reflexivity|]. done. }
  destruct (sp env (SpUploadFile
                      (((list_root env "Dokumenter" +:+ "/" +:+ "Historik") +:+ "/"
                         +:+ pretty (now_year env)) +:+ "/"
                         +:+ PyStr.capitalize (da_DK_month (now_month env)))
                      ("DKPlan_" +:+ PyStr.capitalize (da_DK_month (now_month env))
                         +:+ "_" +:+ pretty (now_year env) +:+ ".xlsx") v)) as [e|] eqn:E6.
  { exists (Raise e), [(LInfo, "Custom function: MonthlyFolder")], [].
    split; [done|]. intros s Hv. simpl. rewrite Hv, E6. eexists. split; [reflexivity|]. done. }
  eexists (Ok tt), [(LInfo, "Custom function: MonthlyFolder"); _], [_].
  split; [done|]. intros s Hv. simpl. rewrite Hv, E6. eexists. split; [reflexivity|].
  simpl. rewrite <- app_assoc. done.
Qed.

Lemma insert_all_app keys1 keys2 v (m : gmap string string) :
  insert_all (keys1 ++ keys2) v m = insert_all keys1 v (insert_all keys2 v m).
Proof. unfold insert_all. by rewrite foldr_app. Qed.

(** The upload behaves the same in every state that holds the file. *)
Lemma upload_summary client url parts path custom_function v :
  split_path url = Some parts →
  ∃ (r : Res unit) lg keys,
    r ≠ Stuck ∧
    ∀ s, files s !! path = Some v →
      ∃ s', upload_file_to_sharepoint env client (PStr url) path custom_function s = (r, s')
        ∧ log s' = log s ++ lg
        ∧ remote_files s' = insert_all keys v (remote_files s)
        ∧ dirs s' = dirs s ∧ local_file_path s' = local_file_path s
        ∧ files s' = (match r with Ok _ => delete path (files s) | _ => files s end).
Proof.
  intros Hsplit.
  unfold upload_file_to_sharepoint, as_str. unfold bind at 1. unfold ret at 1.
  rewrite Hsplit. unfold bind at 1. unfold of_option, ret at 1.
  unfold bind at 1. unfold execute_query at 1.
  destruct (sp env (SpGetFolder (upload_folder_of parts))) as [e|] eqn:E1.
  { exists (Raise e), [], []. split; [done|]. intros s Hv. eexists.
    split; [reflexivity|]. simpl. by rewrite app_nil_r. }
  unfold bind at 1. unfold open_rb at 1.
  unfold bind at 1. unfold upload_file at 1. unfold bind at 1. unfold execute_query at 1.
  destruct (sp env (SpUploadFile (upload_folder_of parts) (file_name parts) v))
    as [e|] eqn:E2.
  { exists (Raise e), [], []. split; [done|]. intros s Hv. simpl. rewrite Hv, E2.
    eexists. split; [reflexivity|]. simpl. by rewrite app_nil_r. }
  destruct (bool_decide (custom_function = PStr "MonthlyFolder")) eqn:Hcf.
  - destruct (monthly_folder_summary path v) as (rm & lgm & keysm & Hrm & Hm).
    destruct rm as [[]|e|]; [| |done].
    + eexists (Ok tt), (_ :: lgm), (keysm ++ [_]).
      split; [done|]. intros s Hv. simpl. rewrite Hv, E2.
      unfold bind, modify, ret, log_info, modify, os_remove.
      match goal with
      | |- context [monthly_folder env path "MonthlyFolder" ?st] =>
          destruct (Hm st) as (s' & -> & Hl & Hr & Hd & Hlv & Hf); [done|]
      end.
      rewrite Hf. simpl. rewrite Hv. eexists. split; [reflexivity|]. simpl.
      rewrite Hl, Hr, Hd, Hlv, Hf. simpl. rewrite <- app_assoc, insert_all_app. done.
    + eexists (Raise e), (_ :: lgm), (keysm ++ [_]).
      split; [done|]. intros s Hv. simpl. rewrite Hv, E2.
      unfold bind, modify, ret, log_info, modify, os_remove.
      match goal with
      | |- context [monthly_folder env path "MonthlyFolder" ?st] =>
          destruct (Hm st) as (s' & -> & Hl & Hr & Hd & Hlv & Hf); [done|]
      end.
      eexists. split; [reflexivity|].
      rewrite Hl, Hr, Hd, Hlv, Hf. simpl. rewrite <- app_assoc, insert_all_app. done.
  - eexists (Ok tt), [_], [_].
    split; [done|]. intros s Hv. simpl. rewrite Hv, E2.
    unfold bind, modify, ret, log_info, modify, os_remove. simpl. rewrite Hv.
    eexists. split; [reflexivity|]. done.
Qed.

End Upload.

Section TryStatement.

Context (env : Env).

Lemma refresh_handler_eq e s :
  refresh_handler e s = (Raise (refresh_error e), add_log (LError, refresh_error_log e) s).
Proof.
  unfold refresh_handler, refresh_error, refresh_error_log.
  by destruct (PyStr.contains "timeout" (PyStr.lower (exc_str e))).
Qed.

Lemma process_handler_unbound e s :
  local_file_path s = None → process_handler e s = (Raise exc_unbound, s).
Proof. intros H. unfold process_handler, bind, load_local_file_path. by rewrite H. Qed.

Lemma process_handler_cleans path c e s :
  local_file_path s = Some path → files s !! path = Some c →
  process_handler e s = (Raise e, cleaned_up path e s).
Proof.
  intros Hv Hf. unfold process_handler, bind, load_local_file_path, os_remove.
  by rewrite Hv, Hf.
Qed.

Lemma process_try_unfold client folder_path custom_function s :
  process_try env client folder_path custom_function s =
  match download_file_from_sharepoint env client folder_path s with
  | (Ok path, s1) =>
      try_except (process_rest env client folder_path custom_function path)
        process_handler s1
  | (Raise e, s1) => process_handler e s1
  | (Stuck, s1) => (Stuck, s1)
  end.
Proof.
  unfold process_try, try_except, process_body, process_rest. unfold bind at 1.
  by destruct (download_file_from_sharepoint env client folder_path s) as [[p|e|] s1].
Qed.

Lemma process_rest_unfold client folder_path custom_function path s :
  try_except (process_rest env client folder_path custom_function path) process_handler s =
  match refresh_excel_file_with_timeout env path (set_local_file_path (Some path) s) with
  | (Ok FutureDone, s2) =>
      match upload_file_to_sharepoint env client folder_path path custom_function s2 with
      | (Raise e, s3) => process_handler e s3
      | r => r
      end
  | (Ok (FutureFailed e0), s2) =>
      process_handler (refresh_error e0) (add_log (LError, refresh_error_log e0) s2)
  | (Raise e, s2) => process_handler e s2
  | (Stuck, s2) => (Stuck, s2)
  end.
Proof.
  unfold try_except, process_rest. unfold bind at 1. unfold modify at 1.
  unfold bind at 1.
  destruct (refresh_excel_file_with_timeout env path _) as [[[|e0]|e|] s2]; try done.
  all: unfold bind at 1; unfold try_except, future_result, ret, raise;
    rewrite ?refresh_handler_eq; done.
Qed.

End TryStatement.

Section Process.

Context (env : Env).

Lemma process_unfold queue_element s :
  process env queue_element s =
  match queue_element with
  | Some (mkQueueElement (JsonObject d)) =>
      match credential env "Robot365User" with
      | inr (username, password) =>
          let site := dict_get d "SharePointSite" in
          match sp env (SpLoadWeb site username password) with
          | None =>
              process_try env site (dict_get d "FolderPath") (dict_get d "CustomFunction")
                (authenticated env site username password s)
          | Some e =>
              (Raise e, add_event (EvSp (SpLoadWeb site username password)) (started s))
          end
      | inl e => (Raise e, started s)
      end
  | Some (mkQueueElement JsonMalformed) =>
      (Raise (mkExc JSONDecodeError "Expecting value: line 1 column 1 (char 0)"), started s)
  | Some (mkQueueElement JsonNonObject) =>
      (Raise (mkExc AttributeError "'list' object has no attribute 'get'"), started s)
  | None =>
      (Raise (mkExc AttributeError "'NoneType' object has no attribute 'data'"), started s)
  end.
Proof.
  unfold process, bind, modify, log_trace, modify, json_loads, get_credential,
    sharepoint_client, bind, execute_query, log_info, modify, ret, raise.
  destruct queue_element as [[[| |d]]|]; try done. simpl.
  destruct (credential env "Robot365User") as [e|[username password]]; [done|]. simpl.
  by destruct (sp env (SpLoadWeb _ _ _)).
Qed.

End Process.

Lemma uploads_of_app evs1 evs2 : uploads_of (evs1 ++ evs2) = uploads_of evs1 ++ uploads_of evs2.
Proof. unfold uploads_of. apply omap_app. Qed.

Lemma uploads_of_cons e evs :
  uploads_of (e :: evs) = match upload_of e with Some u => u :: uploads_of evs | None => uploads_of evs end.
Proof. reflexivity. Qed.

Lemma uploads_of_quiet evs :
  Forall (λ e, upload_step_event e = false) evs → uploads_of evs = [].
Proof.
  induction 1 as [|e evs He _ IH]; [done|].
  rewrite uploads_of_cons, IH. by destruct e as [[]| | | | | | |].
Qed.

Lemma uploads_of_com cs : uploads_of (map EvCom cs) = [].
Proof. by induction cs. Qed.

Lemma pebble_timeout_is_timeout :
  refresh_error (pebble_timeout_error refresh_timeout)
  = mkExc RuntimeError "refresh_excel_file did not complete within the allowed time."
  ∧ refresh_error_log (pebble_timeout_error refresh_timeout)
    = "refresh_excel_file exceeded the timeout of 30 minutes.".
Proof. split; reflexivity. Qed.

(** C3. The timeout of the refresh subprocess is the constant 60.  In every
    run that starts the subprocess and in which the refresh does not come to
    an end within those 60 seconds, the subprocess is stopped, the run raises
    the error that says the refresh did not complete in time, and no step of
    the upload is made: after the start of the subprocess the events are
    COM calls, the stop of the process and the removal of the scratch file. *)
Theorem refresh_timeout_aborts_run (env : Env) (d : gmap string PyVal) (url : string)
    (parts : PathParts) (s : State) :
  refresh_timeout = 60%nat
  ∧ (let r := process env (Some (mkQueueElement (JsonObject d))) s in
     d !! "FolderPath" = Some (PStr url) →
     split_path url = Some parts →
     EvSpawn refresh_timeout ∈ new_events s r.2 →
     overruns env (download_path_of env parts) refresh_timeout = true →
     r.1 = Raise (mkExc RuntimeError
                    "refresh_excel_file did not complete within the allowed time.")
     ∧ (∃ before n,
          new_events s r.2
          = before ++ EvSpawn 60 :: map EvCom (take n (refresh_steps (download_path_of env parts)))
              ++ [EvTerminate; EvRemove (download_path_of env parts)]
          ∧ Forall (λ e, upload_step_event e = false) before)
     ∧ uploads_of (new_events s r.2) = []
     ∧ (LError, "refresh_excel_file exceeded the timeout of 30 minutes.") ∈ new_log s r.2).
Proof.
  split; [reflexivity|].
  intros r Hfp Hsplit Hspawn Hover. subst r.
  destruct (process env (Some (mkQueueElement (JsonObject d))) s) as [r s'] eqn:Hrun.
  simpl in *. revert Hrun.
  rewrite process_unfold.
  destruct (credential env "Robot365User") as [e|[username password]].
  { intros [= <- <-]. exfalso. unfold new_events, started in Hspawn; simpl in Hspawn.
    rewrite drop_all in Hspawn; by apply elem_of_nil in Hspawn. }
  cbv zeta. set (site := dict_get d "SharePointSite").
  destruct (sp env (SpLoadWeb site username password)) as [e|] eqn:Hauth.
  { intros [= <- <-]. exfalso. unfold started in Hspawn. simpl in Hspawn.
    erewrite new_events_app in Hspawn by reflexivity.
    by apply list_elem_of_singleton in Hspawn. }
  unfold dict_get at 1. rewrite Hfp. simpl default.
  set (cf := dict_get d "CustomFunction").
  set (s0 := authenticated env site username password s).
  assert (trace s0 = trace s ++ [EvSp (SpLoadWeb site username password)]) as Ht0 by done.
  assert (local_file_path s0 = None) as Hv0 by done.
  rewrite process_try_unfold.
  destruct (download_file_from_sharepoint env site (PStr url) s0) as [rd s1] eqn:Hdl.
  pose proof (download_frame env site (PStr url) s0 rd s1 Hdl)
    as (Hv1 & Hr1 & Hrf1 & (evs1 & Ht1 & Hevs1) & Hns & Hlog1 & Hok).
  assert (Forall (λ e, upload_step_event e = false ∧ is_spawn e = false) evs1) as Hevs1'.
  { eapply Forall_impl; [exact Hevs1|]. intros [] He; try done.
    - destruct c; done.
    - simpl in He. revert He. repeat (case_match; try done). }
  destruct rd as [p|e|]; [| |done].
  2:{ rewrite process_handler_unbound by congruence.
      intros [= <- <-]. exfalso.
      erewrite new_events_app in Hspawn by (rewrite Ht1, Ht0, <- app_assoc; reflexivity).
      apply elem_of_app in Hspawn as [H|H]; [by apply list_elem_of_singleton in H|].
      rewrite Forall_forall in Hevs1'. by destruct (Hevs1' _ H). }
  destruct (Hok p eq_refl) as (url' & parts' & c & [= <-] & Hsplit' & -> & Hc & Hp & Hnd & Hd1 & _ & Hl1).
  assert (parts' = parts) as -> by congruence.
  set (p := download_path_of env parts) in *.
  rewrite process_rest_unfold.
  set (s1' := set_local_file_path (Some p) s1).
  destruct Hp as [c1 Hc1].
  assert (files s1' !! p = Some c1) as Hc1' by done.
  destruct (refresh_with_timeout_trace env p s1') as (n & killed & Ht2 & Hk1 & Hk2).
  assert (killed = true) as ->.
  { apply Hk2. rewrite refresh_excel_file_unfold.
    apply (com_seq_overrun env _ _ _ refresh_timeout); try done.
    - simpl. lia.
    - intros p' Hp'. apply refresh_steps_calls in Hp' as [Hp' _].
      rewrite (Hp' p' eq_refl). simpl. by eexists.
    - unfold overruns in Hover. simpl elapsed.
      destruct (time_to_finish env (refresh_steps p)) as [t|]; [|done].
      apply Nat.ltb_lt in Hover. lia. }
  specialize (Hk1 eq_refl).
  destruct (refresh_excel_file_with_timeout env p s1') as [rf s2] eqn:Hrf.
  simpl in Hk1, Ht2. subst rf.
  pose proof (refresh_with_timeout_frame env p c1 s1' _ s2 Hc1' Hrf)
    as (fut & [= <-] & Hf2 & [c2 Hc2] & Hd2 & Hr2 & Hrf2 & Hv2 & _ & _ & _ & Hl2).
  destruct pebble_timeout_is_timeout as [-> ->].
  erewrite process_handler_cleans; [|simpl; by rewrite Hv2|simpl; exact Hc2].
  intros [= <- <-].
  assert (trace s2 = trace s ++ (EvSp (SpLoadWeb site username password) :: evs1)
            ++ EvSpawn 60 :: map EvCom (take n (refresh_steps p)) ++ [EvTerminate]) as Ht.
  { rewrite Ht2. simpl trace. rewrite Ht1, Ht0, <- !app_assoc. done. }
  assert (new_events s (cleaned_up p (mkExc RuntimeError
            "refresh_excel_file did not complete within the allowed time.")
            (add_log (LError, "refresh_excel_file exceeded the timeout of 30 minutes.") s2))
          = (EvSp (SpLoadWeb site username password) :: evs1)
            ++ EvSpawn 60 :: map EvCom (take n (refresh_steps p))
            ++ [EvTerminate; EvRemove p]) as Hev.
  { apply new_events_app. simpl. rewrite Ht, <- !app_assoc. simpl.
    rewrite <- !app_assoc. done. }
  split_and!.
  - done.
  - exists (EvSp (SpLoadWeb site username password) :: evs1), n. split; [done|].
    constructor; [done|]. eapply Forall_impl; [exact Hevs1'|]. by intros ? [? _].
  - rewrite Hev, uploads_of_app.
    rewrite (uploads_of_quiet (_ :: evs1)).
    2:{ constructor; [done|]. eapply Forall_impl; [exact Hevs1'|]. by intros ? [? _]. }
    rewrite (uploads_of_cons (EvSpawn 60)). simpl.
    by rewrite uploads_of_app, uploads_of_com.
  - erewrite new_log_app.
    2:{ simpl. rewrite (Hl2 _ eq_refl). simpl. rewrite Hl1. simpl.
        rewrite <- !app_assoc. reflexivity. }
    simpl. do 3 apply list_elem_of_further. apply list_elem_of_here.
Qed.

Section Rejoin.

Import PathSpec.

Variable sep : ascii.

Lemma first_rest s :
  has_sep sep s = true → s = before_first sep s +:+ String sep (after_first sep s).
Proof.
  induction s as [|c s IH]; simpl; [done|].
  destruct (decide (c = sep)) as [->|Hne]; [done|].
  rewrite bool_decide_eq_false_2 by done. simpl. intros H.
  change (String c (before_first sep s) +:+ String sep (after_first sep s))
    with (String c (before_first sep s +:+ String sep (after_first sep s))).
  by rewrite <- IH.
Qed.

Lemma front_last s :
  has_sep sep s = true → s = before_last sep s +:+ String sep (after_last sep s).
Proof.
  induction s as [|c s IH]; simpl; [done|].
  destruct (has_sep sep s) eqn:Hs.
  - intros _.
    change (String c (before_last sep s) +:+ String sep (after_last sep s))
      with (String c (before_last sep s +:+ String sep (after_last sep s))).
    by rewrite <- IH.
  - rewrite orb_false_r. intros Hc. apply bool_decide_eq_true in Hc as ->.
    by rewrite decide_True.
Qed.

End Rejoin.

Lemma append_assoc (a b c : string) : (a +:+ b) +:+ c = a +:+ (b +:+ c).
Proof.
  induction a as [|x a IH]; [done|].
  change (String x ((a +:+ b) +:+ c) = String x (a +:+ b +:+ c)). by rewrite IH.
Qed.

(** A path of two segments, or of more with a subfolder chain that is not
    empty, is the upload folder, a slash and the file name. *)
Lemma upload_target_is_path url parts :
  split_path url = Some parts →
  (2 ≤ PathSpec.segments slash url)%nat →
  (PathSpec.segments slash url = 2%nat ∨ FOLDER_PATH parts ≠ "") →
  upload_folder_of parts +:+ "/" +:+ file_name parts = url.
Proof.
  intros Hsplit Hseg Hmid.
  destruct (split_path_parts url) as (parts' & Hs & Hlib & Hname & Hfolder).
  assert (parts' = parts) as -> by congruence.
  destruct (PathSpec.has_sep slash url) eqn:Hsep.
  2:{ rewrite (segments_no_sep _ _ Hsep) in Hseg. lia. }
  rewrite (segments_after_first _ _ Hsep) in *.
  rewrite (after_last_after_first _ _ Hsep) in Hname.
  unfold PathSpec.middle in Hfolder.
  set (t := PathSpec.after_first slash url) in *.
  unfold upload_folder_of.
  destruct (PathSpec.has_sep slash t) eqn:Ht.
  - pose proof (segments_has_sep _ _ Ht) as Hn.
    destruct (PathSpec.segments slash t) as [|[|n]] eqn:En; [lia..|].
    simpl in Hfolder. destruct Hmid as [?|Hmid]; [lia|].
    destruct (FOLDER_PATH parts) as [|x f] eqn:Ef; [done|]. simpl PyStr.truthy. cbv iota.
    rewrite Hlib, Hfolder, Hname, !append_assoc.
    change ("/" +:+ PathSpec.before_last slash t +:+ "/" +:+ PathSpec.after_last slash t)
      with (String slash (PathSpec.before_last slash t
                            +:+ String slash (PathSpec.after_last slash t))).
    rewrite <- (front_last _ _ Ht). unfold t. by rewrite <- (first_rest _ _ Hsep).
  - rewrite (segments_no_sep _ _ Ht) in Hfolder. simpl in Hfolder.
    rewrite Hfolder. simpl PyStr.truthy. cbv iota.
    rewrite Hlib, Hname, (after_last_no_sep _ _ Ht).
    change ("/" +:+ t) with (String slash t). unfold t.
    by rewrite <- (first_rest _ _ Hsep).
Qed.

Section UploadEvents.

Context (env : Env).

Lemma process_handler_raises e s : (process_handler e s).1 ≠ Ok tt.
Proof.
  unfold process_handler, bind, load_local_file_path, os_remove, log_error, modify, raise.
  destruct (local_file_path s) as [p|]; [|done].
  destruct (files s !! p); [done|]. by destruct (bool_decide _).
Qed.

(** The events of an upload that returns. *)
Lemma upload_ok_events client url parts path custom_function v s s' :
  split_path url = Some parts →
  files s !! path = Some v →
  upload_file_to_sharepoint env client (PStr url) path custom_function s = (Ok tt, s') →
  trace s' = trace s
    ++ [ EvSp (SpGetFolder (upload_folder_of parts)); EvOpen path "rb";
         EvSp (SpUploadFile (upload_folder_of parts) (file_name parts) v) ]
    ++ (if bool_decide (custom_function = PStr "MonthlyFolder")
        then archive_events env path v else [])
    ++ [EvRemove path].
Proof.
  intros Hsplit Hv.
  unfold upload_file_to_sharepoint, as_str. unfold bind at 1. unfold ret at 1.
  rewrite Hsplit. unfold bind at 1. unfold of_option, ret at 1.
  unfold bind at 1. unfold execute_query at 1.
  destruct (sp env (SpGetFolder (upload_folder_of parts))) as [e|] eqn:E1; [done|].
  unfold bind at 1. unfold open_rb at 1. simpl files. rewrite Hv.
  unfold bind at 1. unfold upload_file at 1. unfold bind at 1. unfold execute_query at 1.
  destruct (sp env (SpUploadFile (upload_folder_of parts) (file_name parts) v))
    as [e|] eqn:E2; [done|].
  unfold bind, modify, ret, log_info, modify. simpl.
  destruct (bool_decide (custom_function = PStr "MonthlyFolder")) eqn:Hcf.
  - unfold monthly_folder, bind, log_info, modify, execute_query, locale_setlocale,
      folders_add, upload_file, open_rb, bind, execute_query, modify, ret, raise, os_remove.
    simpl.
    destruct (sp env (SpGetList "Dokumenter")) as [e|] eqn:E3; [done|].
    destruct (sp env (SpGetSubfolder (list_root env "Dokumenter") "Historik"))
      as [e|] eqn:E4; [done|].
    destruct (setlocale env "da_DK") as [e|] eqn:E5; [done|].
    destruct (sp env (SpAddFolder _ _)) as [e|] eqn:E6; [done|].
    destruct (sp env (SpAddFolder _ (PyStr.capitalize _))) as [e|] eqn:E7; [done|].
    simpl. rewrite Hv.
    destruct (sp env (SpUploadFile
                        (((list_root env "Dokumenter" +:+ "/" +:+ "Historik") +:+ "/"
                           +:+ pretty (now_year env)) +:+ "/"
                           +:+ PyStr.capitalize (da_DK_month (now_month env)))
                        ("DKPlan_" +:+ PyStr.capitalize (da_DK_month (now_month env))
                           +:+ "_" +:+ pretty (now_year env) +:+ ".xlsx") v))
      as [e|] eqn:E8; [done|].
    simpl. rewrite Hv.
    intros [= <-]. simpl. unfold archive_events, archive_folder, archive_name.
    rewrite <- !capitalize_month, <- !app_assoc, !append_assoc. done.
  - unfold ret, os_remove. simpl. rewrite Hv. intros [= <-]. simpl.
    by rewrite <- !app_assoc.
Qed.

End UploadEvents.


(** C2, as the code has it. A failure of the authentication is raised to the
    runtime as it is, nothing having been logged as an error or removed.  A
    failure raised once the download has returned its path (by the refresh,
    which the inner handler has replaced by its RuntimeError, or by the
    upload) is caught by the handler of [process]: the local file is removed,
    the failure is logged as an error and it is raised again. *)
Theorem failure_handling (env : Env) (queue_element : option QueueElement) (s : State) :
  (∀ d username password e,
     queue_element = Some (mkQueueElement (JsonObject d)) →
     credential env "Robot365User" = inr (username, password) →
     sp env (SpLoadWeb (dict_get d "SharePointSite") username password) = Some e →
     (process env queue_element s).1 = Raise e
     ∧ new_log s (process env queue_element s).2 = [(LTrace, "Running process.")]
     ∧ new_events s (process env queue_element s).2
       = [EvSp (SpLoadWeb (dict_get d "SharePointSite") username password)])
  ∧ (∀ e s' path,
       process env queue_element s = (Raise e, s') →
       local_file_path s' = Some path →
       files s' !! path = None
       ∧ (∃ l, log s' = l ++ [(LError, exc_str e)])
       ∧ (∃ evs, trace s' = evs ++ [EvRemove path])).
Proof.
  split.
  - intros d username password e -> Hcred Hauth.
    rewrite process_unfold, Hcred. cbv zeta. rewrite Hauth. simpl.
    split; [done|]. split.
    + by apply new_log_app.
    + by apply new_events_app.
  - intros e s' path. rewrite process_unfold.
    destruct queue_element as [[[| |d]]|]; try (by intros [= <- <-]).
    destruct (credential env "Robot365User") as [e1|[username password]];
      [by intros [= <- <-]|].
    cbv zeta. set (site := dict_get d "SharePointSite").
    destruct (sp env (SpLoadWeb site username password)) as [e1|] eqn:Hauth;
      [by intros [= <- <-]|].
    set (cf := dict_get d "CustomFunction").
    set (s0 := authenticated env site username password s).
    rewrite process_try_unfold.
    destruct (download_file_from_sharepoint env site (dict_get d "FolderPath") s0)
      as [rd s1] eqn:Hdl.
    pose proof (download_frame env site _ s0 rd s1 Hdl)
      as (Hv1 & Hr1 & Hrf1 & _ & Hns & Hlog1 & Hok).
    destruct rd as [p|e1|]; [| |done].
    2:{ rewrite process_handler_unbound by (by rewrite Hv1).
        intros [= <- <-] Hv. by rewrite Hv1 in Hv. }
    destruct (Hok p eq_refl)
      as (url & parts & c & Hfp & Hsplit & -> & Hc & Hp & Hnd & Hd1 & _ & Hl1).
    set (p := download_path_of env parts) in *.
    rewrite Hfp, process_rest_unfold.
    set (s1' := set_local_file_path (Some p) s1).
    destruct Hp as [c1 Hc1].
    assert (files s1' !! p = Some c1) as Hc1' by done.
    destruct (refresh_excel_file_with_timeout env p s1') as [rf s2] eqn:Hrf.
    pose proof (refresh_with_timeout_frame env p c1 s1' _ s2 Hc1' Hrf)
      as (fut & -> & Hf2 & [c2 Hc2] & Hd2 & Hr2 & Hrf2 & Hv2 & _ & _ & Hdone & Hl2).
    assert (∀ e0 s3 c3, local_file_path s3 = Some p → files s3 !! p = Some c3 →
              process_handler e0 s3 = (Raise e, s') → local_file_path s' = Some path →
              files s' !! path = None
              ∧ (∃ l, log s' = l ++ [(LError, exc_str e)])
              ∧ (∃ evs, trace s' = evs ++ [EvRemove path])) as Hhandler.
    { intros e0 s3 c3 Hv3 Hc3. rewrite (process_handler_cleans p c3) by done.
      intros [= <- <-]. simpl. rewrite Hv3. intros [= <-].
      rewrite lookup_delete_eq. split_and!; [done|by eexists..]. }
    destruct fut as [|e0].
    + pose proof (upload_summary env site url parts p cf c2 Hsplit)
        as (ru & lg & keys & Hru & Hup).
      destruct (Hup s2 Hc2) as (s3 & -> & Hl3 & Hr3 & Hd3 & Hv3 & Hf3).
      destruct ru as [[]|e1|]; [by intros [= <- <-]| |done].
      apply (Hhandler e1 s3 c2); [by rewrite Hv3, Hv2|by rewrite Hf3].
    + apply (Hhandler _ _ c2); simpl; [by rewrite Hv2|done].
Qed.

(** ** Two runs in a row *)

Section Again.

Context (env : Env).
Hypothesis Hquiet : undisturbed env.

(** The download when nothing else touches the disk. *)
Lemma download_undisturbed client url parts s :
  split_path url = Some parts →
  let path := download_path_of env parts in
  let s1 := after_makedirs env parts s in
  ∃ r s',
    download_file_from_sharepoint env client (PStr url) s = (r, s')
    ∧ dirs s' = dirs s1 ∧ remote_files s' = remote_files s
    ∧ local_file_path s' = local_file_path s
    ∧ ((∃ e, makedirs_raises env parts s = Some e ∧ r = Raise e
             ∧ files s' = files s ∧ log s' = log s)
       ∨ (makedirs_raises env parts s = None
          ∧ ((path ∈ dirs s1 ∧ (∃ e, r = Raise e) ∧ files s' = files s ∧ log s' = log s)
             ∨ ((path ∉ dirs s1)
                ∧ (sp env (SpDownload url) ≠ None ∨ remote_files s !! url = None)
                ∧ (∃ e, r = Raise e) ∧ files s' = <[path := ""]> (files s)
                ∧ log s' = log s)
             ∨ ((path ∉ dirs s1) ∧ sp env (SpDownload url) = None
                ∧ (∃ c, remote_files s !! url = Some c
                        ∧ files s' = <[path := c]> (files s))
                ∧ r = Ok path
                ∧ log s' = log s
                    ++ [(LInfo, "[Ok] file has been downloaded into: " +:+ path)])))).
Proof.
  intros Hsplit path s1.
  destruct (after_makedirs_frame env parts s) as (Hf1 & Hr1 & Hl1 & Hv1 & _).
  destruct (download_statement env url path s1) as [rs s2] eqn:Hst.
  destruct (download_cases env client url parts s Hsplit)
    as [(e0 & Hmk & Hr) | (Hmk & [[Hin Hr] | [[Hout [e Hr]] | [s2' Hst']]])].
  - eexists _, _. split; [exact Hr|]. simpl. split_and!; try done.
    left. exists e0. by split_and!.
  - eexists _, _. split; [exact Hr|]. simpl. split_and!; try done.
    right. split; [done|]. left. split_and!; try done. by eexists.
  - eexists _, _. split; [exact Hr|]. simpl. split_and!; try done.
    right. split; [done|]. right. left. split_and!; try done.
    + destruct (sp env (SpDownload url)) eqn:Hsp; [by left|].
      destruct (remote_files s !! url) as [c|] eqn:Hc; [|by right].
      exfalso.
      assert (∃ s3, download_statement env url path s1 = (Ok tt, s3)) as [s3 Hok].
      { eexists. apply download_statement_ok. split_and!; try done.
        exists c. unfold s1. rewrite Hr1. done. }
      pose proof Hok as Hok'.
      apply (statement_left env url parts s s3) in Hok' as (_ & _ & _ & (c' & _ & _ & Hf3) & _).
      rewrite (download_after_statement env client url parts s s3 Hsplit Hmk Hok) in Hr.
      assert (exists_in s3 (download_path_of env parts) = true) as Hex.
      { unfold exists_in. rewrite Hf3, Hquiet, lookup_insert_eq.
        apply orb_true_iff. left. apply bool_decide_eq_true. by eexists. }
      by rewrite poll_found, Hex in Hr.
    + by eexists.
    + by rewrite Hquiet, Hf1.
  - clear Hst. rename Hst' into Hst. clear s2. rename s2' into s2.
    pose proof (download_after_statement env client url parts s s2 Hsplit Hmk Hst) as Hdl.
    pose proof (statement_left env url parts s s2 Hst)
      as (Hd2 & Hl2 & Hv2 & (c & Hc & Hr2 & Hf2) & _).
    pose proof Hst as Hst'.
    apply download_statement_ok in Hst' as (Hnd & Hsp & c' & _ & Hs2).
    assert (dirs s2 = dirs (after_makedirs env parts s)) as Hds2 by (by rewrite Hs2).
    assert (exists_in s2 (download_path_of env parts) = true) as Hex.
    { unfold exists_in. rewrite Hf2, Hquiet, lookup_insert_eq.
      apply orb_true_iff. left. apply bool_decide_eq_true. by eexists. }
    rewrite poll_found, Hex in Hdl by done.
    eexists _, _. split; [exact Hdl|]. simpl. split_and!; try done.
    right. split; [done|]. right. right. split_and!; try done.
    + exists c. by rewrite Hf2, Hquiet.
    + by rewrite Hl2.
Qed.

Lemma delete_after_refresh path (m m2 : gmap string string) :
  (∀ p, p ≠ path → m2 !! p = m !! p) → delete path m2 = delete path m.
Proof.
  intros H. apply map_eq. intros k. destruct (decide (k = path)) as [->|Hne].
  - by rewrite !lookup_delete_eq.
  - by rewrite !lookup_delete_ne, H.
Qed.

(** What follows a download that returned is the same in every state that
    holds the file with contents that refresh to [v]. *)
Lemma rest_summary client url parts custom_function v :
  split_path url = Some parts →
  let path := download_path_of env parts in
  ∃ (r : Res unit) lg keys,
    r ≠ Stuck ∧
    ∀ s c, files s !! path = Some c → engine env c = v →
      ∃ s', try_except (process_rest env client (PStr url) custom_function path)
              process_handler s = (r, s')
        ∧ log s' = log s ++ lg
        ∧ remote_files s' = insert_all keys v (remote_files s)
        ∧ dirs s' = dirs s
        ∧ files s' = delete path (files s).
Proof.
  intros Hsplit path.
  assert (files (holding path) !! path = Some "") as Hh.
  { unfold holding. simpl. by rewrite lookup_singleton_eq. }
  destruct (refresh_excel_file_with_timeout env path (holding path)) as [r0 sh] eqn:Hr0.
  pose proof (refresh_with_timeout_frame env path "" (holding path) r0 sh Hh Hr0)
    as (fut & -> & _).
  assert (∀ s c, files s !! path = Some c →
            ∃ s2, refresh_excel_file_with_timeout env path
                    (set_local_file_path (Some path) s) = (Ok fut, s2)
              ∧ (∀ p, p ≠ path → files s2 !! p = files s !! p)
              ∧ is_Some (files s2 !! path)
              ∧ dirs s2 = dirs s ∧ remote_files s2 = remote_files s
              ∧ local_file_path s2 = Some path
              ∧ (fut = FutureDone →
                   log s2 = log s ++
                     [(LInfo, "[Ok] Excel file at " +:+ path
                                +:+ " has been refreshed and saved.")]
                   ∧ files s2 !! path = Some (engine env c))
              ∧ (∀ e, fut = FutureFailed e → log s2 = log s)) as Hrefresh.
  { intros s c Hc.
    set (s1 := set_local_file_path (Some path) s).
    assert (files s1 !! path = Some c) as Hc1 by done.
    pose proof (refresh_with_timeout_uniform env path s1 (holding path)) as Hu.
    rewrite Hr0 in Hu. simpl in Hu.
    destruct (refresh_excel_file_with_timeout env path s1) as [r1 s2] eqn:Hr1.
    simpl in Hu. rewrite Hu; [|by eexists|by eexists].
    pose proof (refresh_with_timeout_frame env path c s1 r1 s2 Hc1 Hr1)
      as (fut' & Hfut & Hf & Hp & Hd & Hr & _ & Hv & _ & _ & Hdone & Hfail).
    exists s2. split; [done|].
    rewrite Hu in Hfut by (by eexists). injection Hfut as <-.
    split_and!; done. }
  destruct fut as [|e0].
  - pose proof (upload_summary env client url parts path custom_function v Hsplit)
      as (ru & lgu & keys & Hru & Hup).
    destruct ru as [[]|e|]; [| |done].
    + exists (Ok tt), ((LInfo, "[Ok] Excel file at " +:+ path
                          +:+ " has been refreshed and saved.") :: lgu), keys.
      split; [done|]. intros s c Hc Hv.
      destruct (Hrefresh s c Hc) as (s2 & Hr2 & Hf2 & Hp2 & Hd2 & Hrm2 & Hv2 & Hdone & _).
      destruct (Hdone eq_refl) as [Hl2 Hc2]. rewrite Hv in Hc2.
      destruct (Hup s2 Hc2) as (s3 & Hr3 & Hl3 & Hrm3 & Hd3 & Hv3 & Hf3).
      rewrite process_rest_unfold, Hr2, Hr3. exists s3. split; [done|].
      rewrite Hl3, Hl2, Hrm3, Hrm2, Hd3, Hd2, Hf3, <- app_assoc.
      split_and!; try done. by apply delete_after_refresh.
    + exists (Raise e), ((LInfo, "[Ok] Excel file at " +:+ path
                           +:+ " has been refreshed and saved.") :: lgu
                           ++ [(LError, exc_str e)]), keys.
      split; [done|]. intros s c Hc Hv.
      destruct (Hrefresh s c Hc) as (s2 & Hr2 & Hf2 & Hp2 & Hd2 & Hrm2 & Hv2 & Hdone & _).
      destruct (Hdone eq_refl) as [Hl2 Hc2]. rewrite Hv in Hc2.
      destruct (Hup s2 Hc2) as (s3 & Hr3 & Hl3 & Hrm3 & Hd3 & Hv3 & Hf3).
      rewrite process_rest_unfold, Hr2, Hr3.
      rewrite (process_handler_cleans path v) by (by rewrite ?Hv3, ?Hf3).
      eexists. split; [done|]. simpl.
      rewrite Hl3, Hl2, Hrm3, Hrm2, Hd3, Hd2, Hf3, <- !app_assoc.
      split_and!; try done. by apply delete_after_refresh.
  - exists (Raise (refresh_error e0)),
      [(LError, refresh_error_log e0); (LError, exc_str (refresh_error e0))], [].
    split; [done|]. intros s c Hc Hv.
    destruct (Hrefresh s c Hc) as (s2 & Hr2 & Hf2 & [c2 Hc2] & Hd2 & Hrm2 & Hv2 & _ & Hfail).
    rewrite process_rest_unfold, Hr2.
    rewrite (process_handler_cleans path c2) by done.
    eexists. split; [done|]. simpl.
    rewrite (Hfail e0 eq_refl), Hrm2, Hd2, <- !app_assoc.
    split_and!; try done. by apply delete_after_refresh.
Qed.

Lemma after_makedirs_again parts sA sB :
  makedirs_raises env parts sA = None →
  dirs sB = dirs (after_makedirs env parts sA) →
  (∀ p, p ≠ download_path_of env parts → is_Some (files sA !! p) → is_Some (files sB !! p)) →
  download_path_of env parts ≠ documents_folder_of env parts →
  after_makedirs env parts sB = sB ∧ makedirs_raises env parts sB = None.
Proof.
  intros Hmk Hd Hf Hne.
  assert (exists_in sB (documents_folder_of env parts) = true) as HB.
  { destruct (exists_in sA (documents_folder_of env parts)) eqn:EA.
    - unfold exists_in in *. apply orb_true_iff in EA as [EA|EA]; apply orb_true_iff.
      + left. apply bool_decide_eq_true in EA. apply bool_decide_eq_true. by apply Hf.
      + right. apply bool_decide_eq_true in EA. apply bool_decide_eq_true.
        rewrite Hd. by apply dirs_after_makedirs.
    - pose proof (makedirs_made env parts sA Hmk) as Hm.
      destruct (after_makedirs_frame env parts sA) as (HfA & _).
      unfold exists_in in *. rewrite HfA in Hm.
      apply orb_false_iff in EA as [EA _]. rewrite EA in Hm. simpl in Hm.
      apply orb_true_iff. right. by rewrite Hd. }
  unfold after_makedirs, makedirs_raises. by rewrite HB.
Qed.

Hypothesis Hidem : ∀ c, engine env (engine env c) = engine env c.

(** The [try] statement run again on what it left behaves as before and
    leaves the same files, here and on the server. *)
Lemma process_try_twice client url parts custom_function sA sB :
  split_path url = Some parts →
  download_path_of env parts ≠ documents_folder_of env parts →
  local_file_path sA = None → local_file_path sB = None →
  let rA := process_try env client (PStr url) custom_function sA in
  files sB = files rA.2 → dirs sB = dirs rA.2 → remote_files sB = remote_files rA.2 →
  let rB := process_try env client (PStr url) custom_function sB in
  rB.1 = rA.1
  ∧ (∃ lg, log rA.2 = log sA ++ lg ∧ log rB.2 = log sB ++ lg)
  ∧ remote_files rB.2 = remote_files rA.2 ∧ files rB.2 = files rA.2.
Proof.
  intros Hsplit Hne HvA HvB. cbv zeta. rewrite !process_try_unfold.
  set (path := download_path_of env parts) in *.
  destruct (download_undisturbed client url parts sA Hsplit)
    as (rdA & sA1 & HdlA & HdA & HrA & HvA1 & HcaseA).
  destruct (download_undisturbed client url parts sB Hsplit)
    as (rdB & sB1 & HdlB & HdB & HrB & HvB1 & HcaseB).
  fold path in HcaseA, HcaseB. rewrite HdlA, HdlB.
  destruct HcaseA as [(eA & HmkA & -> & HfA & HlA)
                     | (HmkA & [(HinA & [eA ->] & HfA & HlA)
                               | [(HoutA & HwhyA & [eA ->] & HfA & HlA)
                                 | (HoutA & HspA & (cA & HcA & HfA) & -> & HlA)]])].
  - (* the documents folder cannot be made *)
    rewrite (process_handler_unbound eA sA1) by congruence. simpl.
    intros HfB HdB' HrB'.
    destruct (makedirs_failed env parts sA eA HmkA) as (_ & HdfA & _).
    destruct (after_makedirs_uniform env parts sB sA) as [HmkB _];
      [by rewrite HfB, HfA|by rewrite HdB', HdA, HdfA|].
    rewrite HmkA in HmkB.
    destruct HcaseB as [(eB & _ & -> & HfB1 & HlB) | (HmkB' & _)]; [|congruence].
    rewrite (process_handler_unbound eB sB1) by congruence. simpl.
    split_and!; try congruence.
    exists []. by rewrite !app_nil_r.
  - (* the open fails *)
    rewrite (process_handler_unbound eA sA1) by congruence. simpl.
    intros HfB HdB' HrB'.
    assert (after_makedirs env parts sB = sB ∧ makedirs_raises env parts sB = None)
      as [Ham HmkB].
    { apply (after_makedirs_again parts sA sB); [done|by rewrite HdB', HdA| |done].
      intros p _. by rewrite HfB, HfA. }
    rewrite Ham in HdB, HcaseB.
    destruct HcaseB as [(eB & HmkB' & _) | (_ & HcaseB)]; [congruence|].
    destruct HcaseB as [(HinB & [eB ->] & HfB1 & HlB)
                       | [(HoutB & _) | (HoutB & _)]];
      [|by rewrite HdB', HdA in HoutB..].
    rewrite (process_handler_unbound eB sB1) by congruence. simpl.
    split_and!; try congruence.
    exists []. by rewrite !app_nil_r.
  - (* the request fails *)
    rewrite (process_handler_unbound eA sA1) by congruence. simpl.
    intros HfB HdB' HrB'.
    assert (after_makedirs env parts sB = sB ∧ makedirs_raises env parts sB = None)
      as [Ham HmkB].
    { apply (after_makedirs_again parts sA sB); [done|by rewrite HdB', HdA| |done].
      intros p Hp. by rewrite HfB, HfA, lookup_insert_ne. }
    rewrite Ham in HdB, HcaseB.
    destruct HcaseB as [(eB & HmkB' & _) | (_ & HcaseB)]; [congruence|].
    destruct HcaseB as [(HinB & _)
                       | [(HoutB & HwhyB & [eB ->] & HfB1 & HlB)
                         | (HoutB & HspB & (cB & HcB & _) & _)]].
    + by rewrite HdB', HdA in HinB.
    + rewrite (process_handler_unbound eB sB1) by congruence. simpl.
      split_and!; try congruence.
      * exists []. by rewrite !app_nil_r.
      * by rewrite HfB1, HfB, HfA, insert_insert_eq.
    + exfalso. rewrite HrB', HrA in HcB. destruct HwhyA; congruence.
  - (* the download returns *)
    destruct (rest_summary client url parts custom_function (engine env cA) Hsplit)
      as (r & lg & keys & Hr & Hrest).
    fold path in Hrest.
    destruct (Hrest sA1 cA) as (sA2 & -> & HlA2 & HrA2 & HdA2 & HfA2);
      [by rewrite HfA, lookup_insert_eq|done|].
    simpl. intros HfB HdB' HrB'.
    assert (after_makedirs env parts sB = sB ∧ makedirs_raises env parts sB = None)
      as [Ham HmkB].
    { apply (after_makedirs_again parts sA sB); [done|by rewrite HdB', HdA2, HdA| |done].
      intros p Hp. by rewrite HfB, HfA2, HfA, lookup_delete_ne, lookup_insert_ne. }
    rewrite Ham in HdB, HcaseB.
    destruct HcaseB as [(eB & HmkB' & _) | (_ & HcaseB)]; [congruence|].
    assert (∃ cB, remote_files sB !! url = Some cB ∧ engine env cB = engine env cA)
      as (cB & HcB & HeB).
    { rewrite HrB', HrA2, HrA, lookup_insert_all.
      destruct (decide (url ∈ keys)); [by exists (engine env cA)|by exists cA]. }
    destruct HcaseB as [(HinB & _)
                       | [(HoutB & HwhyB & _)
                         | (HoutB & HspB & (cB' & HcB' & HfB1) & -> & HlB)]].
    + by rewrite HdB', HdA2, HdA in HinB.
    + exfalso. destruct HwhyB; congruence.
    + assert (cB' = cB) as -> by congruence.
      destruct (Hrest sB1 cB) as (sB2 & -> & HlB2 & HrB2 & HdB2 & HfB2);
        [by rewrite HfB1, lookup_insert_eq|done|].
      simpl. split_and!; try done.
      * exists ((LInfo, "[Ok] file has been downloaded into: " +:+ path) :: lg).
        by rewrite HlA2, HlA, HlB2, HlB, <- !app_assoc.
      * by rewrite HrB2, HrB, HrB', HrA2, insert_all_twice.
      * rewrite HfB2, HfB1, HfB, HfA2. apply map_eq. intros k.
        destruct (decide (k = path)) as [->|Hk].
        -- by rewrite !lookup_delete_eq.
        -- by rewrite !lookup_delete_ne, lookup_insert_ne, lookup_delete_ne.
Qed.

Lemma process_try_not_a_path client folder_path custom_function s :
  (∀ url, folder_path ≠ PStr url) → local_file_path s = None →
  process_try env client folder_path custom_function s = (Raise exc_unbound, s).
Proof.
  intros Hfp Hv. rewrite process_try_unfold.
  destruct folder_path as [|url|n]; [|by destruct (Hfp url)|];
    unfold download_file_from_sharepoint, as_str, bind, raise;
    by rewrite process_handler_unbound.
Qed.

End Again.

(** C10, as the code has it. With nothing outside touching the local files, a
    refresh engine that leaves a refreshed workbook unchanged, and a write
    path that is not the documents folder, a second run of [process] on the
    same work item ends as the first did, logs the same lines, and leaves the
    remote files and the local files as the first run left them. *)
Theorem process_twice (env : Env) (queue_element : option QueueElement) (s : State) :
  undisturbed env →
  (∀ c, engine env (engine env c) = engine env c) →
  (∀ d url parts,
     queue_element = Some (mkQueueElement (JsonObject d)) →
     d !! "FolderPath" = Some (PStr url) → split_path url = Some parts →
     download_path_of env parts ≠ documents_folder_of env parts) →
  let first := process env queue_element s in
  let second := process env queue_element first.2 in
  second.1 = first.1
  ∧ new_log first.2 second.2 = new_log s first.2
  ∧ remote_files second.2 = remote_files first.2
  ∧ files second.2 = files first.2.
Proof.
  intros Hquiet Hidem Hne. cbv zeta. rewrite !process_unfold.
  destruct queue_element as [[[| |d]]|];
    try (simpl; split_and!; try done; by rewrite !(new_log_app _ _ [(LTrace, "Running process.")])).
  destruct (credential env "Robot365User") as [e|[username password]];
    [simpl; split_and!; try done; by rewrite !(new_log_app _ _ [(LTrace, "Running process.")])|].
  cbv zeta. set (site := dict_get d "SharePointSite").
  destruct (sp env (SpLoadWeb site username password)) as [e|] eqn:Hauth;
    [simpl; split_and!; try done; by rewrite !(new_log_app _ _ [(LTrace, "Running process.")])|].
  set (cf := dict_get d "CustomFunction").
  set (sA := authenticated env site username password s).
  set (rA := process_try env site (dict_get d "FolderPath") cf sA).
  set (sB := authenticated env site username password rA.2).
  assert (rA = process_try env site (dict_get d "FolderPath") cf sA) as HrA by done.
  assert (∃ lg, (process_try env site (dict_get d "FolderPath") cf sB).1 = rA.1
                ∧ log rA.2 = log sA ++ lg
                ∧ log (process_try env site (dict_get d "FolderPath") cf sB).2 = log sB ++ lg
                ∧ remote_files (process_try env site (dict_get d "FolderPath") cf sB).2
                  = remote_files rA.2
                ∧ files (process_try env site (dict_get d "FolderPath") cf sB).2 = files rA.2)
    as (lg & H1 & H2 & H3 & H4 & H5).
  { destruct (d !! "FolderPath") as [[|url|n]|] eqn:Hfp.
    2:{ destruct (split_path_parts url) as (parts & Hsplit & _).
        assert (dict_get d "FolderPath" = PStr url) as Hg by (unfold dict_get; by rewrite Hfp).
        clearbody rA. rewrite Hg in *. subst rA.
        destruct (process_try_twice env Hquiet Hidem site url parts cf sA sB Hsplit)
          as (Hr & (lg & HlA & HlB) & Hrm & Hf); try done.
        { by eapply Hne. }
        exists lg. by split_and!. }
    all: assert (∀ url, dict_get d "FolderPath" ≠ PStr url) as Hg
           by (unfold dict_get; by rewrite Hfp).
    all: clearbody rA; rewrite (process_try_not_a_path env _ _ _ sA Hg eq_refl) in HrA;
      subst rA; rewrite (process_try_not_a_path env _ _ _ sB Hg eq_refl);
      exists []; by rewrite !app_nil_r. }
  split_and!; try done.
  rewrite (new_log_app rA.2 _ ([(LTrace, "Running process.");
             (LInfo, "Authenticated successfully. Site Title: " +:+ web_title env)] ++ lg)).
  2:{ rewrite H3. unfold sB, authenticated, started. simpl. by rewrite <- !app_assoc. }
  rewrite (new_log_app s rA.2 ([(LTrace, "Running process.");
             (LInfo, "Authenticated successfully. Site Title: " +:+ web_title env)] ++ lg));
    [done|].
  rewrite H2. unfold sA, authenticated, started. simpl. by rewrite <- !app_assoc.
Qed.

(** ** The theorems at a concrete installation *)

Section Witnesses.

Import Scenario.

(** A refresh that goes through makes the eight calls. *)
Lemma refresh_excel_file_sequence_witness :
  (refresh_excel_file calm "/work/plan.xlsx" downloaded).1 = Ok tt
  ∧ trace (refresh_excel_file calm "/work/plan.xlsx" downloaded).2
    = map EvCom (refresh_steps "/work/plan.xlsx").
Proof.
  split; [reflexivity|].
  destruct (refresh_excel_file_sequence calm "/work/plan.xlsx" downloaded)
    as (n & _ & Ht & Hok & _).
  destruct (Hok eq_refl) as [-> _]. exact Ht.
Defined.

(** Excel takes a hundred seconds over the connections: the run is aborted. *)
Lemma refresh_timeout_aborts_run_witness :
  overruns slow "/work/plan.xlsx" refresh_timeout = true
  ∧ (process slow (work_item "Docs/Reports/plan.xlsx" PNone) site).1
    = Raise (mkExc RuntimeError
               "refresh_excel_file did not complete within the allowed time.").
Proof.
  split; [reflexivity|].
  destruct (refresh_timeout_aborts_run slow (fields "Docs/Reports/plan.xlsx" PNone)
              "Docs/Reports/plan.xlsx" plan site) as [_ H].
  apply H; [reflexivity|reflexivity| |reflexivity].
  vm_compute. repeat first [apply list_elem_of_here | apply list_elem_of_further].
Defined.

(** The scratch file is taken away at once: the download gives up. *)
Lemma download_gives_up_after_wait_witness :
  (download_file_from_sharepoint thief (PStr "https://x/sites/A")
     (PStr "Docs/Reports/plan.xlsx") site).1
  = Raise (exc_not_downloaded "/work/plan.xlsx").
Proof.
  destruct (download_gives_up_after_wait thief (PStr "https://x/sites/A") PNone
              "Docs/Reports/plan.xlsx" plan site
              (download_request thief "Docs/Reports/plan.xlsx" plan site).2) as [H _].
  - reflexivity.
  - reflexivity.
  - vm_compute. reflexivity.
  - intros k _. destruct k as [|k].
    + vm_compute. reflexivity.
    + apply (lookup_delete_eq (M := gmap string)).
  - rewrite H. reflexivity.
Defined.

(** Nobody interferes: the download returns without a sleep. *)
Lemma download_poll_never_waits_witness :
  download_file_from_sharepoint calm (PStr "https://x/sites/A")
    (PStr "Docs/Reports/plan.xlsx") site
  = (Ok "/work/plan.xlsx",
     add_log (LInfo, "[Ok] file has been downloaded into: /work/plan.xlsx")
       (download_request calm "Docs/Reports/plan.xlsx" plan site).2).
Proof.
  destruct (download_poll_never_waits calm (PStr "https://x/sites/A")
              "Docs/Reports/plan.xlsx" plan site
              (download_request calm "Docs/Reports/plan.xlsx" plan site).2)
    as (_ & _ & H & _).
  - reflexivity.
  - vm_compute. reflexivity.
  - intros fs Hfs. exact Hfs.
  - exact H.
Defined.



(** Refused credentials reach the runtime as they are; a failing upload
    leaves no local file. *)
Lemma failure_handling_witness :
  (process locked_out (work_item "Docs/Reports/plan.xlsx" PNone) site).1 = Raise refused
  ∧ (process upload_fails (work_item "Docs/Reports/plan.xlsx" PNone) site).1 = Raise no_folder
  ∧ files (process upload_fails (work_item "Docs/Reports/plan.xlsx" PNone) site).2
      !! "/work/plan.xlsx" = None.
Proof.
  split_and!.
  - destruct (failure_handling locked_out (work_item "Docs/Reports/plan.xlsx" PNone) site)
      as [H _].
    destruct (H (fields "Docs/Reports/plan.xlsx" PNone) "robot" "secret" refused)
      as [Hr _]; [reflexivity..|exact Hr].
  - reflexivity.
  - destruct (failure_handling upload_fails (work_item "Docs/Reports/plan.xlsx" PNone) site)
      as [_ H].
    destruct (H no_folder
                (process upload_fails (work_item "Docs/Reports/plan.xlsx" PNone) site).2
                "/work/plan.xlsx") as [Hf _]; [vm_compute; reflexivity|reflexivity|exact Hf].
Defined.

(** On the calm installation the second run leaves the site as the first did. *)
Lemma process_twice_witness :
  remote_files
    (process calm (work_item "Docs/Reports/plan.xlsx" PNone)
       (process calm (work_item "Docs/Reports/plan.xlsx" PNone) site).2).2
  = remote_files (process calm (work_item "Docs/Reports/plan.xlsx" PNone) site).2.
Proof.
  destruct (process_twice calm (work_item "Docs/Reports/plan.xlsx" PNone) site)
    as (_ & _ & H & _).
  - intros k fs. reflexivity.
  - intros c. reflexivity.
  - intros d url parts Hq Hfp Hsplit. injection Hq as <-.
    vm_compute in Hfp. injection Hfp as <-.
    vm_compute in Hsplit. injection Hsplit as <-.
    vm_compute. discriminate.
  - exact H.
Defined.

End Witnesses.

(** C1, where the code departs from it: a work item whose file is not on the
    site.  The scratch file is created by the [open] of the download, the
    request fails, the handler of [process] finds [local_file_path] unbound
    and raises that instead of removing the file: the file stays on disk. *)
Theorem scratch_file_left_behind :
  let run := process Scenario.calm
               (Scenario.work_item "Docs/Reports/missing.xlsx" PNone) Scenario.site in
  run.1 = Raise exc_unbound
  ∧ files Scenario.site !! "/work/missing.xlsx" = None
  ∧ files run.2 !! "/work/missing.xlsx" = Some ""
  ∧ new_events Scenario.site run.2
    = [ EvSp (SpLoadWeb (PStr "https://x/sites/A") "robot" "secret");
        EvMakedirs "/home/robot/Documents/Reports";
        EvOpen "/work/missing.xlsx" "wb";
        EvSp (SpDownload "Docs/Reports/missing.xlsx") ].
Proof. vm_compute. split_and!; reflexivity. Qed.

(** C5 where it fails.  Another program takes the file away while the
    request is in flight: lines 85-101 end without an exception, the file is
    not at the write path, the loop sleeps sixty times and line 115 raises. *)
Lemma download_waits_when_file_is_taken :
  let request := download_request Scenario.thief "Docs/Reports/plan.xlsx" Scenario.plan
                   Scenario.site in
  let call := download_file_from_sharepoint Scenario.thief (PStr "https://x/sites/A")
                (PStr "Docs/Reports/plan.xlsx") Scenario.site in
  request.1 = Ok tt
  ∧ exists_in request.2 "/work/plan.xlsx" = false
  ∧ filter is_sleep (new_events Scenario.site call.2) = replicate 60 (EvSleep 1)
  ∧ call.1 = Raise (exc_not_downloaded "/work/plan.xlsx").
Proof. vm_compute. split_and!; reflexivity. Qed.

(** C2 at a site that refuses the credentials: the failure reaches the
    runtime, and nothing was logged as an error. *)
Lemma authentication_failure_not_logged :
  let run := process Scenario.locked_out
               (Scenario.work_item "Docs/Reports/plan.xlsx" PNone) Scenario.site in
  run.1 = Raise Scenario.refused
  ∧ log run.2 = [(LTrace, "Running process.")]
  ∧ ¬ (∃ msg, (LError, msg) ∈ log run.2).
Proof.
  vm_compute. split_and!; [reflexivity..|].
  intros [msg H]. apply elem_of_cons in H as [[=]|H]. by apply elem_of_nil in H.
Qed.

(** C10 where it fails.  With a file lying where the documents folder is to
    be, which is also the write path, the first run returns and the second
    raises, so the log lines differ; with an engine that adds to the workbook
    at every refresh the file on the site differs after the second run.  In
    both nothing outside touches the local files. *)
Lemma second_run_differs :
  (let first := process Scenario.in_documents
                  (Scenario.work_item "Reports/Reports" PNone) Scenario.leftover in
   let second := process Scenario.in_documents
                   (Scenario.work_item "Reports/Reports" PNone) first.2 in
   undisturbed Scenario.in_documents
   ∧ first.1 = Ok tt ∧ second.1 = Raise exc_unbound
   ∧ new_log first.2 second.2 ≠ new_log Scenario.leftover first.2)
  ∧ (let first := process Scenario.appending
                    (Scenario.work_item "Docs/Reports/plan.xlsx" PNone) Scenario.site in
     let second := process Scenario.appending
                     (Scenario.work_item "Docs/Reports/plan.xlsx" PNone) first.2 in
     undisturbed Scenario.appending
     ∧ remote_files first.2 !! "Docs/Reports/plan.xlsx" = Some "v0+"
     ∧ remote_files second.2 !! "Docs/Reports/plan.xlsx" = Some "v0++"
     ∧ remote_files second.2 ≠ remote_files first.2).
Proof.
  split; cbv zeta; split_and!; try (by intros k fs); try (vm_compute; reflexivity).
  - vm_compute. discriminate.
  - intros H.
    assert (remote_files
              (process Scenario.appending (Scenario.work_item "Docs/Reports/plan.xlsx" PNone)
                 (process Scenario.appending
                    (Scenario.work_item "Docs/Reports/plan.xlsx" PNone) Scenario.site).2).2
              !! "Docs/Reports/plan.xlsx" = Some "v0+") as H' by (rewrite H; vm_compute; reflexivity).
    vm_compute in H'. discriminate.
Qed.

(** ** Further properties of the run *)

(** *** Work items that cannot be processed *)

(** X1. A work item that is missing, is not JSON or is not a JSON object, or
    a credential that cannot be fetched, ends [process] before anything is
    sent: the error is raised as it is, the only log line is the first one,
    and no file, local or remote, has changed. *)
Theorem process_stops_before_login (env : Env) (queue_element : option QueueElement)
    (s : State) :
  (∀ d, queue_element = Some (mkQueueElement (JsonObject d)) →
        ∃ e, credential env "Robot365User" = inl e) →
  let r := process env queue_element s in
  (∃ e, r.1 = Raise e
        ∧ (queue_element = None → exc_kind e = AttributeError)
        ∧ (queue_element = Some (mkQueueElement JsonMalformed) → exc_kind e = JSONDecodeError)
        ∧ (∀ d, queue_element = Some (mkQueueElement (JsonObject d)) →
                credential env "Robot365User" = inl e))
  ∧ new_events s r.2 = []
  ∧ new_log s r.2 = [(LTrace, "Running process.")]
  ∧ files r.2 = files s ∧ dirs r.2 = dirs s ∧ remote_files r.2 = remote_files s.
Proof.
  intros Hq r. subst r. rewrite process_unfold.
  assert (new_events s (started s) = []) as Hev by (by apply new_events_app; simpl; rewrite app_nil_r).
  assert (new_log s (started s) = [(LTrace, "Running process.")]) as Hlg by (by apply new_log_app).
  destruct queue_element as [[[| |d]]|].
  - split_and!; try done. eexists. split_and!; try done.
  - split_and!; try done. eexists. split_and!; try done.
  - destruct (Hq d eq_refl) as [e He]. rewrite He. split_and!; try done.
    exists e. split_and!; try done; by intros d' [= <-].
  - split_and!; try done. eexists. split_and!; try done.
Qed.

(** X2. A work item without a FolderPath, or with one that is not a string,
    gets as far as the login.  The download then fails on the value, the
    handler of [process] finds [local_file_path] unbound, and that is what
    the run raises: the failure of the download is lost, nothing is logged as
    an error, and nothing on the disk or on the site has changed. *)
Theorem missing_folder_path (env : Env) (d : gmap string PyVal) (username password : string)
    (s : State) :
  credential env "Robot365User" = inr (username, password) →
  sp env (SpLoadWeb (dict_get d "SharePointSite") username password) = None →
  (∀ url, d !! "FolderPath" ≠ Some (PStr url)) →
  let r := process env (Some (mkQueueElement (JsonObject d))) s in
  r.1 = Raise exc_unbound
  ∧ new_events s r.2 = [EvSp (SpLoadWeb (dict_get d "SharePointSite") username password)]
  ∧ new_log s r.2
    = [ (LTrace, "Running process.");
        (LInfo, "Authenticated successfully. Site Title: " +:+ web_title env) ]
  ∧ files r.2 = files s ∧ dirs r.2 = dirs s ∧ remote_files r.2 = remote_files s.
Proof.
  intros Hcred Hauth Hfp r. subst r.
  rewrite process_unfold, Hcred. cbv zeta. rewrite Hauth.
  rewrite process_try_not_a_path; [| |done].
  2:{ intros url Hurl. apply (Hfp url). unfold dict_get in Hurl.
      destruct (d !! "FolderPath") as [v|]; simpl in Hurl; by subst. }
  split_and!; try done.
  - by apply new_events_app.
  - apply new_log_app. simpl. by rewrite <- app_assoc.
Qed.

(** X3. When the download request raises, because the site refuses it or has
    no file at the path, after the documents folder was seen to and the write
    path was opened, the file opened for writing stays at the write path,
    empty, whatever was there before, and the documents folder, made with its
    missing parents if it was not there, stays.  The run raises the unbound
    variable of the handler instead of the failure of the request, logs no
    error and removes nothing. *)
Theorem failed_request_leaves_empty_file (env : Env) (d : gmap string PyVal)
    (username password url : string) (parts : PathParts) (s : State) :
  credential env "Robot365User" = inr (username, password) →
  sp env (SpLoadWeb (dict_get d "SharePointSite") username password) = None →
  d !! "FolderPath" = Some (PStr url) →
  split_path url = Some parts →
  makedirs_raises env parts s = None →
  download_path_of env parts ∉ dirs (after_makedirs env parts s) →
  sp env (SpDownload url) ≠ None ∨ remote_files s !! url = None →
  let r := process env (Some (mkQueueElement (JsonObject d))) s in
  r.1 = Raise exc_unbound
  ∧ files r.2 = outside env 0 (<[download_path_of env parts := ""]> (files s))
  ∧ new_log s r.2
    = [ (LTrace, "Running process.");
        (LInfo, "Authenticated successfully. Site Title: " +:+ web_title env) ]
  ∧ new_events s r.2
    = EvSp (SpLoadWeb (dict_get d "SharePointSite") username password)
      :: (if exists_in s (documents_folder_of env parts) then []
          else [EvMakedirs (documents_folder_of env parts)])
      ++ [EvOpen (download_path_of env parts) "wb"; EvSp (SpDownload url)]
  ∧ dirs r.2 = dirs (after_makedirs env parts s)
  ∧ (exists_in s (documents_folder_of env parts) = false →
     documents_folder_of env parts ∈ dirs r.2).
Proof.
  intros Hcred Hauth Hfp Hsplit Hmk Hnd Hfail r. subst r.
  rewrite process_unfold, Hcred. cbv zeta. rewrite Hauth.
  set (site := dict_get d "SharePointSite").
  set (s0 := authenticated env site username password s).
  assert (dict_get d "FolderPath" = PStr url) as -> by (unfold dict_get; by rewrite Hfp).
  rewrite process_try_unfold.
  destruct (after_makedirs_uniform env parts s0 s eq_refl eq_refl) as [Hmk0 Hd0].
  rewrite Hmk in Hmk0.
  assert (download_path_of env parts ∉ dirs (after_makedirs env parts s0)) as Hnd0
    by (by rewrite Hd0).
  destruct (download_cases env site url parts s0 Hsplit)
    as [(e0 & Hmk' & _) | (_ & [[Hin _] | [[_ [e Hr]] | [s2 Hst]]])];
    [congruence|done| |].
  2:{ apply download_statement_ok in Hst as (_ & Hsp & c & Hc & _).
      destruct (after_makedirs_frame env parts s0) as (_ & Hr0 & _).
      rewrite Hr0 in Hc. simpl in Hc.
      destruct Hfail as [Hfail|Hfail]; [done|congruence]. }
  rewrite Hr. rewrite process_handler_unbound.
  2:{ simpl. by destruct (after_makedirs_frame env parts s0) as (_ & _ & _ & -> & _). }
  assert (exists_in s0 (documents_folder_of env parts)
          = exists_in s (documents_folder_of env parts)) as Hex by done.
  destruct (after_makedirs_frame env parts s0) as (Hf0 & _ & Hl0 & _).
  cbn [fst snd]. split_and!.
  - done.
  - simpl. by rewrite Hf0.
  - apply new_log_app. simpl. rewrite Hl0. simpl. by rewrite <- app_assoc.
  - apply new_events_app. simpl.
    destruct (after_makedirs_cases env parts s0)
      as [(E & Hs & _) | (E & D & Hs & _)]; rewrite Hs; rewrite Hex in E; rewrite E;
      simpl; by rewrite <- !app_assoc.
  - simpl. exact Hd0.
  - intros E. simpl. pose proof (makedirs_made env parts s0 Hmk0) as Hm.
    unfold exists_in in Hm, E. rewrite Hf0 in Hm. simpl in Hm.
    apply orb_false_iff in E as [E _]. rewrite E in Hm. simpl in Hm.
    by apply bool_decide_eq_true in Hm.
Qed.

(** *** The wait for the downloaded file *)

Section Waiting.

Context (env : Env).

(** The loop sleeps until the file is there or the waiting time is over. *)
Lemma poll_until path w s k :
  (k ≤ w)%nat →
  (∀ j, (j < k)%nat → exists_in (after_sleeps env j s) path = false) →
  exists_in (after_sleeps env k s) path = true ∨ k = w →
  ∀ m j, (j ≤ k)%nat → (k ≤ j + m)%nat →
    poll env m path w 1 j (after_sleeps env j s) = (Ok k, after_sleeps env k s).
Proof.
  intros Hk Habs Hend. induction m as [|m IH]; intros j Hj Hm.
  - assert (j = k) as -> by lia. unfold poll, bind, os_path_exists, gets.
    destruct Hend as [Hex| ->]; [by rewrite Hex|].
    by rewrite Nat.ltb_irrefl, andb_false_r.
  - destruct (decide (j = k)) as [->|Hne].
    + unfold poll; fold poll. unfold bind at 1. unfold os_path_exists, gets.
      destruct Hend as [Hex| ->]; [by rewrite Hex|].
      by rewrite Nat.ltb_irrefl, andb_false_r.
    + unfold poll; fold poll. unfold bind at 1. unfold os_path_exists, gets.
      rewrite Habs by lia. simpl.
      rewrite (proj2 (Nat.ltb_lt j w)) by lia.
      unfold bind, time_sleep, modify.
      replace (j + 1)%nat with (S j) by lia.
      apply (IH (S j)); lia.
Qed.



End Waiting.

(** X4. When lines 85-101 have ended without an exception and the file
    comes to the write path only during the wait, at the [k]-th second, the download makes exactly [k] sleeps of one second and
    then returns the write path, for every [k] up to sixty. *)
Theorem download_waits_for_file (env : Env) (client : PyVal) (url : string)
    (parts : PathParts) (s s2 : State) (k : nat) :
  split_path url = Some parts →
  download_request env url parts s = (Ok tt, s2) →
  (k ≤ 60)%nat →
  (∀ j, (j < k)%nat → files_at env j (files s2) !! download_path_of env parts = None) →
  is_Some (files_at env k (files s2) !! download_path_of env parts) →
  download_file_from_sharepoint env client (PStr url) s
  = (Ok (download_path_of env parts),
     add_log (LInfo, "[Ok] file has been downloaded into: " +:+ download_path_of env parts)
       (after_sleeps env k s2))
  ∧ new_events s2 (after_sleeps env k s2) = replicate k (EvSleep 1).
Proof.
  intros Hsplit Hreq Hk Habs Hthere.
  apply download_request_ok in Hreq as [Hmk Hst].
  pose proof (statement_left env url parts s s2 Hst) as (Hd & _).
  assert (exists_in (after_sleeps env k s2) (download_path_of env parts) = true) as Hex.
  { rewrite exists_in_after_sleeps. apply orb_true_iff. left. by apply bool_decide_eq_true. }
  split.
  - rewrite (download_after_statement env client url parts s s2 Hsplit Hmk Hst).
    assert (∀ j, (j < k)%nat →
                 exists_in (after_sleeps env j s2) (download_path_of env parts) = false) as Hno.
    { intros j Hj. rewrite exists_in_after_sleeps. apply orb_false_iff. split.
      - apply bool_decide_eq_false. rewrite Habs by done. by intros [? ?].
      - by apply bool_decide_eq_false. }
    pose proof (poll_until env (download_path_of env parts) 60 s2 k Hk Hno (or_introl Hex)
                  60%nat 0%nat ltac:(lia) ltac:(lia)) as Hp.
    change (after_sleeps env 0 s2) with s2 in Hp. by rewrite Hp, Hex.
  - apply new_events_app, trace_after_sleeps.
Qed.


(** *** The refresh *)

(** X6. A refresh that returns has written the refreshed workbook over the
    file it opened and has closed it: the file at the path holds what Excel
    made of its contents, no workbook is open any more, and no other local
    file, directory or remote file has changed.  The line about it is the
    only one logged. *)
Theorem refresh_saves_in_place (env : Env) (path c : string) (s s' : State) :
  files s !! path = Some c →
  refresh_excel_file env path s = (Ok tt, s') →
  files s' = <[path := engine env c]> (files s)
  ∧ workbook s' = None
  ∧ dirs s' = dirs s ∧ remote_files s' = remote_files s
  ∧ new_log s s'
    = [(LInfo, "[Ok] Excel file at " +:+ path +:+ " has been refreshed and saved.")]
  ∧ new_events s s' = map EvCom (refresh_steps path).
Proof.
  intros Hc H. unfold refresh_excel_file in H.
  repeat (unfold bind at 1 in H;
          match type of H with
          | context [com_call env ?c ?s] =>
              let E := fresh "E" in
              destruct (com_call env c s) as [[[]|?|] ?] eqn:E; [|done..];
              apply com_call_ok in E as (? & ? & _ & _ & E & ->)
          end).
  unfold log_info, modify in H. injection H as <-.
  unfold com_effect in *.
  repeat (progress (simpl in *; rewrite ?Hc in *; simplify_eq)).
  split_and!; try done.
  - by rewrite insert_insert_eq.
  - by apply new_log_app.
  - apply new_events_app. simpl. rewrite <- ?app_assoc. done.
Qed.

(** *** The upload and the run that returns *)

Section Returning.

Context (env : Env).

(** What an upload that returns leaves. *)
Lemma upload_ok_state client url parts path custom_function v s s' :
  split_path url = Some parts →
  files s !! path = Some v →
  upload_file_to_sharepoint env client (PStr url) path custom_function s = (Ok tt, s') →
  files s' = delete path (files s)
  ∧ dirs s' = dirs s
  ∧ local_file_path s' = local_file_path s
  ∧ remote_files s' = after_uploads env parts custom_function v (remote_files s)
  ∧ log s' = log s ++ upload_lines env parts custom_function.
Proof.
  intros Hsplit Hv.
  unfold upload_file_to_sharepoint, as_str. unfold bind at 1. unfold ret at 1.
  rewrite Hsplit. unfold bind at 1. unfold of_option, ret at 1.
  unfold bind at 1. unfold execute_query at 1.
  destruct (sp env (SpGetFolder (upload_folder_of parts))) as [e|] eqn:E1; [done|].
  unfold bind at 1. unfold open_rb at 1. simpl files. rewrite Hv.
  unfold bind at 1. unfold upload_file at 1. unfold bind at 1. unfold execute_query at 1.
  destruct (sp env (SpUploadFile (upload_folder_of parts) (file_name parts) v))
    as [e|] eqn:E2; [done|].
  unfold bind, modify, ret, log_info, modify. simpl.
  unfold after_uploads, upload_lines, uploaded_line, remote_key.
  destruct (bool_decide (custom_function = PStr "MonthlyFolder")) eqn:Hcf.
  - unfold monthly_folder, bind, log_info, modify, execute_query, locale_setlocale,
      folders_add, upload_file, open_rb, bind, execute_query, modify, ret, raise, os_remove.
    simpl.
    destruct (sp env (SpGetList "Dokumenter")) as [e|] eqn:E3; [done|].
    destruct (sp env (SpGetSubfolder (list_root env "Dokumenter") "Historik"))
      as [e|] eqn:E4; [done|].
    destruct (setlocale env "da_DK") as [e|] eqn:E5; [done|].
    destruct (sp env (SpAddFolder _ _)) as [e|] eqn:E6; [done|].
    destruct (sp env (SpAddFolder _ (PyStr.capitalize _))) as [e|] eqn:E7; [done|].
    simpl. rewrite Hv.
    destruct (sp env (SpUploadFile
                        (((list_root env "Dokumenter" +:+ "/" +:+ "Historik") +:+ "/"
                           +:+ pretty (now_year env)) +:+ "/"
                           +:+ PyStr.capitalize (da_DK_month (now_month env)))
                        ("DKPlan_" +:+ PyStr.capitalize (da_DK_month (now_month env))
                           +:+ "_" +:+ pretty (now_year env) +:+ ".xlsx") v))
      as [e|] eqn:E8; [done|].
    simpl. rewrite Hv.
    intros [= <-]. simpl. unfold archive_folder, archive_name.
    rewrite <- !capitalize_month, <- !app_assoc, !append_assoc. done.
  - unfold ret, os_remove. simpl. rewrite Hv. intros [= <-]. simpl. done.
Qed.

(** A download that returns has found or made the documents folder. *)
Lemma download_ok_made client url parts s p s' :
  split_path url = Some parts →
  download_file_from_sharepoint env client (PStr url) s = (Ok p, s') →
  makedirs_raises env parts s = None.
Proof.
  intros Hsplit Hdl.
  destruct (download_cases env client url parts s Hsplit) as [(e0 & _ & Hr) | (Hmk & _)];
    [|done].
  rewrite Hdl in Hr. discriminate Hr.
Qed.

(** The stages of a run that returns. *)
Lemma returning_run queue_element s s' :
  process env queue_element s = (Ok tt, s') →
  ∃ d username password url parts s1 s2,
    queue_element = Some (mkQueueElement (JsonObject d))
    ∧ credential env "Robot365User" = inr (username, password)
    ∧ d !! "FolderPath" = Some (PStr url) ∧ split_path url = Some parts
    ∧ download_file_from_sharepoint env (dict_get d "SharePointSite") (PStr url)
        (authenticated env (dict_get d "SharePointSite") username password s)
      = (Ok (download_path_of env parts), s1)
    ∧ refresh_excel_file_with_timeout env (download_path_of env parts)
        (set_local_file_path (Some (download_path_of env parts)) s1)
      = (Ok FutureDone, s2)
    ∧ upload_file_to_sharepoint env (dict_get d "SharePointSite") (PStr url)
        (download_path_of env parts) (dict_get d "CustomFunction") s2
      = (Ok tt, s').
Proof.
  rewrite process_unfold.
  destruct queue_element as [[[| |d]]|]; try done.
  destruct (credential env "Robot365User") as [e|[username password]] eqn:Hcred; [done|].
  cbv zeta. set (site := dict_get d "SharePointSite").
  destruct (sp env (SpLoadWeb site username password)) as [e|] eqn:Hauth; [done|].
  set (cf := dict_get d "CustomFunction").
  set (s0 := authenticated env site username password s).
  rewrite process_try_unfold.
  destruct (download_file_from_sharepoint env site (dict_get d "FolderPath") s0)
    as [rd s1] eqn:Hdl.
  pose proof (download_frame env site _ s0 rd s1 Hdl)
    as (Hv1 & Hr1 & Hrf1 & _ & Hns & Hlog1 & Hok).
  destruct rd as [p|e|]; [| |done].
  2:{ intros H. by destruct (process_handler_raises e s1); rewrite H. }
  destruct (Hok p eq_refl)
    as (url & parts & c & Hfp & Hsplit & -> & Hc & Hp & Hnd & Hd1 & _ & Hl1).
  set (p := download_path_of env parts) in *.
  rewrite Hfp in *. rewrite process_rest_unfold.
  set (s1' := set_local_file_path (Some p) s1).
  destruct Hp as [c1 Hc1].
  assert (files s1' !! p = Some c1) as Hc1' by done.
  destruct (refresh_excel_file_with_timeout env p s1') as [rf s2] eqn:Hrf.
  pose proof (refresh_with_timeout_frame env p c1 s1' _ s2 Hc1' Hrf)
    as (fut & -> & _).
  destruct fut as [|e0].
  2:{ intros H. by destruct (process_handler_raises (refresh_error e0)
                              (add_log (LError, refresh_error_log e0) s2)); rewrite H. }
  destruct (upload_file_to_sharepoint env site (PStr url) p cf s2) as [ru s3] eqn:Hup.
  destruct ru as [[]|e|]; [| |done].
  2:{ intros H. by destruct (process_handler_raises e s3); rewrite H. }
  intros [= <-].
  exists d, username, password, url, parts, s1, s2. split_and!; try done.
  unfold dict_get in Hfp. destruct (d !! "FolderPath") as [v|]; simpl in Hfp; by subst.
Qed.

End Returning.

(** X7. A run that returns has deleted the scratch file as its last step:
    the variable [local_file_path] holds the write path, no file is there
    any more, and the removal is the last thing the run did. *)
Theorem returning_run_removes_scratch_file (env : Env) (queue_element : option QueueElement)
    (s s' : State) :
  process env queue_element s = (Ok tt, s') →
  ∃ d url parts,
    queue_element = Some (mkQueueElement (JsonObject d))
    ∧ d !! "FolderPath" = Some (PStr url) ∧ split_path url = Some parts
    ∧ local_file_path s' = Some (download_path_of env parts)
    ∧ files s' !! download_path_of env parts = None
    ∧ ∃ evs, new_events s s' = evs ++ [EvRemove (download_path_of env parts)].
Proof.
  intros Hrun.
  destruct (returning_run env _ _ _ Hrun)
    as (d & username & password & url & parts & s1 & s2 & -> & Hcred & Hfp & Hsplit
        & Hdl & Hrf & Hup).
  set (p := download_path_of env parts) in *.
  set (site := dict_get d "SharePointSite") in *.
  set (s0 := authenticated env site username password s) in *.
  pose proof (download_frame env site _ s0 _ s1 Hdl)
    as (Hv1 & _ & _ & (evs1 & Ht1 & _) & _ & _ & Hok).
  destruct (Hok p eq_refl) as (_ & _ & _ & _ & _ & _ & _ & [c1 Hc1] & _).
  assert (files (set_local_file_path (Some p) s1) !! p = Some c1) as Hc1' by done.
  pose proof (refresh_with_timeout_frame env p c1 _ _ s2 Hc1' Hrf)
    as (fut & _ & _ & [c2 Hc2] & _ & _ & _ & Hv2 & _).
  destruct (refresh_with_timeout_trace env p (set_local_file_path (Some p) s1))
    as (n & killed & Ht2 & _). rewrite Hrf in Ht2. simpl in Ht2.
  pose proof (upload_ok_state env site url parts p _ c2 s2 s' Hsplit Hc2 Hup)
    as (Hf3 & _ & Hv3 & _).
  pose proof (upload_ok_events env site url parts p _ c2 s2 s' Hsplit Hc2 Hup) as Ht3.
  exists d, url, parts. split_and!; try done.
  - by rewrite Hv3, Hv2.
  - by rewrite Hf3, lookup_delete_eq.
  - assert (∃ mid, trace s2 = trace s ++ mid) as [mid Hmid].
    { rewrite Ht2, Ht1. simpl. rewrite <- !app_assoc. by eexists. }
    exists (mid ++ [ EvSp (SpGetFolder (upload_folder_of parts)); EvOpen p "rb";
                     EvSp (SpUploadFile (upload_folder_of parts) (file_name parts) c2) ]
              ++ (if bool_decide (dict_get d "CustomFunction" = PStr "MonthlyFolder")
                  then archive_events env p c2 else [])).
    apply new_events_app. rewrite Ht3, Hmid, <- !app_assoc. done.
Qed.

(** X8. With nothing else touching the disk, a run that returns has taken
    the workbook the site held at the path, and has put what Excel made of
    it at the upload target, and in the monthly copy when that was asked
    for; nothing else on the site has changed.  The local files are the ones
    from before the run without the write path.  The documents folder is
    there; the only directories that can be new are the documents folder and
    directories above it, and none is new when something was at the documents
    folder before. *)
Theorem returning_run_round_trip (env : Env) (queue_element : option QueueElement)
    (s s' : State) :
  undisturbed env →
  process env queue_element s = (Ok tt, s') →
  ∃ d url parts c,
    queue_element = Some (mkQueueElement (JsonObject d))
    ∧ d !! "FolderPath" = Some (PStr url) ∧ split_path url = Some parts
    ∧ remote_files s !! url = Some c
    ∧ remote_files s'
      = after_uploads env parts (dict_get d "CustomFunction") (engine env c) (remote_files s)
    ∧ files s' = delete (download_path_of env parts) (files s)
    ∧ (if exists_in s (documents_folder_of env parts) then dirs s' = dirs s
       else dirs s ⊆ dirs s'
            ∧ documents_folder_of env parts ∈ dirs s'
            ∧ ∀ x, x ∈ dirs s' →
                   x ∈ dirs s ∨ x = documents_folder_of env parts
                   ∨ x ∈ ancestors env (documents_folder_of env parts)).
Proof.
  intros Hquiet Hrun.
  destruct (returning_run env _ _ _ Hrun)
    as (d & username & password & url & parts & s1 & s2 & -> & Hcred & Hfp & Hsplit
        & Hdl & Hrf & Hup).
  set (p := download_path_of env parts) in *.
  set (site := dict_get d "SharePointSite") in *.
  set (s0 := authenticated env site username password s) in *.
  pose proof (download_frame env site _ s0 _ s1 Hdl) as (_ & Hr1 & _ & _ & _ & _ & Hok).
  destruct (Hok p eq_refl)
    as (url' & parts' & c & [= <-] & Hsplit' & Hp & Hc & _ & _ & Hd1 & Hf1 & _).
  assert (parts' = parts) as -> by congruence.
  specialize (Hf1 Hquiet).
  assert (files (set_local_file_path (Some p) s1) !! p = Some c) as Hc1'.
  { simpl. fold p in Hf1. by rewrite Hf1, lookup_insert_eq. }
  pose proof (refresh_with_timeout_frame env p c _ _ s2 Hc1' Hrf)
    as (fut & [= <-] & Hf2 & _ & Hd2 & Hr2 & _ & _ & _ & _ & Hdone & _).
  destruct (Hdone eq_refl) as [_ Hc2].
  pose proof (upload_ok_state env site url parts p _ (engine env c) s2 s' Hsplit Hc2 Hup)
    as (Hf3 & Hd3 & _ & Hr3 & _).
  exists d, url, parts, c. split_and!; try done.
  - simpl in Hr2. by rewrite Hr3, Hr2, Hr1.
  - rewrite Hf3. apply map_eq. intros q. destruct (decide (q = p)) as [->|Hne].
    + by rewrite !lookup_delete_eq.
    + rewrite !lookup_delete_ne by done. rewrite Hf2 by done. simpl. fold p in Hf1.
      by rewrite Hf1, lookup_insert_ne.
  - pose proof (download_ok_made env site url parts s0 _ _ Hsplit Hdl) as Hmk.
    rewrite Hd3, Hd2. simpl. rewrite Hd1.
    destruct (after_makedirs_cases env parts s0)
      as [(E & Hs & _) | (E & D & Hs & Hsub & Hnew & [(_ & _ & Hin) | (e & He & _)])];
      [| |congruence];
      change (exists_in s0 (documents_folder_of env parts))
        with (exists_in s (documents_folder_of env parts)) in E;
      rewrite E, Hs; simpl; [done|by split_and!].
Qed.

(** X9. The log of a run that returns: the first line, the login with the
    title of the site, the download with the write path, the refresh, the
    upload with the address the site reports, and for the monthly copy the
    name of the custom function and a second upload line. *)
Theorem log_of_returning_run (env : Env) (queue_element : option QueueElement)
    (s s' : State) :
  process env queue_element s = (Ok tt, s') →
  ∃ d url parts,
    queue_element = Some (mkQueueElement (JsonObject d))
    ∧ d !! "FolderPath" = Some (PStr url) ∧ split_path url = Some parts
    ∧ new_log s s'
      = [ (LTrace, "Running process.");
          (LInfo, "Authenticated successfully. Site Title: " +:+ web_title env);
          (LInfo, "[Ok] file has been downloaded into: " +:+ download_path_of env parts);
          (LInfo, "[Ok] Excel file at " +:+ download_path_of env parts
                    +:+ " has been refreshed and saved.") ]
        ++ upload_lines env parts (dict_get d "CustomFunction").
Proof.
  intros Hrun.
  destruct (returning_run env _ _ _ Hrun)
    as (d & username & password & url & parts & s1 & s2 & -> & Hcred & Hfp & Hsplit
        & Hdl & Hrf & Hup).
  set (p := download_path_of env parts) in *.
  set (site := dict_get d "SharePointSite") in *.
  set (s0 := authenticated env site username password s) in *.
  pose proof (download_frame env site _ s0 _ s1 Hdl) as (_ & _ & _ & _ & _ & _ & Hok).
  destruct (Hok p eq_refl)
    as (url' & parts' & c & [= <-] & Hsplit' & Hp & Hc & [c1 Hc1] & _ & _ & _ & Hl1).
  assert (files (set_local_file_path (Some p) s1) !! p = Some c1) as Hc1' by done.
  pose proof (refresh_with_timeout_frame env p c1 _ _ s2 Hc1' Hrf)
    as (fut & [= <-] & _ & [c2 Hc2] & _ & _ & _ & _ & _ & _ & Hdone & _).
  destruct (Hdone eq_refl) as [Hl2 _].
  pose proof (upload_ok_state env site url parts p _ c2 s2 s' Hsplit Hc2 Hup)
    as (_ & _ & _ & _ & Hl3).
  exists d, url, parts. split_and!; try done.
  apply new_log_app. rewrite Hl3, Hl2. simpl. rewrite Hl1. simpl.
  rewrite <- !app_assoc. done.
Qed.

(** *** Failures after the download *)

(** X10. When the refresh fails in its subprocess once the download has
    returned, the [try] statement of [process] logs two errors, the one of
    the inner handler and the text of the RuntimeError it raised, removes the
    scratch file and raises that RuntimeError; nothing is uploaded.  The
    failure counts as a timeout exactly when its text in lower case contains
    [timeout], whatever ended the subprocess. *)
Theorem refresh_failure_is_reported (env : Env) (client custom_function : PyVal)
    (url path : string) (s s1 s2 : State) (e : PyExc) :
  download_file_from_sharepoint env client (PStr url) s = (Ok path, s1) →
  refresh_excel_file_with_timeout env path (set_local_file_path (Some path) s1)
    = (Ok (FutureFailed e), s2) →
  let timed_out := PyStr.contains "timeout" (PyStr.lower (exc_str e)) in
  let raised :=
    mkExc RuntimeError
      (if timed_out then "refresh_excel_file did not complete within the allowed time."
       else "Error in refresh_excel_file: " +:+ exc_str e) in
  let r := try_except (process_body env client (PStr url) custom_function)
             process_handler s in
  r.1 = Raise raised
  ∧ new_log s r.2
    = [ (LInfo, "[Ok] file has been downloaded into: " +:+ path);
        (LError, if timed_out then "refresh_excel_file exceeded the timeout of 30 minutes."
                 else "An error occurred during refresh_excel_file execution: " +:+ exc_str e);
        (LError, exc_str raised) ]
  ∧ files r.2 !! path = None
  ∧ remote_files r.2 = remote_files s.
Proof.
  intros Hdl Hrf timed_out raised r. subst r.
  change (try_except (process_body env client (PStr url) custom_function) process_handler)
    with (process_try env client (PStr url) custom_function).
  rewrite process_try_unfold, Hdl, process_rest_unfold, Hrf.
  pose proof (download_frame env client _ s _ s1 Hdl) as (_ & Hr1 & _ & _ & _ & _ & Hok).
  destruct (Hok path eq_refl)
    as (url' & parts & c & _ & _ & _ & _ & [c1 Hc1] & _ & _ & _ & Hl1).
  assert (files (set_local_file_path (Some path) s1) !! path = Some c1) as Hc1' by done.
  pose proof (refresh_with_timeout_frame env path c1 _ _ s2 Hc1' Hrf)
    as (fut & [= <-] & _ & [c2 Hc2] & _ & Hr2 & _ & Hv2 & _ & _ & _ & Hl2).
  specialize (Hl2 e eq_refl). simpl in Hl2, Hr2, Hv2.
  rewrite (process_handler_cleans path c2) by done.
  assert (refresh_error e = raised) as Hraised.
  { unfold refresh_error, raised, timed_out.
    by destruct (PyStr.contains "timeout" (PyStr.lower (exc_str e))). }
  assert (refresh_error_log e
          = if timed_out then "refresh_excel_file exceeded the timeout of 30 minutes."
            else "An error occurred during refresh_excel_file execution: " +:+ exc_str e)
    as Hline by done.
  simpl. split_and!.
  - by rewrite Hraised.
  - apply new_log_app. simpl. rewrite Hl2, Hl1, Hraised, Hline, <- !app_assoc. done.
  - by rewrite lookup_delete_eq.
  - by rewrite Hr2, Hr1.
Qed.

(** X11. The monthly copy is made after the upload and is not undone with
    it: when the upload itself went through and a later step of the monthly
    copy fails, the upload raises with the refreshed file already on the
    site at the upload target, the local file still on disk, and the two
    lines logged so far. *)
Theorem archive_failure_keeps_first_upload (env : Env) (client : PyVal) (url : string)
    (parts : PathParts) (path v : string) (s s' : State) (e : PyExc) :
  split_path url = Some parts →
  files s !! path = Some v →
  sp env (SpGetFolder (upload_folder_of parts)) = None →
  sp env (SpUploadFile (upload_folder_of parts) (file_name parts) v) = None →
  upload_file_to_sharepoint env client (PStr url) path (PStr "MonthlyFolder") s
    = (Raise e, s') →
  remote_files s'
  = <[remote_key (upload_folder_of parts) (file_name parts) := v]> (remote_files s)
  ∧ files s' = files s
  ∧ new_log s s'
    = [ uploaded_line env (upload_folder_of parts) (file_name parts);
        (LInfo, "Custom function: MonthlyFolder") ].
Proof.
  intros Hsplit Hv E1 E2.
  unfold upload_file_to_sharepoint, as_str. unfold bind at 1. unfold ret at 1.
  rewrite Hsplit. unfold bind at 1. unfold of_option, ret at 1.
  unfold bind at 1. unfold execute_query at 1. rewrite E1.
  unfold bind at 1. unfold open_rb at 1. simpl files. rewrite Hv.
  unfold bind at 1. unfold upload_file at 1. unfold bind at 1. unfold execute_query at 1.
  rewrite E2.
  unfold bind, modify, ret, log_info, modify. simpl.
  unfold uploaded_line, remote_key.
  unfold monthly_folder, bind, log_info, modify, execute_query, locale_setlocale,
    folders_add, upload_file, open_rb, bind, execute_query, modify, ret, raise, os_remove.
  simpl.
  assert (∀ l1 l2 : LogLevel * string,
            new_log s (add_log l2 (add_log l1 s)) = [l1; l2]) as Hlog.
  { intros l1 l2. apply new_log_app. simpl. by rewrite <- app_assoc. }
  destruct (sp env (SpGetList "Dokumenter")) as [e1|] eqn:E3.
  { intros [= <- <-]. simpl. split_and!; try done. apply new_log_app. simpl.
    by rewrite <- app_assoc. }
  destruct (sp env (SpGetSubfolder (list_root env "Dokumenter") "Historik")) as [e1|] eqn:E4.
  { intros [= <- <-]. simpl. split_and!; try done. apply new_log_app. simpl.
    by rewrite <- app_assoc. }
  destruct (setlocale env "da_DK") as [e1|] eqn:E5.
  { intros [= <- <-]. simpl. split_and!; try done. apply new_log_app. simpl.
    by rewrite <- app_assoc. }
  destruct (sp env (SpAddFolder _ _)) as [e1|] eqn:E6.
  { intros [= <- <-]. simpl. split_and!; try done. apply new_log_app. simpl.
    by rewrite <- app_assoc. }
  destruct (sp env (SpAddFolder _ (PyStr.capitalize _))) as [e1|] eqn:E7.
  { intros [= <- <-]. simpl. split_and!; try done. apply new_log_app. simpl.
    by rewrite <- app_assoc. }
  simpl. rewrite Hv.
  destruct (sp env (SpUploadFile
                      (((list_root env "Dokumenter" +:+ "/" +:+ "Historik") +:+ "/"
                         +:+ pretty (now_year env)) +:+ "/"
                         +:+ PyStr.capitalize (da_DK_month (now_month env)))
                      ("DKPlan_" +:+ PyStr.capitalize (da_DK_month (now_month env))
                         +:+ "_" +:+ pretty (now_year env) +:+ ".xlsx") v))
    as [e1|] eqn:E8.
  { intros [= <- <-]. simpl. split_and!; try done. apply new_log_app. simpl.
    by rewrite <- app_assoc. }
  simpl. by rewrite Hv.
Qed.

(** *** What no run does *)

Section Bounds.

Context (env : Env).


(** The handler changes no local file but the one it is to remove, and
    nothing else. *)
Lemma process_handler_frame e s :
  dirs (process_handler e s).2 = dirs s
  ∧ remote_files (process_handler e s).2 = remote_files s
  ∧ ∀ p, local_file_path s ≠ Some p →
         files (process_handler e s).2 !! p = files s !! p.
Proof.
  unfold process_handler, bind, load_local_file_path, os_remove, log_error, modify, raise.
  destruct (local_file_path s) as [p|]; [|done].
  destruct (files s !! p) eqn:Hp; simpl.
  - split_and!; try done. intros q Hq. rewrite lookup_delete_ne; [done|congruence].
  - by destruct (bool_decide _).
Qed.

End Bounds.


(** X13. With nothing else touching the disk, the only local file a run can
    change is the write path of its FolderPath.  No run, however it ends,
    takes a file away from the site or removes a directory. *)
Theorem process_touches_only_the_write_path (env : Env)
    (queue_element : option QueueElement) (s : State) :
  undisturbed env →
  let s' := (process env queue_element s).2 in
  (∀ p, files s' !! p ≠ files s !! p →
        ∃ d url parts,
          queue_element = Some (mkQueueElement (JsonObject d))
          ∧ d !! "FolderPath" = Some (PStr url) ∧ split_path url = Some parts
          ∧ p = download_path_of env parts)
  ∧ (∀ k, is_Some (remote_files s !! k) → is_Some (remote_files s' !! k))
  ∧ dirs s ⊆ dirs s'.
Proof.
  intros Hquiet s'. subst s'. rewrite process_unfold.
  destruct queue_element as [[[| |d]]|]; try (simpl; by split_and!).
  destruct (credential env "Robot365User") as [e|[username password]];
    [simpl; by split_and!|].
  cbv zeta. set (site := dict_get d "SharePointSite").
  destruct (sp env (SpLoadWeb site username password)) as [e|]; [simpl; by split_and!|].
  set (cf := dict_get d "CustomFunction").
  set (s0 := authenticated env site username password s).
  destruct (dict_get d "FolderPath") as [|url|n] eqn:Hfp.
  1,3: (rewrite process_try_not_a_path by done; simpl; by split_and!).
  assert (d !! "FolderPath" = Some (PStr url)) as Hfp'.
  { unfold dict_get in Hfp. destruct (d !! "FolderPath") as [v|]; simpl in Hfp; by subst. }
  destruct (split_path_parts url) as (parts & Hsplit & _).
  set (p := download_path_of env parts).
  assert (∀ st : State,
            (∀ q, q ≠ p → files st !! q = files s !! q) →
            (∀ k, is_Some (remote_files s !! k) → is_Some (remote_files st !! k)) →
            dirs s ⊆ dirs st →
            (∀ q, files st !! q ≠ files s !! q →
                  ∃ d0 url0 parts0,
                    Some (mkQueueElement (JsonObject d)) = Some (mkQueueElement (JsonObject d0))
                    ∧ d0 !! "FolderPath" = Some (PStr url0) ∧ split_path url0 = Some parts0
                    ∧ q = download_path_of env parts0)
            ∧ (∀ k, is_Some (remote_files s !! k) → is_Some (remote_files st !! k))
            ∧ dirs s ⊆ dirs st) as Hgoal.
  { intros st Hf Hr Hd. split_and!; try done.
    intros q Hq. exists d, url, parts. split_and!; try done.
    destruct (decide (q = p)) as [->|Hne]; [done|]. by destruct Hq; apply Hf. }
  rewrite process_try_unfold.
  destruct (download_undisturbed env Hquiet site url parts s0 Hsplit)
    as (rd & s1 & Hdl & Hd1 & Hr1 & Hv1 & Hcases).
  rewrite Hdl.
  assert (dirs s ⊆ dirs s1) as Hds1.
  { rewrite Hd1. apply (dirs_after_makedirs env parts s0). }
  destruct Hcases as [(e & _ & -> & Hf1 & _)
                      | (_ & [(_ & [e ->] & Hf1 & _) | [(_ & _ & [e ->] & Hf1 & _)
                              | (_ & _ & (c & Hc & Hf1) & -> & _)]])].
  - rewrite process_handler_unbound by done. apply Hgoal; simpl; try done.
    + intros q _. by rewrite Hf1.
    + intros k. by rewrite Hr1.
  - rewrite process_handler_unbound by done. apply Hgoal; simpl; try done.
    + intros q _. by rewrite Hf1.
    + intros k. by rewrite Hr1.
  - rewrite process_handler_unbound by done. apply Hgoal; simpl; try done.
    + intros q Hq. fold p in Hf1. by rewrite Hf1, lookup_insert_ne.
    + intros k. by rewrite Hr1.
  - fold p in Hf1 |- *. rewrite process_rest_unfold.
    assert (files (set_local_file_path (Some p) s1) !! p = Some c) as Hc1'.
    { simpl. by rewrite Hf1, lookup_insert_eq. }
    destruct (refresh_excel_file_with_timeout env p (set_local_file_path (Some p) s1))
      as [rf s2] eqn:Hrf.
    pose proof (refresh_with_timeout_frame env p c _ _ s2 Hc1' Hrf)
      as (fut & -> & Hf2 & [c2 Hc2] & Hd2 & Hr2 & _ & Hv2 & _).
    simpl in Hf2, Hd2, Hr2, Hv2.
    assert (∀ q, q ≠ p → files s2 !! q = files s !! q) as Hf2'.
    { intros q Hq. by rewrite Hf2, Hf1, lookup_insert_ne. }
    assert (∀ e0 st, local_file_path st = Some p →
              (∀ q, q ≠ p → files st !! q = files s !! q) →
              (∀ k, is_Some (remote_files s !! k) → is_Some (remote_files st !! k)) →
              dirs s ⊆ dirs st →
              (∀ q, q ≠ p → files (process_handler e0 st).2 !! q = files s !! q)
              ∧ (∀ k, is_Some (remote_files s !! k)
                      → is_Some (remote_files (process_handler e0 st).2 !! k))
              ∧ dirs s ⊆ dirs (process_handler e0 st).2) as Hhandler.
    { intros e0 st Hv Hf Hr Hd.
      destruct (process_handler_frame e0 st) as (-> & -> & Hfh).
      split_and!; try done. intros q Hq. rewrite Hfh; [by apply Hf|]. rewrite Hv. congruence. }
    destruct fut as [|e0].
    + destruct (upload_summary env site url parts p cf c2 Hsplit)
        as (ru & lg & keys & Hru & Hup).
      destruct (Hup s2 Hc2) as (s3 & -> & _ & Hr3 & Hd3 & Hv3 & Hf3).
      assert (∀ k, is_Some (remote_files s !! k) → is_Some (remote_files s3 !! k)) as Hr3'.
      { intros k Hk. rewrite Hr3, lookup_insert_all. destruct (decide (k ∈ keys)); [done|].
        by rewrite Hr2, Hr1. }
      assert (dirs s ⊆ dirs s3) as Hd3' by (by rewrite Hd3, Hd2).
      destruct ru as [[]|e1|]; [| |done].
      * apply Hgoal; simpl; try done.
        intros q Hq. rewrite Hf3, lookup_delete_ne by done. by apply Hf2'.
      * destruct (Hhandler e1 s3) as (? & ? & ?); try done.
        -- by rewrite Hv3, Hv2.
        -- intros q Hq. rewrite Hf3. by apply Hf2'.
        -- by apply Hgoal.
    + destruct (Hhandler (refresh_error e0) (add_log (LError, refresh_error_log e0) s2))
        as (? & ? & ?); simpl; try done.
      * intros k. by rewrite Hr2, Hr1.
      * by rewrite Hd2.
      * by apply Hgoal.
Qed.

(** *** Where the upload goes *)

Lemma length_append (a b : string) :
  String.length (a +:+ b) = (String.length a + String.length b)%nat.
Proof.
  induction a as [|c a IH]; [done|].
  change (S (String.length (a +:+ b)) = S (String.length a + String.length b)).
  by rewrite IH.
Qed.

Lemma segments_two_has_sep (s : string) :
  (2 ≤ PathSpec.segments slash s)%nat → PathSpec.has_sep slash s = true.
Proof.
  intros H. destruct (PathSpec.has_sep slash s) eqn:Hs; [done|].
  rewrite (segments_no_sep slash s Hs) in H. lia.
Qed.

(** X14. The folder and the file name handed to the upload spell the
    FolderPath again exactly when the path has two segments, or three and
    more with something between its first and its last slash.  A path
    without a slash is uploaded under itself, [name/name], and a path whose
    middle is empty loses a slash: in both cases the upload does not go to
    the address the download asked for. *)
Theorem upload_target_round_trip (url : string) (parts : PathParts) :
  split_path url = Some parts →
  remote_key (upload_folder_of parts) (file_name parts) = url
  ↔ PathSpec.segments slash url = 2%nat
    ∨ ((3 ≤ PathSpec.segments slash url)%nat ∧ FOLDER_PATH parts ≠ "").
Proof.
  intros Hsplit. unfold remote_key. split.
  - intros Heq.
    destruct (split_path_parts url) as (parts' & Hsplit' & Hlib & Hname & Hfolder).
    assert (parts' = parts) as -> by congruence.
    pose proof (segments_pos slash url) as Hpos.
    destruct (decide (PathSpec.segments slash url = 1%nat)) as [H1|H1].
    { exfalso.
      assert (PathSpec.has_sep slash url = false) as Hs.
      { destruct (PathSpec.has_sep slash url) eqn:Hs; [|done].
        apply segments_has_sep in Hs. lia. }
      rewrite H1 in Hfolder. simpl in Hfolder.
      rewrite (before_first_no_sep slash url Hs) in Hlib.
      rewrite (after_last_no_sep slash url Hs) in Hname.
      unfold upload_folder_of in Heq. rewrite Hfolder, Hlib, Hname in Heq. simpl in Heq.
      apply (f_equal String.length) in Heq. rewrite !length_append in Heq.
      simpl in Heq. rewrite ?length_append in Heq. simpl in Heq. lia. }
    destruct (decide (PathSpec.segments slash url = 2%nat)) as [H2|H2]; [by left|].
    right. split; [lia|]. intros Hempty.
    assert (PathSpec.has_sep slash url = true) as Hs by (apply segments_two_has_sep; lia).
    pose proof (segments_after_first slash url Hs) as Hseg.
    assert (PathSpec.has_sep slash (PathSpec.after_first slash url) = true) as Hs'
      by (apply segments_two_has_sep; lia).
    rewrite (proj2 (Nat.leb_le 3 _)) in Hfolder by lia.
    rewrite Hempty in Hfolder. unfold PathSpec.middle in Hfolder.
    pose proof (first_rest slash url Hs) as Hurl.
    pose proof (front_last slash (PathSpec.after_first slash url) Hs') as Hrest.
    rewrite <- Hfolder, <- (after_last_after_first slash url Hs), <- Hname in Hrest.
    rewrite <- Hlib in Hurl.
    unfold upload_folder_of in Heq. rewrite Hempty in Heq. simpl in Heq.
    apply (f_equal String.length) in Heq, Hurl, Hrest.
    rewrite !length_append in Heq, Hurl, Hrest. simpl in Heq, Hurl, Hrest.
    rewrite ?length_append in Heq. simpl in Heq. lia.
  - intros [H2 | [H3 Hne]]; apply upload_target_is_path; try done; try lia;
      first [by left | by right].
Qed.

(** *** A refresh that is done in time *)

Section InTime.

Context (env : Env).

(** Calls that all return, within the time that is left, are all made. *)
Lemma com_seq_in_time cs k :
  ∀ s limit t,
    deadline s = Some limit →
    (∀ c, c ∈ cs → ∃ secs, com env c = ComReturns secs) →
    time_to_finish env cs = Some t →
    (elapsed s + t ≤ limit)%nat →
    (∀ p, WorkbooksOpen p ∈ cs → is_Some (files s !! p)) →
    ∃ s1, com_seq env cs k s = k s1 ∧ trace s1 = trace s ++ map EvCom cs.
Proof.
  induction cs as [|c cs IH]; intros s limit t Hd Hret Ht Hle Hopen.
  - exists s. simpl. by rewrite app_nil_r.
  - destruct (Hret c (list_elem_of_here _ _)) as [secs Hc].
    simpl in Ht. rewrite Hc in Ht.
    destruct (time_to_finish env cs) as [t'|] eqn:Ht'; [|done].
    injection Ht as <-.
    destruct (com_effect_opens env c (add_event (EvCom c) s)) as [s1 Heff].
    { intros p ->. simpl. apply Hopen, list_elem_of_here. }
    destruct (com_effect_clock env c _ s1 Heff) as (He1 & Hd1 & Hf1).
    destruct (com_effect_frame env c _ s1 Heff) as (Ht1 & _).
    assert (com_call env c s = (Ok tt, tick secs s1)) as Hcall.
    { unfold com_call. rewrite Hc. unfold in_time. rewrite Hd.
      rewrite (proj2 (Nat.leb_le _ _)) by lia. by rewrite Heff. }
    destruct (IH (tick secs s1) limit t') as (s2 & Hs2 & Ht2).
    + simpl. by rewrite Hd1.
    + intros c' Hc'. apply Hret. by apply list_elem_of_further.
    + done.
    + simpl. rewrite He1. simpl. lia.
    + intros p Hp. simpl. apply Hf1. simpl. apply Hopen. by apply list_elem_of_further.
    + exists s2. split.
      * simpl. unfold bind. by rewrite Hcall.
      * rewrite Ht2. simpl. rewrite Ht1. simpl. by rewrite <- app_assoc.
Qed.

End InTime.

(** X15. A refresh whose calls all return and together take no longer than
    the timeout is not stopped: the subprocess makes all eight calls, the
    future is done, and the file holds the refreshed workbook. *)
Theorem refresh_in_time_is_not_killed (env : Env) (path c : string) (s : State) :
  files s !! path = Some c →
  (∀ call, call ∈ refresh_steps path → ∃ secs, com env call = ComReturns secs) →
  overruns env path refresh_timeout = false →
  ∃ s', refresh_excel_file_with_timeout env path s = (Ok FutureDone, s')
    ∧ new_events s s' = EvSpawn refresh_timeout :: map EvCom (refresh_steps path)
    ∧ files s' !! path = Some (engine env c).
Proof.
  intros Hc Hret Hover.
  unfold overruns in Hover.
  destruct (time_to_finish env (refresh_steps path)) as [t|] eqn:Ht; [|done].
  apply Nat.ltb_ge in Hover.
  unfold refresh_excel_file_with_timeout, concurrent_process.
  set (s0 := set_clock 0 (Some refresh_timeout) (add_event (EvSpawn refresh_timeout) s)).
  destruct (com_seq_in_time env (refresh_steps path)
              (log_info ("[Ok] Excel file at " +:+ path +:+ " has been refreshed and saved."))
              s0 refresh_timeout t) as (s1 & Hrun & Htr); try done.
  { intros p Hp. apply refresh_steps_calls in Hp as [Hp _]. rewrite (Hp p eq_refl).
    simpl. by rewrite Hc. }
  rewrite <- refresh_excel_file_unfold in Hrun.
  pose proof (refresh_done_contents env path c s0 _ Hc Hrun) as Hdone.
  rewrite Hrun. unfold log_info, modify. eexists. split; [reflexivity|]. split.
  - apply new_events_app. simpl. rewrite Htr. simpl. by rewrite <- app_assoc.
  - exact Hdone.
Qed.

(** *** The further properties at a concrete installation *)

Section Instances.

Import Scenario.

(** A work item that is not JSON. *)
Lemma process_stops_before_login_witness :
  new_log site (process calm (Some (mkQueueElement JsonMalformed)) site).2
  = [(LTrace, "Running process.")].
Proof.
  destruct (process_stops_before_login calm (Some (mkQueueElement JsonMalformed)) site)
    as (_ & _ & H & _).
  - intros d Hd. discriminate Hd.
  - exact H.
Defined.

(** A work item that names the site only. *)
Lemma missing_folder_path_witness :
  (process calm (Some (mkQueueElement (JsonObject site_only))) site).1 = Raise exc_unbound.
Proof.
  destruct (missing_folder_path calm site_only "robot" "secret" site) as (H & _).
  - reflexivity.
  - reflexivity.
  - intros url. vm_compute. discriminate.
  - exact H.
Defined.

(** The site has no workbook missing.xlsx. *)
Lemma failed_request_leaves_empty_file_witness :
  files (process calm (work_item "Docs/Reports/missing.xlsx" PNone) site).2
  = <["/work/missing.xlsx" := ""]> (files site).
Proof.
  destruct (failed_request_leaves_empty_file calm (fields "Docs/Reports/missing.xlsx" PNone)
              "robot" "secret" "Docs/Reports/missing.xlsx"
              (mkPathParts "Docs" "Reports" "missing.xlsx") site) as (_ & H & _).
  - reflexivity.
  - reflexivity.
  - reflexivity.
  - reflexivity.
  - vm_compute. reflexivity.
  - refine (proj1 (bool_decide_eq_false _) _). vm_compute. reflexivity.
  - right. reflexivity.
  - exact H.
Defined.

(** The file is held back for three seconds. *)
Lemma download_waits_for_file_witness :
  (download_file_from_sharepoint late (PStr "https://x/sites/A")
     (PStr "Docs/Reports/plan.xlsx") site).1 = Ok "/work/plan.xlsx"
  ∧ new_events (download_request late "Docs/Reports/plan.xlsx" plan site).2
      (after_sleeps late 3 (download_request late "Docs/Reports/plan.xlsx" plan site).2)
    = [EvSleep 1; EvSleep 1; EvSleep 1].
Proof.
  destruct (download_waits_for_file late (PStr "https://x/sites/A")
              "Docs/Reports/plan.xlsx" plan site
              (download_request late "Docs/Reports/plan.xlsx" plan site).2 3) as [H1 H2].
  - reflexivity.
  - vm_compute. reflexivity.
  - lia.
  - intros j Hj. destruct j as [|[|[|j]]]; [vm_compute; reflexivity..|lia].
  - vm_compute. eexists. reflexivity.
  - split; [by rewrite H1|exact H2].
Defined.

(** The refresh of the downloaded workbook. *)
Lemma refresh_saves_in_place_witness :
  files (refresh_excel_file calm "/work/plan.xlsx" downloaded).2
  = <["/work/plan.xlsx" := "refreshed"]> (files downloaded).
Proof.
  destruct (refresh_saves_in_place calm "/work/plan.xlsx" "v0" downloaded
              (refresh_excel_file calm "/work/plan.xlsx" downloaded).2) as (H & _).
  - reflexivity.
  - vm_compute. reflexivity.
  - exact H.
Defined.

(** The run of the plain work item returns. *)
Lemma returning_run_removes_scratch_file_witness :
  files (process calm (work_item "Docs/Reports/plan.xlsx" PNone) site).2
    !! "/work/plan.xlsx" = None.
Proof.
  destruct (returning_run_removes_scratch_file calm
              (work_item "Docs/Reports/plan.xlsx" PNone) site
              (process calm (work_item "Docs/Reports/plan.xlsx" PNone) site).2)
    as (d & url & parts & Hq & Hfp & Hsplit & _ & H & _).
  - vm_compute. reflexivity.
  - injection Hq as <-. vm_compute in Hfp. injection Hfp as <-.
    vm_compute in Hsplit. injection Hsplit as <-.
    exact H.
Defined.

(** The refreshed workbook is back at the path. *)
Lemma returning_run_round_trip_witness :
  remote_files (process calm (work_item "Docs/Reports/plan.xlsx" PNone) site).2
    !! "Docs/Reports/plan.xlsx" = Some "refreshed".
Proof.
  destruct (returning_run_round_trip calm (work_item "Docs/Reports/plan.xlsx" PNone) site
              (process calm (work_item "Docs/Reports/plan.xlsx" PNone) site).2)
    as (d & url & parts & c & Hq & Hfp & Hsplit & Hc & H & _).
  - intros k fs. reflexivity.
  - vm_compute. reflexivity.
  - injection Hq as <-. vm_compute in Hfp. injection Hfp as <-.
    vm_compute in Hsplit. injection Hsplit as <-.
    rewrite H. vm_compute. reflexivity.
Defined.

(** The five lines of the plain run. *)
Lemma log_of_returning_run_witness :
  new_log site (process calm (work_item "Docs/Reports/plan.xlsx" PNone) site).2
  = [ (LTrace, "Running process.");
      (LInfo, "Authenticated successfully. Site Title: Planning");
      (LInfo, "[Ok] file has been downloaded into: /work/plan.xlsx");
      (LInfo, "[Ok] Excel file at /work/plan.xlsx has been refreshed and saved.");
      (LInfo, "[Ok] file has been uploaded to: /sites/A/Docs/Reports/plan.xlsx on SharePoint") ].
Proof.
  destruct (log_of_returning_run calm (work_item "Docs/Reports/plan.xlsx" PNone) site
              (process calm (work_item "Docs/Reports/plan.xlsx" PNone) site).2)
    as (d & url & parts & Hq & Hfp & Hsplit & H).
  - vm_compute. reflexivity.
  - injection Hq as <-. vm_compute in Hfp. injection Hfp as <-.
    vm_compute in Hsplit. injection Hsplit as <-.
    rewrite H. vm_compute. reflexivity.
Defined.

(** A failed login to a data source is reported as a timeout. *)
Lemma refresh_failure_is_reported_witness :
  (try_except (process_body unreachable (PStr "https://x/sites/A")
                 (PStr "Docs/Reports/plan.xlsx") PNone) process_handler site).1
  = Raise (mkExc RuntimeError "refresh_excel_file did not complete within the allowed time.").
Proof.
  destruct (refresh_failure_is_reported unreachable (PStr "https://x/sites/A") PNone
              "Docs/Reports/plan.xlsx" "/work/plan.xlsx" site
              (download_file_from_sharepoint unreachable (PStr "https://x/sites/A")
                 (PStr "Docs/Reports/plan.xlsx") site).2
              (refresh_excel_file_with_timeout unreachable "/work/plan.xlsx"
                 (set_local_file_path (Some "/work/plan.xlsx")
                    (download_file_from_sharepoint unreachable (PStr "https://x/sites/A")
                       (PStr "Docs/Reports/plan.xlsx") site).2)).2
              login_timeout) as (H & _).
  - vm_compute. reflexivity.
  - vm_compute. reflexivity.
  - exact H.
Defined.

(** The folder Historik is missing: the file is on the site all the same. *)
Lemma archive_failure_keeps_first_upload_witness :
  remote_files
    (upload_file_to_sharepoint no_archive (PStr "https://x/sites/A")
       (PStr "Docs/Reports/plan.xlsx") "/work/plan.xlsx" (PStr "MonthlyFolder") downloaded).2
    !! "Docs/Reports/plan.xlsx" = Some "v0"
  ∧ files
      (upload_file_to_sharepoint no_archive (PStr "https://x/sites/A")
         (PStr "Docs/Reports/plan.xlsx") "/work/plan.xlsx" (PStr "MonthlyFolder") downloaded).2
      !! "/work/plan.xlsx" = Some "v0".
Proof.
  destruct (archive_failure_keeps_first_upload no_archive (PStr "https://x/sites/A")
              "Docs/Reports/plan.xlsx" plan "/work/plan.xlsx" "v0" downloaded
              (upload_file_to_sharepoint no_archive (PStr "https://x/sites/A")
                 (PStr "Docs/Reports/plan.xlsx") "/work/plan.xlsx" (PStr "MonthlyFolder")
                 downloaded).2 no_folder) as (H1 & H2 & _).
  - reflexivity.
  - reflexivity.
  - reflexivity.
  - reflexivity.
  - vm_compute. reflexivity.
  - rewrite H1, H2. split; vm_compute; reflexivity.
Defined.


(** The workbook of the site is still there after the run. *)
Lemma process_touches_only_the_write_path_witness :
  is_Some (remote_files (process calm (work_item "Docs/Reports/plan.xlsx" PNone) site).2
             !! "Docs/Reports/plan.xlsx").
Proof.
  destruct (process_touches_only_the_write_path calm
              (work_item "Docs/Reports/plan.xlsx" PNone) site) as (_ & H & _).
  - intros k fs. reflexivity.
  - apply H. vm_compute. eexists. reflexivity.
Defined.

(** A path of three segments goes back where it came from, a path of one
    segment does not. *)
Lemma upload_target_round_trip_witness :
  remote_key (upload_folder_of plan) (file_name plan) = "Docs/Reports/plan.xlsx"
  ∧ remote_key (upload_folder_of (mkPathParts "plan.xlsx" "" "plan.xlsx")) "plan.xlsx"
    ≠ "plan.xlsx".
Proof.
  split.
  - apply (upload_target_round_trip "Docs/Reports/plan.xlsx" plan); [reflexivity|].
    right. split; [vm_compute; lia|discriminate].
  - intros H.
    apply (upload_target_round_trip "plan.xlsx" (mkPathParts "plan.xlsx" "" "plan.xlsx"))
      in H; [|reflexivity].
    destruct H as [H|[H _]]; vm_compute in H; [discriminate|lia].
Defined.

(** Eight calls of one second each. *)
Lemma refresh_in_time_is_not_killed_witness :
  (refresh_excel_file_with_timeout calm "/work/plan.xlsx" downloaded).1 = Ok FutureDone.
Proof.
  destruct (refresh_in_time_is_not_killed calm "/work/plan.xlsx" "v0" downloaded)
    as (s' & H & _).
  - reflexivity.
  - intros call _. exists 1%nat. reflexivity.
  - reflexivity.
  - by rewrite H.
Defined.

End Instances.

